(** * Optimistic social counters: ProfileCard, useMediaLike, useCreatorFollow

    A shallow embedding of the like / follow / comment logic of
    [src/components/ProfileCard.tsx] and of the media hooks [useMediaLike] and
    [useCreatorFollow], together with the [likes] table of the SQL schema;
    further on, of the hook [useMedia], of the seeding edge function and of
    [App].

    How the TypeScript is read:
    - a [useState] cell is a field of a record; a setter call writes the field;
    - an [async] function is split at its [await]: the part before it runs
      inside the event that invokes the function and leaves a [Task] (the
      suspended continuation with the constants it closed over) in the list of
      in-flight calls; the part after it runs when the call settles;
    - a handler reads state through the closure of the render that created it,
      so a world carries the cells ([st]) and the last rendered snapshot
      ([view]); a functional update ([setComments (prev => ...)]) reads [st];
    - counts are JavaScript numbers holding integers, modelled in [Z]. *)

From Stdlib Require Import ZArith QArith Bool Ascii String Lia.
From stdpp Require Import base option list strings pretty.

Local Open Scope Z_scope.
Local Open Scope string_scope.

(** ** The data-access client, as the code sees it *)

Module Supabase.

Record PostgrestError := { code : string; message : string }.

(** What an awaited query resolves to: [{ data, error, count }]
    (destructured that way in [fetchMedia], [addComment], [fetchCounts]). *)
Record Response (A : Type) := {
  data : option A;
  error : option PostgrestError;
  count : option nat
}.
Arguments data {A} _.
Arguments error {A} _.
Arguments count {A} _.

(** How an awaited promise settles: with a value, or by throwing into the
    enclosing [try]. A query the store refuses is reported in the [error]
    field of the value ([fetchMedia] reads it there and throws it on its
    own: [if (mediaError) throw mediaError]); [Rejected] is the case the
    [catch] blocks are written for. *)
Inductive Settled (A : Type) :=
| Fulfilled (value : A)
| Rejected (reason : string).
Arguments Fulfilled {A} _.
Arguments Rejected {A} _.

Definition ok {A} (d : option A) : Response A :=
  {| data := d; error := None; count := None |}.

Definition counted {A} (n : nat) : Response A :=
  {| data := None; error := None; count := Some n |}.

Definition failed {A} (e : PostgrestError) : Response A :=
  {| data := None; error := Some e; count := None |}.

(** [count || 0] *)
Definition or0 (c : option nat) : Z :=
  match c with Some n => Z.of_nat n | None => 0 end.

(** [!!data] *)
Definition truthy {A} (d : option A) : bool :=
  match d with Some _ => true | None => false end.

End Supabase.

Import Supabase.

(** [String.prototype.trim]. A string holds the UTF-8 bytes of the
    JavaScript string, as a string literal of this file does, so a white
    space character is one, two or three bytes long. The characters are
    those of ECMAScript's WhiteSpace and LineTerminator: U+0009 to U+000D
    and U+0020; U+00A0; U+1680, U+2000 to U+200A, U+2028, U+2029, U+202F,
    U+205F, U+3000 and U+FEFF. *)
Definition is_space (c : ascii) : bool :=
  let n := Ascii.nat_of_ascii c in
  ((9 <=? n)%nat && (n <=? 13)%nat) || (n =? 32)%nat.

(** U+00A0 is C2 A0. *)
Definition is_space2 (a b : ascii) : bool :=
  (Ascii.nat_of_ascii a =? 194)%nat && (Ascii.nat_of_ascii b =? 160)%nat.

(** U+1680 is E1 9A 80; U+2000 to U+200A are E2 80 80 to E2 80 8A; U+2028,
    U+2029 and U+202F are E2 80 A8, E2 80 A9 and E2 80 AF; U+205F is
    E2 81 9F; U+3000 is E3 80 80; U+FEFF is EF BB BF. *)
Definition is_space3 (a b c : ascii) : bool :=
  let x := Ascii.nat_of_ascii a in
  let y := Ascii.nat_of_ascii b in
  let z := Ascii.nat_of_ascii c in
  ((x =? 225)%nat && (y =? 154)%nat && (z =? 128)%nat)
  || ((x =? 226)%nat && (y =? 128)%nat &&
      (((128 <=? z)%nat && (z <=? 138)%nat)
       || (z =? 168)%nat || (z =? 169)%nat || (z =? 175)%nat))
  || ((x =? 226)%nat && (y =? 129)%nat && (z =? 159)%nat)
  || ((x =? 227)%nat && (y =? 128)%nat && (z =? 128)%nat)
  || ((x =? 239)%nat && (y =? 187)%nat && (z =? 191)%nat).

(** The text after one leading white space character, if there is one. *)
Definition skip_space (s : string) : option string :=
  match s with
  | String a r =>
      if is_space a then Some r else
      match r with
      | String b r2 =>
          if is_space2 a b then Some r2 else
          match r2 with
          | String c r3 => if is_space3 a b c then Some r3 else None
          | EmptyString => None
          end
      | EmptyString => None
      end
  | EmptyString => None
  end.

(** A text made of white space only. *)
Fixpoint blank (s : string) : bool :=
  match s with
  | EmptyString => true
  | String a r =>
      if is_space a then blank r else
      match r with
      | String b r2 =>
          if is_space2 a b then blank r2 else
          match r2 with
          | String c r3 => is_space3 a b c && blank r3
          | EmptyString => false
          end
      | EmptyString => false
      end
  end.

Fixpoint trim_start (s : string) : string :=
  match s with
  | String a r =>
      if is_space a then trim_start r else
      match r with
      | String b r2 =>
          if is_space2 a b then trim_start r2 else
          match r2 with
          | String c r3 => if is_space3 a b c then trim_start r3 else s
          | EmptyString => s
          end
      | EmptyString => s
      end
  | EmptyString => EmptyString
  end.

(** The longest prefix that leaves only white space behind it. *)
Fixpoint trim_end (s : string) : string :=
  match s with
  | String c r => if blank s then EmptyString else String c (trim_end r)
  | EmptyString => EmptyString
  end.

Definition trim (s : string) : string := trim_end (trim_start s).

(** [!s] on a string: the empty string is the only falsy one. *)
Definition falsy (s : string) : bool :=
  match s with EmptyString => true | _ => false end.

(** ** ProfileCard *)

Module ProfileCard.

(** The three tables the card talks to. *)
Inductive Table := likes | follows | comments.

(** [interface Comment] of the component. *)
Record Comment := {
  id : string;
  content : string;
  user_id : string;
  created_at : option string
}.

Record Props := { profile_id : string; currentUserId : string }.

(** The [useState] cells ([comments_] is the cell [comments]; the bare name
    is the table). *)
Record State := {
  likesCount : Z;
  followsCount : Z;
  commentsCount : Z;
  isLiked : bool;
  isFollowing : bool;
  showComments : bool;
  comments_ : list Comment;
  newComment : string
}.

Definition initial : State :=
  {| likesCount := 0; followsCount := 0; commentsCount := 0;
     isLiked := false; isFollowing := false; showComments := false;
     comments_ := []; newComment := "" |}.

(** The calls made on the client. *)
Inductive Query :=
| SelectCount (t : Table) (profile : string)
| SelectMaybeSingle (t : Table) (profile user : string)
| SelectComments (profile : string)
| Insert (t : Table) (profile user : string)
| InsertComment (profile user text : string)
| Delete (t : Table) (profile user : string).

Inductive Fetch := Counts | UserStatus | Comments.

(** A continuation suspended at an [await], with what it closed over.
    [AwaitFetch f rest]: inside [fetch<f>], called from a handler that will
    go on to await the fetches of [rest]. *)
Inductive Task :=
| AwaitToggleLike (previousLiked : bool) (previousCount : Z)
| AwaitToggleFollow (previousFollowing : bool) (previousCount : Z)
| AwaitAddComment (tempId : string) (commentsCount : Z)
| AwaitFetch (f : Fetch) (rest : list Fetch).

(** What the awaited expression of each task resolves to. *)
Inductive Payload :=
| CountsRes (likesRes followsRes commentsRes : Response unit)
| StatusRes (likeRes followRes : Response unit)
| CommentsRes (res : Response (list Comment))
| WriteRes (res : Response unit)
| InsertedRes (res : Response Comment).

Record World := {
  props : Props;
  st : State;              (* the state cells *)
  view : State;            (* the values closed over at the last render *)
  inflight : list Task;    (* suspended continuations, newest first *)
  calls : list Query;      (* calls issued so far, newest first *)
  mounted : bool;
  subscribed : bool;       (* the realtime channel *)
  unhandled : list string  (* rejections that escaped an async function *)
}.

Definition with_st (f : State -> State) (w : World) : World :=
  {| props := props w; st := f (st w); view := view w;
     inflight := inflight w; calls := calls w; mounted := mounted w;
     subscribed := subscribed w; unhandled := unhandled w |}.

(** *** Setters *)

Definition setLikesCount (n : Z) : World -> World :=
  with_st (fun s =>
    {| likesCount := n; followsCount := followsCount s;
       commentsCount := commentsCount s; isLiked := isLiked s;
       isFollowing := isFollowing s; showComments := showComments s;
       comments_ := comments_ s; newComment := newComment s |}).

Definition setFollowsCount (n : Z) : World -> World :=
  with_st (fun s =>
    {| likesCount := likesCount s; followsCount := n;
       commentsCount := commentsCount s; isLiked := isLiked s;
       isFollowing := isFollowing s; showComments := showComments s;
       comments_ := comments_ s; newComment := newComment s |}).

Definition setCommentsCount (n : Z) : World -> World :=
  with_st (fun s =>
    {| likesCount := likesCount s; followsCount := followsCount s;
       commentsCount := n; isLiked := isLiked s;
       isFollowing := isFollowing s; showComments := showComments s;
       comments_ := comments_ s; newComment := newComment s |}).

Definition setIsLiked (b : bool) : World -> World :=
  with_st (fun s =>
    {| likesCount := likesCount s; followsCount := followsCount s;
       commentsCount := commentsCount s; isLiked := b;
       isFollowing := isFollowing s; showComments := showComments s;
       comments_ := comments_ s; newComment := newComment s |}).

Definition setIsFollowing (b : bool) : World -> World :=
  with_st (fun s =>
    {| likesCount := likesCount s; followsCount := followsCount s;
       commentsCount := commentsCount s; isLiked := isLiked s;
       isFollowing := b; showComments := showComments s;
       comments_ := comments_ s; newComment := newComment s |}).

Definition setShowComments (b : bool) : World -> World :=
  with_st (fun s =>
    {| likesCount := likesCount s; followsCount := followsCount s;
       commentsCount := commentsCount s; isLiked := isLiked s;
       isFollowing := isFollowing s; showComments := b;
       comments_ := comments_ s; newComment := newComment s |}).

(** [setComments] takes an updater, as in [setComments((prev) => ...)]. *)
Definition setComments (f : list Comment -> list Comment) : World -> World :=
  with_st (fun s =>
    {| likesCount := likesCount s; followsCount := followsCount s;
       commentsCount := commentsCount s; isLiked := isLiked s;
       isFollowing := isFollowing s; showComments := showComments s;
       comments_ := f (comments_ s); newComment := newComment s |}).

Definition setNewComment (t : string) : World -> World :=
  with_st (fun s =>
    {| likesCount := likesCount s; followsCount := followsCount s;
       commentsCount := commentsCount s; isLiked := isLiked s;
       isFollowing := isFollowing s; showComments := showComments s;
       comments_ := comments_ s; newComment := t |}).

(** *** Talking to the client *)

Definition call (q : Query) (w : World) : World :=
  {| props := props w; st := st w; view := view w;
     inflight := inflight w; calls := q :: calls w; mounted := mounted w;
     subscribed := subscribed w; unhandled := unhandled w |}.

Definition await (t : Task) (w : World) : World :=
  {| props := props w; st := st w; view := view w;
     inflight := t :: inflight w; calls := calls w; mounted := mounted w;
     subscribed := subscribed w; unhandled := unhandled w |}.

Definition throw (reason : string) (w : World) : World :=
  {| props := props w; st := st w; view := view w;
     inflight := inflight w; calls := calls w; mounted := mounted w;
     subscribed := subscribed w; unhandled := reason :: unhandled w |}.

Definition settled (i : nat) (w : World) : World :=
  {| props := props w; st := st w; view := view w;
     inflight := delete i (inflight w); calls := calls w;
     mounted := mounted w; subscribed := subscribed w;
     unhandled := unhandled w |}.

(** Statements in sequence. *)
Declare Scope prog_scope.
Delimit Scope prog_scope with prog.
Notation "f ;; g" := (fun w : World => g (f w))
  (at level 100, g at level 200, right associativity, only parsing)
  : prog_scope.

Local Open Scope prog_scope.

(** *** The fetches (lines 27-57)

    Each issues its queries and suspends at the [await]. *)

Definition fetchCounts (rest : list Fetch) : World -> World := fun w =>
  (call (SelectCount likes (profile_id (props w))) ;;
   call (SelectCount follows (profile_id (props w))) ;;
   call (SelectCount comments (profile_id (props w))) ;;
   await (AwaitFetch Counts rest)) w.

Definition fetchUserStatus (rest : list Fetch) : World -> World := fun w =>
  (call (SelectMaybeSingle likes (profile_id (props w))
                           (currentUserId (props w))) ;;
   call (SelectMaybeSingle follows (profile_id (props w))
                           (currentUserId (props w))) ;;
   await (AwaitFetch UserStatus rest)) w.

Definition fetchComments (rest : list Fetch) : World -> World := fun w =>
  (call (SelectComments (profile_id (props w))) ;;
   await (AwaitFetch Comments rest)) w.

Definition fetch (f : Fetch) : list Fetch -> World -> World :=
  match f with
  | Counts => fetchCounts
  | UserStatus => fetchUserStatus
  | Comments => fetchComments
  end.

(** The handler that awaited a fetch goes on with its next [await]. *)
Definition continue (rest : list Fetch) : World -> World :=
  match rest with
  | [] => fun w => w
  | f :: rest' => fetch f rest'
  end.

(** After the [await Promise.all] of [fetchCounts]. *)
Definition fetchCounts_settled (likesRes followsRes commentsRes : Response unit)
  : World -> World :=
  setLikesCount (or0 (count likesRes)) ;;
  setFollowsCount (or0 (count followsRes)) ;;
  setCommentsCount (or0 (count commentsRes)).

Definition fetchUserStatus_settled (likeRes followRes : Response unit)
  : World -> World :=
  setIsLiked (truthy (data likeRes)) ;;
  setIsFollowing (truthy (data followRes)).

(** [setComments(data || [])] *)
Definition fetchComments_settled (res : Response (list Comment))
  : World -> World :=
  setComments (fun _ => default [] (data res)).

(** *** toggleLike (lines 114-131) *)

Definition toggleLike : World -> World := fun w =>
  let previousLiked := isLiked (view w) in
  let previousCount := likesCount (view w) in
  (setIsLiked (negb (isLiked (view w))) ;;
   setLikesCount (if isLiked (view w) then likesCount (view w) - 1
                  else likesCount (view w) + 1) ;;
   call (if previousLiked
         then Delete likes (profile_id (props w)) (currentUserId (props w))
         else Insert likes (profile_id (props w)) (currentUserId (props w))) ;;
   await (AwaitToggleLike previousLiked previousCount)) w.

(** The [try] block ends when the call is fulfilled, whatever the response
    holds; the [catch] block runs when the call throws. *)
Definition toggleLike_settled (previousLiked : bool) (previousCount : Z)
    (o : Settled (Response unit)) : World -> World :=
  match o with
  | Fulfilled _ => fun w => w
  | Rejected _ => setIsLiked previousLiked ;; setLikesCount previousCount
  end.

(** *** toggleFollow (lines 133-150) *)

Definition toggleFollow : World -> World := fun w =>
  let previousFollowing := isFollowing (view w) in
  let previousCount := followsCount (view w) in
  (setIsFollowing (negb (isFollowing (view w))) ;;
   setFollowsCount (if isFollowing (view w) then followsCount (view w) - 1
                    else followsCount (view w) + 1) ;;
   call (if previousFollowing
         then Delete follows (profile_id (props w)) (currentUserId (props w))
         else Insert follows (profile_id (props w)) (currentUserId (props w))) ;;
   await (AwaitToggleFollow previousFollowing previousCount)) w.

Definition toggleFollow_settled (previousFollowing : bool) (previousCount : Z)
    (o : Settled (Response unit)) : World -> World :=
  match o with
  | Fulfilled _ => fun w => w
  | Rejected _ =>
      setIsFollowing previousFollowing ;; setFollowsCount previousCount
  end.

(** *** addComment (lines 152-187)

    [now] is [Date.now()] and [iso] is [new Date().toISOString()]. *)

Definition tempId_of (now : N) : string := "temp-" +:+ pretty now.

Definition addComment (now : N) (iso : string) : World -> World := fun w =>
  if falsy (trim (newComment (view w))) then w else
  let commentText := trim (newComment (view w)) in
  let tempId := tempId_of now in
  let optimisticComment :=
    {| id := tempId; content := commentText;
       user_id := currentUserId (props w); created_at := Some iso |} in
  (setNewComment "" ;;
   setComments (fun prev => optimisticComment :: prev) ;;
   setCommentsCount (commentsCount (view w) + 1) ;;
   call (InsertComment (profile_id (props w)) (currentUserId (props w))
                       commentText) ;;
   await (AwaitAddComment tempId (commentsCount (view w)))) w.

(** [{ ...comment, id: data.id, created_at: data.created_at }] *)
Definition reconcile (tempId : string) (d : Comment) (c : Comment) : Comment :=
  if decide (id c = tempId)
  then {| id := id d; content := content c; user_id := user_id c;
          created_at := created_at d |}
  else c.

Definition addComment_settled (tempId : string) (commentsCount : Z)
    (o : Settled (Response Comment)) : World -> World :=
  match o with
  | Fulfilled res =>
      match data res with
      | Some d => setComments (fun prev => map (reconcile tempId d) prev)
      | None => fun w => w
      end
  | Rejected _ =>
      setComments (fun prev => filter (fun c => id c <> tempId) prev) ;;
      setCommentsCount commentsCount
  end.

(** *** The effect (lines 59-112) and the change handlers *)

Definition mount : World -> World := fun w =>
  (fetchCounts [] ;; fetchUserStatus [] ;; fetchComments [] ;;
   fun w' =>
     {| props := props w'; st := st w'; view := view w';
        inflight := inflight w'; calls := calls w'; mounted := true;
        subscribed := true; unhandled := unhandled w' |}) w.

(** The cleanup: [channel.unsubscribe()]. The cells stay in the world after
    it, so that the setter calls of a continuation that runs later remain
    visible (React itself drops the writes to an unmounted component). *)
Definition unmount (w : World) : World :=
  {| props := props w; st := st w; view := view w;
     inflight := inflight w; calls := calls w; mounted := false;
     subscribed := false; unhandled := unhandled w |}.

(** [async () => { await fetchCounts(); await fetch...(); }] *)
Definition onChange (t : Table) : World -> World :=
  match t with
  | likes | follows => fetchCounts [UserStatus]
  | comments => fetchCounts [Comments]
  end.

Definition render (w : World) : World :=
  {| props := props w; st := st w; view := st w;
     inflight := inflight w; calls := calls w; mounted := mounted w;
     subscribed := subscribed w; unhandled := unhandled w |}.

(** *** One component instance, event by event *)

Inductive Event :=
| Mount
| Render
| ClickLike
| ClickFollow
| ClickComments                       (* the button that shows the comments *)
| Input (text : string)               (* [onChange] of the input *)
| Send (now : N) (iso : string)       (* the send button, or Enter *)
| Notify (t : Table)                  (* a change of table [t] on this profile *)
| Settle (i : nat) (o : Settled Payload)  (* the [i]-th newest call settles *)
| Unmount.

(** The continuation of a task on the settlement of its call; [None] when
    the payload is not one the call can produce. *)
Definition resume (t : Task) (o : Settled Payload) (w : World)
  : option World :=
  match t, o with
  | AwaitToggleLike b n, Fulfilled (WriteRes r) =>
      Some (toggleLike_settled b n (Fulfilled r) w)
  | AwaitToggleLike b n, Rejected e =>
      Some (toggleLike_settled b n (Rejected e) w)
  | AwaitToggleFollow b n, Fulfilled (WriteRes r) =>
      Some (toggleFollow_settled b n (Fulfilled r) w)
  | AwaitToggleFollow b n, Rejected e =>
      Some (toggleFollow_settled b n (Rejected e) w)
  | AwaitAddComment t n, Fulfilled (InsertedRes r) =>
      Some (addComment_settled t n (Fulfilled r) w)
  | AwaitAddComment t n, Rejected e =>
      Some (addComment_settled t n (Rejected e) w)
  | AwaitFetch Counts rest, Fulfilled (CountsRes l f c) =>
      Some ((fetchCounts_settled l f c ;; continue rest) w)
  | AwaitFetch UserStatus rest, Fulfilled (StatusRes l f) =>
      Some ((fetchUserStatus_settled l f ;; continue rest) w)
  | AwaitFetch Comments rest, Fulfilled (CommentsRes r) =>
      Some ((fetchComments_settled r ;; continue rest) w)
  | AwaitFetch _ _, Rejected e => Some (throw e w)
  | _, _ => None
  end.

Definition step (e : Event) (w : World) : option World :=
  match e with
  | Mount => if mounted w then None else Some (mount w)
  | Render => if mounted w then Some (render w) else None
  | ClickLike => if mounted w then Some (toggleLike w) else None
  | ClickFollow => if mounted w then Some (toggleFollow w) else None
  | ClickComments =>
      if mounted w
      then Some (setShowComments (negb (showComments (view w))) w)
      else None
  | Input text => if mounted w then Some (setNewComment text w) else None
  | Send now iso => if mounted w then Some (addComment now iso w) else None
  | Notify t => Some (if subscribed w then onChange t w else w)
  | Settle i o =>
      match inflight w !! i with
      | Some t => resume t o (settled i w)
      | None => None
      end
  | Unmount => if mounted w then Some (unmount w) else None
  end.

Fixpoint run (es : list Event) (w : World) : option World :=
  match es with
  | [] => Some w
  | e :: es' =>
      match step e w with
      | Some w' => run es' w'
      | None => None
      end
  end.

(** The world before the effect of the first render has run. *)
Definition fresh (p : Props) : World :=
  {| props := p; st := initial; view := initial; inflight := []; calls := [];
     mounted := false; subscribed := false; unhandled := [] |}.

(** Worlds a component instance can be in. *)
Definition reachable (p : Props) (w : World) : Prop :=
  exists es, run es (fresh p) = Some w.

End ProfileCard.

(** ** useMediaLike *)

Module UseMediaLike.

Record State := { isLiked : bool; likesCount : Z; loading : bool }.

Definition initial : State :=
  {| isLiked := false; likesCount := 0; loading := false |}.

Inductive Query :=
| SelectMaybeSingle (media user : string)
| SelectCount (media : string)
| Insert (media user : string)
| Delete (media user : string).

Inductive Task :=
| AwaitToggleLike (previousLiked : bool) (previousCount : Z)
| AwaitCheckLikeStatus.

Inductive Payload :=
| StatusRes (likeRes countRes : Response unit)
| WriteRes (res : Response unit).

Record World := {
  mediaId : string;
  user : option string;     (* [useAuth().user], by its id *)
  st : State;
  view : State;
  inflight : list Task;     (* newest first *)
  calls : list Query;       (* newest first *)
  console : list string;    (* [console.error] lines, newest first *)
  mounted : bool;
  subscribed : bool;
  unhandled : list string
}.

Definition with_st (f : State -> State) (w : World) : World :=
  {| mediaId := mediaId w; user := user w; st := f (st w); view := view w;
     inflight := inflight w; calls := calls w; console := console w;
     mounted := mounted w; subscribed := subscribed w;
     unhandled := unhandled w |}.

Definition setIsLiked (b : bool) : World -> World :=
  with_st (fun s =>
    {| isLiked := b; likesCount := likesCount s; loading := loading s |}).

Definition setLikesCount (n : Z) : World -> World :=
  with_st (fun s =>
    {| isLiked := isLiked s; likesCount := n; loading := loading s |}).

Definition setLoading (b : bool) : World -> World :=
  with_st (fun s =>
    {| isLiked := isLiked s; likesCount := likesCount s; loading := b |}).

Definition call (q : Query) (w : World) : World :=
  {| mediaId := mediaId w; user := user w; st := st w; view := view w;
     inflight := inflight w; calls := q :: calls w; console := console w;
     mounted := mounted w; subscribed := subscribed w;
     unhandled := unhandled w |}.

Definition await (t : Task) (w : World) : World :=
  {| mediaId := mediaId w; user := user w; st := st w; view := view w;
     inflight := t :: inflight w; calls := calls w; console := console w;
     mounted := mounted w; subscribed := subscribed w;
     unhandled := unhandled w |}.

Definition console_error (line : string) (w : World) : World :=
  {| mediaId := mediaId w; user := user w; st := st w; view := view w;
     inflight := inflight w; calls := calls w; console := line :: console w;
     mounted := mounted w; subscribed := subscribed w;
     unhandled := unhandled w |}.

Definition throw (reason : string) (w : World) : World :=
  {| mediaId := mediaId w; user := user w; st := st w; view := view w;
     inflight := inflight w; calls := calls w; console := console w;
     mounted := mounted w; subscribed := subscribed w;
     unhandled := reason :: unhandled w |}.

Definition settled (i : nat) (w : World) : World :=
  {| mediaId := mediaId w; user := user w; st := st w; view := view w;
     inflight := delete i (inflight w); calls := calls w;
     console := console w; mounted := mounted w;
     subscribed := subscribed w; unhandled := unhandled w |}.

Declare Scope hook_scope.
Notation "f ;; g" := (fun w : World => g (f w))
  (at level 100, g at level 200, right associativity, only parsing)
  : hook_scope.
Local Open Scope hook_scope.

(** checkLikeStatus (lines 378-388) *)
Definition checkLikeStatus : World -> World := fun w =>
  match user w with
  | None => w
  | Some uid =>
      (call (SelectMaybeSingle (mediaId w) uid) ;;
       call (SelectCount (mediaId w)) ;;
       await AwaitCheckLikeStatus) w
  end.

Definition checkLikeStatus_settled (likeRes countRes : Response unit)
  : World -> World :=
  setIsLiked (truthy (data likeRes)) ;;
  setLikesCount (or0 (count countRes)).

(** toggleLike (lines 390-413) *)
Definition toggleLike : World -> World := fun w =>
  match user w with
  | None => w
  | Some uid =>
      let previousLiked := isLiked (view w) in
      let previousCount := likesCount (view w) in
      (setIsLiked (negb (isLiked (view w))) ;;
       setLikesCount (if isLiked (view w) then likesCount (view w) - 1
                      else likesCount (view w) + 1) ;;
       setLoading true ;;
       call (if previousLiked then Delete (mediaId w) uid
             else Insert (mediaId w) uid) ;;
       await (AwaitToggleLike previousLiked previousCount)) w
  end.

(** [try] ends normally on fulfilment; [catch] on a throw; [finally] always. *)
Definition toggleLike_settled (previousLiked : bool) (previousCount : Z)
    (o : Settled (Response unit)) : World -> World :=
  match o with
  | Fulfilled _ => setLoading false
  | Rejected _ =>
      setIsLiked previousLiked ;;
      setLikesCount previousCount ;;
      console_error "Error toggling like:" ;;
      setLoading false
  end.

(** The effect (lines 415-437). *)
Definition mount : World -> World := fun w =>
  (checkLikeStatus ;;
   fun w' =>
     {| mediaId := mediaId w'; user := user w'; st := st w'; view := view w';
        inflight := inflight w'; calls := calls w'; console := console w';
        mounted := true; subscribed := true; unhandled := unhandled w' |}) w.

Definition unmount (w : World) : World :=
  {| mediaId := mediaId w; user := user w; st := st w; view := view w;
     inflight := inflight w; calls := calls w; console := console w;
     mounted := false; subscribed := false; unhandled := unhandled w |}.

Definition render (w : World) : World :=
  {| mediaId := mediaId w; user := user w; st := st w; view := st w;
     inflight := inflight w; calls := calls w; console := console w;
     mounted := mounted w; subscribed := subscribed w;
     unhandled := unhandled w |}.

Inductive Event :=
| Mount
| Render
| Toggle                                  (* the caller invokes [toggleLike] *)
| Notify                                  (* a change of [media_likes] *)
| Settle (i : nat) (o : Settled Payload)
| Unmount.

Definition resume (t : Task) (o : Settled Payload) (w : World)
  : option World :=
  match t, o with
  | AwaitToggleLike b n, Fulfilled (WriteRes r) =>
      Some (toggleLike_settled b n (Fulfilled r) w)
  | AwaitToggleLike b n, Rejected e =>
      Some (toggleLike_settled b n (Rejected e) w)
  | AwaitCheckLikeStatus, Fulfilled (StatusRes l c) =>
      Some (checkLikeStatus_settled l c w)
  | AwaitCheckLikeStatus, Rejected e => Some (throw e w)
  | _, _ => None
  end.

Definition step (e : Event) (w : World) : option World :=
  match e with
  | Mount => if mounted w then None else Some (mount w)
  | Render => if mounted w then Some (render w) else None
  | Toggle => if mounted w then Some (toggleLike w) else None
  | Notify => Some (if subscribed w then checkLikeStatus w else w)
  | Settle i o =>
      match inflight w !! i with
      | Some t => resume t o (settled i w)
      | None => None
      end
  | Unmount => if mounted w then Some (unmount w) else None
  end.

Fixpoint run (es : list Event) (w : World) : option World :=
  match es with
  | [] => Some w
  | e :: es' =>
      match step e w with
      | Some w' => run es' w'
      | None => None
      end
  end.

Definition fresh (media : string) (u : option string) : World :=
  {| mediaId := media; user := u; st := initial; view := initial;
     inflight := []; calls := []; console := []; mounted := false;
     subscribed := false; unhandled := [] |}.

End UseMediaLike.

(** ** useCreatorFollow *)

Module UseCreatorFollow.

Record State := { isFollowing : bool; followsCount : Z; loading : bool }.

Definition initial : State :=
  {| isFollowing := false; followsCount := 0; loading := false |}.

Inductive Query :=
| SelectMaybeSingle (creator follower : string)
| SelectCount (creator : string)
| Insert (creator follower : string)
| Delete (creator follower : string).

Inductive Task :=
| AwaitToggleFollow (previousFollowing : bool) (previousCount : Z)
| AwaitCheckFollowStatus.

Inductive Payload :=
| StatusRes (followRes countRes : Response unit)
| WriteRes (res : Response unit).

Record World := {
  creatorId : string;
  user : option string;
  st : State;
  view : State;
  inflight : list Task;
  calls : list Query;
  console : list string;
  mounted : bool;
  subscribed : bool;
  unhandled : list string
}.

Definition with_st (f : State -> State) (w : World) : World :=
  {| creatorId := creatorId w; user := user w; st := f (st w);
     view := view w; inflight := inflight w; calls := calls w;
     console := console w; mounted := mounted w;
     subscribed := subscribed w; unhandled := unhandled w |}.

Definition setIsFollowing (b : bool) : World -> World :=
  with_st (fun s =>
    {| isFollowing := b; followsCount := followsCount s;
       loading := loading s |}).

Definition setFollowsCount (n : Z) : World -> World :=
  with_st (fun s =>
    {| isFollowing := isFollowing s; followsCount := n;
       loading := loading s |}).

Definition setLoading (b : bool) : World -> World :=
  with_st (fun s =>
    {| isFollowing := isFollowing s; followsCount := followsCount s;
       loading := b |}).

Definition call (q : Query) (w : World) : World :=
  {| creatorId := creatorId w; user := user w; st := st w; view := view w;
     inflight := inflight w; calls := q :: calls w; console := console w;
     mounted := mounted w; subscribed := subscribed w;
     unhandled := unhandled w |}.

Definition await (t : Task) (w : World) : World :=
  {| creatorId := creatorId w; user := user w; st := st w; view := view w;
     inflight := t :: inflight w; calls := calls w; console := console w;
     mounted := mounted w; subscribed := subscribed w;
     unhandled := unhandled w |}.

Definition console_error (line : string) (w : World) : World :=
  {| creatorId := creatorId w; user := user w; st := st w; view := view w;
     inflight := inflight w; calls := calls w; console := line :: console w;
     mounted := mounted w; subscribed := subscribed w;
     unhandled := unhandled w |}.

Definition throw (reason : string) (w : World) : World :=
  {| creatorId := creatorId w; user := user w; st := st w; view := view w;
     inflight := inflight w; calls := calls w; console := console w;
     mounted := mounted w; subscribed := subscribed w;
     unhandled := reason :: unhandled w |}.

Definition settled (i : nat) (w : World) : World :=
  {| creatorId := creatorId w; user := user w; st := st w; view := view w;
     inflight := delete i (inflight w); calls := calls w;
     console := console w; mounted := mounted w;
     subscribed := subscribed w; unhandled := unhandled w |}.

Declare Scope follow_scope.
Notation "f ;; g" := (fun w : World => g (f w))
  (at level 100, g at level 200, right associativity, only parsing)
  : follow_scope.
Local Open Scope follow_scope.

(** checkFollowStatus (lines 448-463) *)
Definition checkFollowStatus : World -> World := fun w =>
  match user w with
  | None => w
  | Some uid =>
      (call (SelectMaybeSingle (creatorId w) uid) ;;
       call (SelectCount (creatorId w)) ;;
       await AwaitCheckFollowStatus) w
  end.

Definition checkFollowStatus_settled (followRes countRes : Response unit)
  : World -> World :=
  setIsFollowing (truthy (data followRes)) ;;
  setFollowsCount (or0 (count countRes)).

(** toggleFollow (lines 465-497) *)
Definition toggleFollow : World -> World := fun w =>
  match user w with
  | None => w
  | Some uid =>
      let previousFollowing := isFollowing (view w) in
      let previousCount := followsCount (view w) in
      (setIsFollowing (negb (isFollowing (view w))) ;;
       setFollowsCount (if isFollowing (view w) then followsCount (view w) - 1
                        else followsCount (view w) + 1) ;;
       setLoading true ;;
       call (if previousFollowing then Delete (creatorId w) uid
             else Insert (creatorId w) uid) ;;
       await (AwaitToggleFollow previousFollowing previousCount)) w
  end.

Definition toggleFollow_settled (previousFollowing : bool)
    (previousCount : Z) (o : Settled (Response unit)) : World -> World :=
  match o with
  | Fulfilled _ => setLoading false
  | Rejected _ =>
      setIsFollowing previousFollowing ;;
      setFollowsCount previousCount ;;
      console_error "Error toggling follow:" ;;
      setLoading false
  end.

(** The effect (lines 499-521). *)
Definition mount : World -> World := fun w =>
  (checkFollowStatus ;;
   fun w' =>
     {| creatorId := creatorId w'; user := user w'; st := st w';
        view := view w'; inflight := inflight w'; calls := calls w';
        console := console w'; mounted := true; subscribed := true;
        unhandled := unhandled w' |}) w.

Definition unmount (w : World) : World :=
  {| creatorId := creatorId w; user := user w; st := st w; view := view w;
     inflight := inflight w; calls := calls w; console := console w;
     mounted := false; subscribed := false; unhandled := unhandled w |}.

Definition render (w : World) : World :=
  {| creatorId := creatorId w; user := user w; st := st w; view := st w;
     inflight := inflight w; calls := calls w; console := console w;
     mounted := mounted w; subscribed := subscribed w;
     unhandled := unhandled w |}.

Inductive Event :=
| Mount
| Render
| Toggle
| Notify
| Settle (i : nat) (o : Settled Payload)
| Unmount.

Definition resume (t : Task) (o : Settled Payload) (w : World)
  : option World :=
  match t, o with
  | AwaitToggleFollow b n, Fulfilled (WriteRes r) =>
      Some (toggleFollow_settled b n (Fulfilled r) w)
  | AwaitToggleFollow b n, Rejected e =>
      Some (toggleFollow_settled b n (Rejected e) w)
  | AwaitCheckFollowStatus, Fulfilled (StatusRes l c) =>
      Some (checkFollowStatus_settled l c w)
  | AwaitCheckFollowStatus, Rejected e => Some (throw e w)
  | _, _ => None
  end.

Definition step (e : Event) (w : World) : option World :=
  match e with
  | Mount => if mounted w then None else Some (mount w)
  | Render => if mounted w then Some (render w) else None
  | Toggle => if mounted w then Some (toggleFollow w) else None
  | Notify => Some (if subscribed w then checkFollowStatus w else w)
  | Settle i o =>
      match inflight w !! i with
      | Some t => resume t o (settled i w)
      | None => None
      end
  | Unmount => if mounted w then Some (unmount w) else None
  end.

Fixpoint run (es : list Event) (w : World) : option World :=
  match es with
  | [] => Some w
  | e :: es' =>
      match step e w with
      | Some w' => run es' w'
      | None => None
      end
  end.

Definition fresh (creator : string) (u : option string) : World :=
  {| creatorId := creator; user := u; st := initial; view := initial;
     inflight := []; calls := []; console := []; mounted := false;
     subscribed := false; unhandled := [] |}.

End UseCreatorFollow.

(** ** The [likes] table (SQL schema)

    [UNIQUE(user_id, profile_id)]; the columns [id] and [created_at] are
    never read by the component and are left out. The answers are the
    responses the client hands back for each query. *)

Module LikesTable.

Record Row := { user_id : string; profile_id : string }.

Definition of_profile (profile : string) (r : Row) : bool :=
  bool_decide (profile_id r = profile).

Definition of_pair (user profile : string) (r : Row) : bool :=
  bool_decide (user_id r = user) && bool_decide (profile_id r = profile).

(** [select('*', { count: 'exact' }).eq('profile_id', profile)] *)
Definition count_of (profile : string) (t : list Row) : nat :=
  length (List.filter (of_profile profile) t).

Definition select_count (profile : string) (t : list Row) : Response unit :=
  counted (count_of profile t).

(** [select('*').eq(...).eq(...).maybeSingle()] *)
Definition select_maybeSingle (user profile : string) (t : list Row)
  : Response unit :=
  ok (if existsb (of_pair user profile) t then Some tt else None).

Definition unique_violation : PostgrestError :=
  {| code := "23505";
     message := "duplicate key value violates unique constraint" |}.

(** [insert([{ profile_id, user_id }])]: the constraint answers a second
    row for the pair with an error in the response. *)
Definition insert (user profile : string) (t : list Row)
  : list Row * Response unit :=
  if existsb (of_pair user profile) t
  then (t, failed unique_violation)
  else ((t ++ [{| user_id := user; profile_id := profile |}])%list, ok None).

End LikesTable.

(** ** Values caught by [catch]

    An instance of [Error] with its message, or anything else. *)
Inductive Thrown :=
| ErrorInstance (message : string)
| OtherValue.

(** ** useMedia *)

Module UseMedia.

Inductive MediaType :=
| music_video | movie | audio_music | blog | gallery | resource.

(** [interface MediaItem]; the optional numbers are kept as rationals. *)
Record MediaItem := {
  id : string;
  creator_id : string;
  title : string;
  description : string;
  type_ : MediaType;
  category : string;
  thumbnail_url : string;
  duration : option string;
  read_time : option string;
  is_premium : bool;
  price : option Q;
  rating : option Q;
  view_count : Z;
  created_at : string;
  updated_at : string
}.

Record Creator := { name : string; username : string }.

(** [interface MediaItemWithStats extends MediaItem]: [item] holds the
    fields spread from the row. *)
Record MediaItemWithStats := {
  item : MediaItem;
  creator : option Creator;
  likes_count : Z;
  is_liked_by_user : bool;
  follows_count : Z;
  is_followed_by_user : bool
}.

(** The arguments of the hook. *)
Record Args := {
  type : option string;
  category_arg : option string;
  limit : option Z
}.

Record State := {
  media : list MediaItemWithStats;
  loading : bool;
  error_ : option string
}.

Definition initial : State :=
  {| media := []; loading := true; error_ := None |}.

(** [supabase.from('media').select('*')] with its optional [eq] filters,
    ordered by [created_at] descending and limited. *)
Record Query := {
  eq_type : option string;
  eq_category : option string;
  limit_to : Z
}.

(** What the five queries made for one item resolved to. *)
Record ItemAnswers := {
  creatorRes : Response Creator;
  likesRes : Response unit;
  followsRes : Response unit;
  likedRes : Response unit;
  followedRes : Response unit
}.

Inductive Task :=
| AwaitQuery
| AwaitEnrich (mediaData : list MediaItem).

Inductive Payload :=
| QueryRes (res : Response (list MediaItem))
| EnrichRes (answers : list ItemAnswers).

Record World := {
  user : option string;
  args : Args;
  st : State;
  inflight : list Task;    (* newest first *)
  calls : list Query;      (* newest first *)
  console : list string
}.

Definition with_st (f : State -> State) (w : World) : World :=
  {| user := user w; args := args w; st := f (st w);
     inflight := inflight w; calls := calls w; console := console w |}.

Definition setMedia (l : list MediaItemWithStats) : World -> World :=
  with_st (fun s => {| media := l; loading := loading s; error_ := error_ s |}).

Definition setLoading (b : bool) : World -> World :=
  with_st (fun s => {| media := media s; loading := b; error_ := error_ s |}).

Definition setError (e : option string) : World -> World :=
  with_st (fun s => {| media := media s; loading := loading s; error_ := e |}).

Definition call (q : Query) (w : World) : World :=
  {| user := user w; args := args w; st := st w;
     inflight := inflight w; calls := q :: calls w; console := console w |}.

Definition await (t : Task) (w : World) : World :=
  {| user := user w; args := args w; st := st w;
     inflight := t :: inflight w; calls := calls w; console := console w |}.

Definition console_error (line : string) (w : World) : World :=
  {| user := user w; args := args w; st := st w;
     inflight := inflight w; calls := calls w; console := line :: console w |}.

Definition settled (i : nat) (w : World) : World :=
  {| user := user w; args := args w; st := st w;
     inflight := delete i (inflight w); calls := calls w;
     console := console w |}.

Definition with_args (a : Args) (w : World) : World :=
  {| user := user w; args := a; st := st w;
     inflight := inflight w; calls := calls w; console := console w |}.

Declare Scope media_scope.
Notation "f ;; g" := (fun w : World => g (f w))
  (at level 100, g at level 200, right associativity, only parsing)
  : media_scope.
Local Open Scope media_scope.

(** [if (type)]: an argument that is given and not the empty string. *)
Definition given (s : option string) : option string :=
  match s with
  | Some t => if falsy t then None else Some t
  | None => None
  end.

(** [if (category && category !== 'all')] *)
Definition given_category (s : option string) : option string :=
  match given s with
  | Some c => if decide (c = "all") then None else Some c
  | None => None
  end.

(** The query of lines 311-322; [limit] defaults to 50. *)
Definition query_of (a : Args) : Query :=
  {| eq_type := given (type a);
     eq_category := given_category (category_arg a);
     limit_to := default 50 (limit a) |}.

(** The object returned for one item (lines 343-350). *)
Definition enrich (u : option string) (i : MediaItem) (a : ItemAnswers)
  : MediaItemWithStats :=
  let isLiked :=
    match u with Some _ => truthy (data (likedRes a)) | None => false end in
  let isFollowed :=
    match u with Some _ => truthy (data (followedRes a)) | None => false end in
  {| item := i;
     creator := data (creatorRes a);
     likes_count := or0 (count (likesRes a));
     is_liked_by_user := isLiked;
     follows_count := or0 (count (followsRes a));
     is_followed_by_user := isFollowed |}.

(** [Promise.all(mediaData.map(...))] fulfilled: one object per row, in the
    order of the rows. *)
Fixpoint enrich_all (u : option string) (rows : list MediaItem)
    (answers : list ItemAnswers) : option (list MediaItemWithStats) :=
  match rows, answers with
  | [], [] => Some []
  | i :: rows', a :: answers' =>
      match enrich_all u rows' answers' with
      | Some l => Some (enrich u i a :: l)
      | None => None
      end
  | _, _ => None
  end.

(** fetchMedia (lines 308-363), up to its first [await]. *)
Definition fetchMedia : World -> World := fun w =>
  (setLoading true ;;
   call (query_of (args w)) ;;
   await AwaitQuery) w.

(** The [catch] block. *)
Definition caught (t : Thrown) : World -> World :=
  setError (Some match t with
                 | ErrorInstance m => m
                 | OtherValue => "Failed to fetch media"
                 end) ;;
  console_error "Error fetching media:".

(** The [finally] block. *)
Definition finally : World -> World := setLoading false.

(** After the first [await]. [is_Error e] tells whether the error object
    of a response is an instance of [Error], which is up to the client
    library; a rejected promise carries an [Error] with the reason as its
    message. With no rows, [Promise.all([])] is fulfilled with no query
    sent, and the function runs to its end. *)
Definition fetchMedia_queried (is_Error : PostgrestError -> bool)
    (o : Settled (Response (list MediaItem))) : World -> World :=
  match o with
  | Rejected reason => caught (ErrorInstance reason) ;; finally
  | Fulfilled res =>
      match error res with
      | Some mediaError =>
          caught (if is_Error mediaError
                  then ErrorInstance (Supabase.message mediaError)
                  else OtherValue) ;;
          finally
      | None =>
          match data res with
          | Some [] => setMedia [] ;; finally
          | Some mediaData => await (AwaitEnrich mediaData)
          | None => finally
          end
      end
  end.

(** After [await Promise.all(...)]; [None] when the answers do not match
    the rows one to one. *)
Definition fetchMedia_enriched (mediaData : list MediaItem)
    (o : Settled (list ItemAnswers)) (w : World) : option World :=
  match o with
  | Rejected reason => Some ((caught (ErrorInstance reason) ;; finally) w)
  | Fulfilled answers =>
      match enrich_all (user w) mediaData answers with
      | Some enrichedMedia => Some ((setMedia enrichedMedia ;; finally) w)
      | None => None
      end
  end.

Inductive Event :=
| Mount                       (* the effect of the first render *)
| Refetch                     (* the caller invokes [refetch] *)
| Rerender (a : Args)         (* the caller renders with these arguments *)
| Settle (i : nat) (o : Settled Payload).

Definition resume (is_Error : PostgrestError -> bool) (t : Task)
    (o : Settled Payload) (w : World) : option World :=
  match t, o with
  | AwaitQuery, Fulfilled (QueryRes r) =>
      Some (fetchMedia_queried is_Error (Fulfilled r) w)
  | AwaitQuery, Rejected e =>
      Some (fetchMedia_queried is_Error (Rejected e) w)
  | AwaitEnrich rows, Fulfilled (EnrichRes a) =>
      fetchMedia_enriched rows (Fulfilled a) w
  | AwaitEnrich rows, Rejected e =>
      fetchMedia_enriched rows (Rejected e) w
  | _, _ => None
  end.

(** The effect runs again when [type], [category] or [limit] changed;
    [limit] is the parameter with its default, [limit: number = 50]. *)
Definition step (is_Error : PostgrestError -> bool) (e : Event) (w : World)
  : option World :=
  match e with
  | Mount | Refetch => Some (fetchMedia w)
  | Rerender a =>
      if decide (type a = type (args w) /\
                 category_arg a = category_arg (args w) /\
                 default 50 (limit a) = default 50 (limit (args w)))
      then Some (with_args a w)
      else Some (fetchMedia (with_args a w))
  | Settle i o =>
      match inflight w !! i with
      | Some t => resume is_Error t o (settled i w)
      | None => None
      end
  end.

Fixpoint run (is_Error : PostgrestError -> bool) (es : list Event)
    (w : World) : option World :=
  match es with
  | [] => Some w
  | e :: es' =>
      match step is_Error e w with
      | Some w' => run is_Error es' w'
      | None => None
      end
  end.

Definition fresh (u : option string) (a : Args) : World :=
  {| user := u; args := a; st := initial; inflight := []; calls := [];
     console := [] |}.

End UseMedia.

(** ** The seeding function (Deno edge function) *)

Module SeedMedia.

Inductive MediaType :=
| music_video | movie | audio_music | blog | gallery | resource.

(** [interface MediaItem] of the function: the columns it fills in. *)
Record MediaItem := {
  title : string;
  description : string;
  type_ : MediaType;
  category : string;
  thumbnail_url : string;
  duration : option string;
  read_time : option string;
  is_premium : bool;
  price : option Q;
  rating : option Q
}.

(** [{ creator_id: creatorId, ...item }] *)
Record Row := { creator_id : string; item : MediaItem }.

Definition corsHeaders : list (string * string) :=
  [("Access-Control-Allow-Origin", "*");
   ("Access-Control-Allow-Methods", "GET, POST, OPTIONS");
   ("Access-Control-Allow-Headers", "Content-Type, Authorization")].

Definition jsonHeaders : list (string * string) :=
  (corsHeaders ++ [("Content-Type", "application/json")])%list.

(** The bodies passed to [JSON.stringify], and [null]. *)
Inductive Body :=
| NoBody
| ErrorBody (error : string)
| SuccessBody (message : string) (data : option (list Row)).

Record HttpResponse := {
  status : Z;
  headers : list (string * string);
  body : Body
}.

(** [Deno.env.get] of the two variables. *)
Record Env := {
  SUPABASE_URL : option string;
  SUPABASE_SERVICE_ROLE_KEY : option string
}.

(** What the three awaits of the handler resolve to: the import of the
    client, the query for one profile (its [id] column), and the insert
    with [select()]. *)
Record Answers := {
  imported : Settled unit;
  profilesRes : Settled (Response (list string));
  insertRes : Settled (Response (list Row))
}.

(** The calls made on the service-role client. *)
Inductive Call :=
| SelectProfile
| InsertMedia (rows : list Row).

Definition mediaItems : list MediaItem :=
[
  {| title := "Unstoppable - Official Music Video";
     description := "An inspiring music video showcasing talent and creativity";
     type_ := music_video; category := "music-video";
     thumbnail_url := "https://images.pexels.com/photos/1105666/pexels-photo-1105666.jpeg?auto=compress&cs=tinysrgb&w=400";
     duration := Some "4:15"; read_time := None;
     is_premium := false; price := None; rating := None |};
  {| title := "The Last Stand - Short Film";
     description := "A powerful short film exploring human resilience";
     type_ := movie; category := "movie";
     thumbnail_url := "https://images.pexels.com/photos/269140/pexels-photo-269140.jpeg?auto=compress&cs=tinysrgb&w=400";
     duration := Some "12:30"; read_time := None;
     is_premium := true; price := None; rating := None |};
  {| title := "Sunset Groove";
     description := "Electronic music to relax and unwind";
     type_ := audio_music; category := "electronic";
     thumbnail_url := "https://images.pexels.com/photos/417273/pexels-photo-417273.jpeg?auto=compress&cs=tinysrgb&w=400";
     duration := Some "3:45"; read_time := None;
     is_premium := false; price := None; rating := None |};
  {| title := "Acoustic Soul";
     description := "Beautiful acoustic melodies for your day";
     type_ := audio_music; category := "acoustic";
     thumbnail_url := "https://images.pexels.com/photos/164821/pexels-photo-164821.jpeg?auto=compress&cs=tinysrgb&w=400";
     duration := Some "2:50"; read_time := None;
     is_premium := false; price := None; rating := None |};
  {| title := "Interview with Legends";
     description := "Exclusive insights from industry leaders";
     type_ := blog; category := "branding";
     thumbnail_url := "https://images.pexels.com/photos/6953768/pexels-photo-6953768.jpeg?auto=compress&cs=tinysrgb&w=400";
     duration := None; read_time := Some "5 min read";
     is_premium := false; price := None; rating := None |};
  {| title := "Brand Manual & Presets";
     description := "Professional branding resources";
     type_ := gallery; category := "design";
     thumbnail_url := "https://images.pexels.com/photos/5554667/pexels-photo-5554667.jpeg?auto=compress&cs=tinysrgb&w=400";
     duration := None; read_time := None;
     is_premium := false; price := None; rating := None |};
  {| title := "Portrait Photography Collection";
     description := "Stunning portrait photography showcase";
     type_ := gallery; category := "photography";
     thumbnail_url := "https://images.pexels.com/photos/4027606/pexels-photo-4027606.jpeg?auto=compress&cs=tinysrgb&w=400";
     duration := None; read_time := None;
     is_premium := true; price := None; rating := None |};
  {| title := "Social Media Templates Pack";
     description := "Ready-to-use templates for social media content";
     type_ := resource; category := "templates";
     thumbnail_url := "https://images.pexels.com/photos/3861972/pexels-photo-3861972.jpeg?auto=compress&cs=tinysrgb&w=400";
     duration := None; read_time := None;
     is_premium := false; price := Some (115000 # 1)%Q; rating := Some (48 # 10)%Q |};
  {| title := "Producer's Key Sound Kit";
     description := "Professional sound kit for music production";
     type_ := resource; category := "sound-kit";
     thumbnail_url := "https://images.pexels.com/photos/3990842/pexels-photo-3990842.jpeg?auto=compress&cs=tinysrgb&w=400";
     duration := None; read_time := None;
     is_premium := false; price := Some (190000 # 1)%Q; rating := Some (49 # 10)%Q |};
  {| title := "Freelancer's Guide to Contracts";
     description := "Essential guide for freelance professionals";
     type_ := resource; category := "templates";
     thumbnail_url := "https://images.pexels.com/photos/8428076/pexels-photo-8428076.jpeg?auto=compress&cs=tinysrgb&w=400";
     duration := None; read_time := None;
     is_premium := false; price := Some (95000 # 1)%Q; rating := Some (47 # 10)%Q |}
].

(** [!x] on an environment variable. *)
Definition missing (v : option string) : bool :=
  match v with
  | Some s => falsy s
  | None => true
  end.

(** The [catch] block. *)
Definition internal_error (t : Thrown) : HttpResponse :=
  {| status := 500; headers := jsonHeaders;
     body := ErrorBody match t with
                       | ErrorInstance m => m
                       | OtherValue => "Unknown error"
                       end |}.

(** [`Created ${data?.length || 0} media items`] *)
Definition created_message (data : option (list Row)) : string :=
  "Created " +:+ pretty (length (default [] data)) +:+ " media items".

(** The handler given to [Deno.serve]: the response and the calls made,
    oldest first. [is_Error e] tells whether the error object of a response
    is an instance of [Error]. *)
Definition serve (is_Error : PostgrestError -> bool) (method : string)
    (env : Env) (a : Answers) : HttpResponse * list Call :=
  if decide (method = "OPTIONS")
  then ({| status := 200; headers := corsHeaders; body := NoBody |}, [])
  else
    if missing (SUPABASE_URL env) || missing (SUPABASE_SERVICE_ROLE_KEY env)
    then (internal_error (ErrorInstance "Missing Supabase credentials"), [])
    else
      match imported a with
      | Rejected reason => (internal_error (ErrorInstance reason), [])
      | Fulfilled _ =>
          match profilesRes a with
          | Rejected reason =>
              (internal_error (ErrorInstance reason), [SelectProfile])
          | Fulfilled res =>
              match data res with
              | None | Some [] =>
                  ({| status := 400; headers := jsonHeaders;
                      body := ErrorBody
                        "No profiles found. Please create a user first." |},
                   [SelectProfile])
              | Some (creatorId :: _) =>
                  let rows :=
                    map (fun i => {| creator_id := creatorId; item := i |})
                        mediaItems in
                  let calls := [SelectProfile; InsertMedia rows] in
                  match insertRes a with
                  | Rejected reason =>
                      (internal_error (ErrorInstance reason), calls)
                  | Fulfilled ins =>
                      match error ins with
                      | Some e =>
                          (internal_error
                             (if is_Error e
                              then ErrorInstance (Supabase.message e)
                              else OtherValue), calls)
                      | None =>
                          ({| status := 200; headers := jsonHeaders;
                              body := SuccessBody
                                        (created_message (data ins))
                                        (data ins) |}, calls)
                      end
                  end
              end
          end
      end.

End SeedMedia.

(** ** App *)

Module App.

(** [interface Profile] of [lib/supabase.ts]. *)
Record Profile := {
  id : string;
  username : string;
  avatar_url : string;
  bio : string;
  created_at : string
}.

(** [{ user: { id: string } }]. [ref] stands for the object itself:
    [Object.is], which decides whether a state cell or a dependency of an
    effect changed, compares references. *)
Record Session := { ref : N; user_id : string }.

#[global] Instance Session_eq_dec : EqDecision Session.
Proof. solve_decision. Defined.

Record State := {
  session : option Session;
  profiles : list Profile;
  loading : bool
}.

Definition initial : State :=
  {| session := None; profiles := []; loading := true |}.

Inductive Call := GetSession | SelectProfiles | SignOut.

Inductive Task := AwaitGetSession | AwaitProfiles | AwaitSignOut.

Inductive Payload :=
| SessionRes (s : option Session)
| ProfilesRes (res : Response (list Profile))
| SignedOut.

Record World := {
  st : State;             (* the state cells *)
  view : State;           (* the cells as of the last render *)
  inflight : list Task;   (* newest first *)
  calls : list Call;      (* newest first *)
  subscribed : bool;      (* [onAuthStateChange] *)
  unhandled : list string
}.

(** What the component returns. *)
Inductive Screen :=
| LoadingScreen
| AuthScreen
| Cards (cards : list (Profile * string)).   (* profile, currentUserId *)

Definition screen (s : State) : Screen :=
  if loading s then LoadingScreen
  else match session s with
       | None => AuthScreen
       | Some se => Cards (map (fun p => (p, user_id se)) (profiles s))
       end.

Definition fetchProfiles (w : World) : World :=
  {| st := st w; view := view w; inflight := AwaitProfiles :: inflight w;
     calls := SelectProfiles :: calls w; subscribed := subscribed w;
     unhandled := unhandled w |}.

Definition setSession (s : option Session) (w : World) : World :=
  {| st := {| session := s; profiles := profiles (st w);
              loading := loading (st w) |};
     view := view w; inflight := inflight w; calls := calls w;
     subscribed := subscribed w; unhandled := unhandled w |}.

Definition setLoading (b : bool) (w : World) : World :=
  {| st := {| session := session (st w); profiles := profiles (st w);
              loading := b |};
     view := view w; inflight := inflight w; calls := calls w;
     subscribed := subscribed w; unhandled := unhandled w |}.

(** [setProfiles(data || [])] *)
Definition setProfiles (l : list Profile) (w : World) : World :=
  {| st := {| session := session (st w); profiles := l;
              loading := loading (st w) |};
     view := view w; inflight := inflight w; calls := calls w;
     subscribed := subscribed w; unhandled := unhandled w |}.

Definition settled (i : nat) (w : World) : World :=
  {| st := st w; view := view w; inflight := delete i (inflight w);
     calls := calls w; subscribed := subscribed w;
     unhandled := unhandled w |}.

Definition throw (reason : string) (w : World) : World :=
  {| st := st w; view := view w; inflight := inflight w; calls := calls w;
     subscribed := subscribed w; unhandled := reason :: unhandled w |}.

(** The effects of the first render: [getSession().then(...)] and the
    subscription; the effect on [session] finds it null. *)
Definition mount (w : World) : World :=
  {| st := st w; view := view w; inflight := AwaitGetSession :: inflight w;
     calls := GetSession :: calls w; subscribed := true;
     unhandled := unhandled w |}.

(** A later render: the cells are committed, and the effect on [session]
    runs when the session is not the one of the previous render:
    [if (session) fetchProfiles()]. Several [setSession] calls before one
    render make the effect run once. *)
Definition render (w : World) : World :=
  let w' :=
    {| st := st w; view := st w; inflight := inflight w; calls := calls w;
       subscribed := subscribed w; unhandled := unhandled w |} in
  if decide (session (st w) = session (view w)) then w'
  else match session (st w) with
       | Some _ => fetchProfiles w'
       | None => w'
       end.

Definition handleSignOut (w : World) : World :=
  {| st := st w; view := view w; inflight := AwaitSignOut :: inflight w;
     calls := SignOut :: calls w; subscribed := subscribed w;
     unhandled := unhandled w |}.

Inductive Event :=
| Mount
| Render
| AuthChange (s : option Session)   (* the callback of [onAuthStateChange] *)
| ClickSignOut
| Settle (i : nat) (o : Settled Payload).

Definition resume (t : Task) (o : Settled Payload) (w : World)
  : option World :=
  match t, o with
  | AwaitGetSession, Fulfilled (SessionRes s) =>
      Some (setLoading false (setSession s w))
  | AwaitProfiles, Fulfilled (ProfilesRes res) =>
      Some (setProfiles (default [] (data res)) w)
  | AwaitSignOut, Fulfilled SignedOut => Some w
  | _, Rejected reason => Some (throw reason w)
  | _, _ => None
  end.

(** The sign-out button exists on the screen that was rendered. *)
Definition step (e : Event) (w : World) : option World :=
  match e with
  | Mount => if subscribed w then None else Some (mount w)
  | Render => if subscribed w then Some (render w) else None
  | AuthChange s => if subscribed w then Some (setSession s w) else None
  | ClickSignOut =>
      match screen (view w) with
      | Cards _ => Some (handleSignOut w)
      | _ => None
      end
  | Settle i o =>
      match inflight w !! i with
      | Some t => resume t o (settled i w)
      | None => None
      end
  end.

Fixpoint run (es : list Event) (w : World) : option World :=
  match es with
  | [] => Some w
  | e :: es' =>
      match step e w with
      | Some w' => run es' w'
      | None => None
      end
  end.

Definition fresh : World :=
  {| st := initial; view := initial; inflight := []; calls := [];
     subscribed := false; unhandled := [] |}.

End App.

(** * Worlds and statements *)

(** ** Sample worlds and answers *)

(** A write that was carried out: [{ data: null, error: null }]. *)
Definition written_card : Settled ProfileCard.Payload :=
  Fulfilled (ProfileCard.WriteRes (ok None)).

Definition written_like : Settled UseMediaLike.Payload :=
  Fulfilled (UseMediaLike.WriteRes (ok None)).

(** Worlds used to instantiate the statements below. *)
Definition card0 : ProfileCard.World :=
  {| ProfileCard.props :=
       {| ProfileCard.profile_id := "p1"; ProfileCard.currentUserId := "u1" |};
     ProfileCard.st := ProfileCard.initial;
     ProfileCard.view := ProfileCard.initial;
     ProfileCard.inflight := []; ProfileCard.calls := [];
     ProfileCard.mounted := true; ProfileCard.subscribed := true;
     ProfileCard.unhandled := [] |}.

Definition p1 : ProfileCard.Props :=
  {| ProfileCard.profile_id := "p1"; ProfileCard.currentUserId := "u1" |}.

Definition like0 : UseMediaLike.World :=
  {| UseMediaLike.mediaId := "m1"; UseMediaLike.user := Some "u1";
     UseMediaLike.st := UseMediaLike.initial;
     UseMediaLike.view := UseMediaLike.initial;
     UseMediaLike.inflight := []; UseMediaLike.calls := [];
     UseMediaLike.console := []; UseMediaLike.mounted := true;
     UseMediaLike.subscribed := true; UseMediaLike.unhandled := [] |}.

(** The same hooks for a signed-out visitor. *)
Definition like_anon : UseMediaLike.World :=
  {| UseMediaLike.mediaId := "m1"; UseMediaLike.user := None;
     UseMediaLike.st := UseMediaLike.initial;
     UseMediaLike.view := UseMediaLike.initial;
     UseMediaLike.inflight := []; UseMediaLike.calls := [];
     UseMediaLike.console := []; UseMediaLike.mounted := true;
     UseMediaLike.subscribed := true; UseMediaLike.unhandled := [] |}.

Definition follow_anon : UseCreatorFollow.World :=
  {| UseCreatorFollow.creatorId := "c1"; UseCreatorFollow.user := None;
     UseCreatorFollow.st := UseCreatorFollow.initial;
     UseCreatorFollow.view := UseCreatorFollow.initial;
     UseCreatorFollow.inflight := []; UseCreatorFollow.calls := [];
     UseCreatorFollow.console := []; UseCreatorFollow.mounted := true;
     UseCreatorFollow.subscribed := true; UseCreatorFollow.unhandled := [] |}.

(** ** Toggling *)

(** A toggle-on followed by a toggle-off, each rendered and awaited:
    [(false, N)], then [(true, N + 1)], then [(false, N)] again, with an
    insert and then a delete sent to the store. *)
Definition like_on_then_off (w : ProfileCard.World) : Prop :=
  exists w1 w2,
    ProfileCard.run [ProfileCard.Render; ProfileCard.ClickLike;
                     ProfileCard.Render;
                     ProfileCard.Settle 0 written_card] w = Some w1 /\
    ProfileCard.isLiked (ProfileCard.st w1) = true /\
    ProfileCard.likesCount (ProfileCard.st w1)
      = ProfileCard.likesCount (ProfileCard.st w) + 1 /\
    ProfileCard.run [ProfileCard.ClickLike; ProfileCard.Render;
                     ProfileCard.Settle 0 written_card] w1 = Some w2 /\
    ProfileCard.isLiked (ProfileCard.st w2) = false /\
    ProfileCard.likesCount (ProfileCard.st w2)
      = ProfileCard.likesCount (ProfileCard.st w) /\
    ProfileCard.calls w2
      = ProfileCard.Delete ProfileCard.likes
          (ProfileCard.profile_id (ProfileCard.props w))
          (ProfileCard.currentUserId (ProfileCard.props w))
        :: ProfileCard.Insert ProfileCard.likes
             (ProfileCard.profile_id (ProfileCard.props w))
             (ProfileCard.currentUserId (ProfileCard.props w))
        :: ProfileCard.calls w.

Definition follow_on_then_off (w : ProfileCard.World) : Prop :=
  exists w1 w2,
    ProfileCard.run [ProfileCard.Render; ProfileCard.ClickFollow;
                     ProfileCard.Render;
                     ProfileCard.Settle 0 written_card] w = Some w1 /\
    ProfileCard.isFollowing (ProfileCard.st w1) = true /\
    ProfileCard.followsCount (ProfileCard.st w1)
      = ProfileCard.followsCount (ProfileCard.st w) + 1 /\
    ProfileCard.run [ProfileCard.ClickFollow; ProfileCard.Render;
                     ProfileCard.Settle 0 written_card] w1 = Some w2 /\
    ProfileCard.isFollowing (ProfileCard.st w2) = false /\
    ProfileCard.followsCount (ProfileCard.st w2)
      = ProfileCard.followsCount (ProfileCard.st w) /\
    ProfileCard.calls w2
      = ProfileCard.Delete ProfileCard.follows
          (ProfileCard.profile_id (ProfileCard.props w))
          (ProfileCard.currentUserId (ProfileCard.props w))
        :: ProfileCard.Insert ProfileCard.follows
             (ProfileCard.profile_id (ProfileCard.props w))
             (ProfileCard.currentUserId (ProfileCard.props w))
        :: ProfileCard.calls w.

(** The reading of "the second invocation is ignored": it issues no call
    and suspends no continuation. *)
Definition card_second_toggle_ignored (w : ProfileCard.World) : Prop :=
  forall w1 w2,
    ProfileCard.step ProfileCard.ClickLike w = Some w1 ->
    ProfileCard.step ProfileCard.ClickLike w1 = Some w2 ->
    ProfileCard.calls w2 = ProfileCard.calls w1 /\
    ProfileCard.inflight w2 = ProfileCard.inflight w1.

Definition like_second_toggle_ignored (w : UseMediaLike.World) : Prop :=
  forall w1 w2,
    UseMediaLike.step UseMediaLike.Toggle w = Some w1 ->
    UseMediaLike.step UseMediaLike.Toggle w1 = Some w2 ->
    UseMediaLike.calls w2 = UseMediaLike.calls w1 /\
    UseMediaLike.inflight w2 = UseMediaLike.inflight w1.

(** The call [toggleLike] sends when the render it runs in shows
    [isLiked = b]. *)
Definition card_like_call (w : ProfileCard.World) (b : bool)
  : ProfileCard.Query :=
  if b
  then ProfileCard.Delete ProfileCard.likes
         (ProfileCard.profile_id (ProfileCard.props w))
         (ProfileCard.currentUserId (ProfileCard.props w))
  else ProfileCard.Insert ProfileCard.likes
         (ProfileCard.profile_id (ProfileCard.props w))
         (ProfileCard.currentUserId (ProfileCard.props w)).

Definition hook_like_call (w : UseMediaLike.World) (uid : string) (b : bool)
  : UseMediaLike.Query :=
  if b then UseMediaLike.Delete (UseMediaLike.mediaId w) uid
  else UseMediaLike.Insert (UseMediaLike.mediaId w) uid.

(** Two invocations of the card's [toggleLike] with no settlement between
    them. Without a render in between, the second runs in the same closure
    and sends the same call again; with one, it sends the opposite call. In
    both cases two more calls are sent and two more continuations are
    suspended. *)
Definition card_two_in_flight (w : ProfileCard.World) : Prop :=
  let b := ProfileCard.isLiked (ProfileCard.view w) in
  (exists w2 t1 t2,
     ProfileCard.run [ProfileCard.ClickLike; ProfileCard.ClickLike] w
     = Some w2 /\
     ProfileCard.calls w2
     = card_like_call w b :: card_like_call w b :: ProfileCard.calls w /\
     ProfileCard.inflight w2 = t2 :: t1 :: ProfileCard.inflight w) /\
  (exists w2 t1 t2,
     ProfileCard.run [ProfileCard.ClickLike; ProfileCard.Render;
                      ProfileCard.ClickLike] w = Some w2 /\
     ProfileCard.calls w2
     = card_like_call w (negb b) :: card_like_call w b
       :: ProfileCard.calls w /\
     ProfileCard.inflight w2 = t2 :: t1 :: ProfileCard.inflight w).

(** The same for [useMediaLike]; [loading] is [true] after the first
    invocation and the second one goes ahead all the same. *)
Definition like_two_in_flight (w : UseMediaLike.World) (uid : string) : Prop :=
  let b := UseMediaLike.isLiked (UseMediaLike.view w) in
  (exists w1,
     UseMediaLike.step UseMediaLike.Toggle w = Some w1 /\
     UseMediaLike.loading (UseMediaLike.st w1) = true) /\
  (exists w2 t1 t2,
     UseMediaLike.run [UseMediaLike.Toggle; UseMediaLike.Toggle] w
     = Some w2 /\
     UseMediaLike.calls w2
     = hook_like_call w uid b :: hook_like_call w uid b
       :: UseMediaLike.calls w /\
     UseMediaLike.inflight w2 = t2 :: t1 :: UseMediaLike.inflight w) /\
  (exists w2 t1 t2,
     UseMediaLike.run [UseMediaLike.Toggle; UseMediaLike.Render;
                       UseMediaLike.Toggle] w = Some w2 /\
     UseMediaLike.calls w2
     = hook_like_call w uid (negb b) :: hook_like_call w uid b
       :: UseMediaLike.calls w /\
     UseMediaLike.inflight w2 = t2 :: t1 :: UseMediaLike.inflight w).

(** ** Notifications *)

(** The queries of [fetchCounts] and of [fetchUserStatus], newest first. *)
Definition counts_queries (w : ProfileCard.World) : list ProfileCard.Query :=
  [ProfileCard.SelectCount ProfileCard.comments
     (ProfileCard.profile_id (ProfileCard.props w));
   ProfileCard.SelectCount ProfileCard.follows
     (ProfileCard.profile_id (ProfileCard.props w));
   ProfileCard.SelectCount ProfileCard.likes
     (ProfileCard.profile_id (ProfileCard.props w))].

Definition status_queries (w : ProfileCard.World) : list ProfileCard.Query :=
  [ProfileCard.SelectMaybeSingle ProfileCard.follows
     (ProfileCard.profile_id (ProfileCard.props w))
     (ProfileCard.currentUserId (ProfileCard.props w));
   ProfileCard.SelectMaybeSingle ProfileCard.likes
     (ProfileCard.profile_id (ProfileCard.props w))
     (ProfileCard.currentUserId (ProfileCard.props w))].

(** A likes table in which one other user likes the profile. *)
Definition one_like : list LikesTable.Row :=
  [{| LikesTable.user_id := "u2"; LikesTable.profile_id := "p1" |}].

(** The three orders in which the continuations can run once the card has
    clicked and the notification for its insert has fired: the insert's own
    response last, between the two fetches, or first. [c], [s] and [r] are
    the answers to [fetchCounts], to [fetchUserStatus] and to the insert. *)
Definition own_write_orders (c s r : Settled ProfileCard.Payload)
  : list (list ProfileCard.Event) :=
  map (fun tail =>
         [ProfileCard.Render; ProfileCard.ClickLike; ProfileCard.Render;
          ProfileCard.Notify ProfileCard.likes] ++ tail)%list
      [ [ProfileCard.Settle 0 c; ProfileCard.Settle 0 s; ProfileCard.Settle 0 r];
        [ProfileCard.Settle 0 c; ProfileCard.Settle 1 r; ProfileCard.Settle 0 s];
        [ProfileCard.Settle 1 r; ProfileCard.Settle 0 c; ProfileCard.Settle 0 s] ].

(** ** Comments *)

(** The entry [addComment] prepends, and what it becomes once reconciled
    with the row [d] the store returns. *)
Definition placeholder (w : ProfileCard.World) (text : string) (now : N)
    (iso : string) : ProfileCard.Comment :=
  {| ProfileCard.id := ProfileCard.tempId_of now;
     ProfileCard.content := trim text;
     ProfileCard.user_id := ProfileCard.currentUserId (ProfileCard.props w);
     ProfileCard.created_at := Some iso |}.

Definition committed (w : ProfileCard.World) (text : string)
    (d : ProfileCard.Comment) : ProfileCard.Comment :=
  {| ProfileCard.id := ProfileCard.id d;
     ProfileCard.content := trim text;
     ProfileCard.user_id := ProfileCard.currentUserId (ProfileCard.props w);
     ProfileCard.created_at := ProfileCard.created_at d |}.

Definition inserted (d : ProfileCard.Comment) : Settled ProfileCard.Payload :=
  Fulfilled (ProfileCard.InsertedRes (ok (Some d))).

(** Comment [a] is typed and sent at [tA], then comment [b] at [tB]; the two
    inserts return the rows [dA] and [dB], in either order. *)
Definition two_appends (a b : string) (tA tB : N) (isoA isoB : string)
    (dA dB : ProfileCard.Comment) : list (list ProfileCard.Event) :=
  map (fun tail =>
         [ProfileCard.Input a; ProfileCard.Render;
          ProfileCard.Send tA isoA;
          ProfileCard.Input b; ProfileCard.Render;
          ProfileCard.Send tB isoB] ++ tail)%list
      [ [ProfileCard.Settle 1 (inserted dA); ProfileCard.Settle 0 (inserted dB)];
        [ProfileCard.Settle 0 (inserted dB); ProfileCard.Settle 0 (inserted dA)] ].

(** The card's handler for a change of [comments], from the notification
    to the answers of its two fetches: the counts, then the rows of
    [fetchComments]. *)
Definition comments_refetched (likesRes followsRes commentsRes : Response unit)
    (rows : list ProfileCard.Comment) : list ProfileCard.Event :=
  [ProfileCard.Notify ProfileCard.comments;
   ProfileCard.Settle 0
     (Fulfilled (ProfileCard.CountsRes likesRes followsRes commentsRes));
   ProfileCard.Settle 0
     (Fulfilled (ProfileCard.CommentsRes (ok (Some rows))))].

(** The same two comments, with the notification of the first insert
    handled after the first insert has answered and before the second
    has. *)
Definition refetched_between (a b : string) (tA tB : N) (isoA isoB : string)
    (dA dB : ProfileCard.Comment)
    (likesRes followsRes commentsRes : Response unit)
    (rows : list ProfileCard.Comment) : list ProfileCard.Event :=
  ([ProfileCard.Input a; ProfileCard.Render; ProfileCard.Send tA isoA;
    ProfileCard.Input b; ProfileCard.Render; ProfileCard.Send tB isoB;
    ProfileCard.Settle 1 (inserted dA)]
   ++ comments_refetched likesRes followsRes commentsRes rows
   ++ [ProfileCard.Settle 0 (inserted dB)])%list.

(** [order('created_at', { ascending: false })], on timestamps written in
    one format: no row is older than the row after it. *)
Definition not_older (a b : ProfileCard.Comment) : bool :=
  match ProfileCard.created_at a, ProfileCard.created_at b with
  | Some x, Some y => String.leb y x
  | _, _ => false
  end.

Fixpoint newest_first (l : list ProfileCard.Comment) : bool :=
  match l with
  | a :: r =>
      match r with
      | b :: _ => not_older a b && newest_first r
      | [] => true
      end
  | [] => true
  end.

Definition row9 : ProfileCard.Comment :=
  {| ProfileCard.id := "row-9"; ProfileCard.content := "first";
     ProfileCard.user_id := "u1";
     ProfileCard.created_at := Some "2024-01-01T00:00:05Z" |}.

Definition row7 : ProfileCard.Comment :=
  {| ProfileCard.id := "row-7"; ProfileCard.content := "second";
     ProfileCard.user_id := "u1";
     ProfileCard.created_at := Some "2024-01-01T00:00:00Z" |}.

Definition foreign_key_violation : PostgrestError :=
  {| code := "23503";
     message := "insert or update on table violates foreign key constraint" |}.

(** ** Counters *)

Definition counts_nonneg (s : ProfileCard.State) : Prop :=
  0 <= ProfileCard.likesCount s /\
  0 <= ProfileCard.followsCount s /\
  0 <= ProfileCard.commentsCount s.

(** The count a suspended continuation would write back. *)
Definition saved_nonneg (t : ProfileCard.Task) : Prop :=
  match t with
  | ProfileCard.AwaitToggleLike _ n
  | ProfileCard.AwaitToggleFollow _ n
  | ProfileCard.AwaitAddComment _ n => 0 <= n
  | ProfileCard.AwaitFetch _ _ => True
  end.

Definition nonneg (w : ProfileCard.World) : Prop :=
  counts_nonneg (ProfileCard.st w) /\
  counts_nonneg (ProfileCard.view w) /\
  Forall saved_nonneg (ProfileCard.inflight w).

(** A toggle-off invoked from a render that shows the count 0. *)
Definition toggle_off_at_zero (e : ProfileCard.Event) (w : ProfileCard.World)
  : Prop :=
  (e = ProfileCard.ClickLike /\
   ProfileCard.isLiked (ProfileCard.view w) = true /\
   ProfileCard.likesCount (ProfileCard.view w) = 0) \/
  (e = ProfileCard.ClickFollow /\
   ProfileCard.isFollowing (ProfileCard.view w) = true /\
   ProfileCard.followsCount (ProfileCard.view w) = 0).

(** ** Unmount *)

(** The reading of "the continuation is a no-op after unmount": once the
    component is unmounted, a call that is answered sends no further call,
    leaves nothing new in flight and throws nothing. *)
Definition card_continuation_is_no_op (w : ProfileCard.World) : Prop :=
  forall w1 i p w2,
    ProfileCard.step ProfileCard.Unmount w = Some w1 ->
    ProfileCard.step (ProfileCard.Settle i (Fulfilled p)) w1 = Some w2 ->
    ProfileCard.calls w2 = ProfileCard.calls w1 /\
    ProfileCard.inflight w2 = delete i (ProfileCard.inflight w1) /\
    ProfileCard.unhandled w2 = ProfileCard.unhandled w1.

(** What does hold of a call answered after the unmount, whichever call it
    is: nothing is thrown; the component stays unmounted and unsubscribed;
    what was rendered stays as it was, and no render follows in which the
    cells the continuation wrote could show. For the hook, nothing is
    logged either. *)
Definition card_answer_after_unmount (w : ProfileCard.World) : Prop :=
  forall i p w2,
    ProfileCard.step (ProfileCard.Settle i (Fulfilled p))
                     (ProfileCard.unmount w) = Some w2 ->
    ProfileCard.unhandled w2 = ProfileCard.unhandled w /\
    ProfileCard.view w2 = ProfileCard.view w /\
    ProfileCard.mounted w2 = false /\
    ProfileCard.subscribed w2 = false /\
    ProfileCard.step ProfileCard.Render w2 = None.

Definition like_answer_after_unmount (w : UseMediaLike.World) : Prop :=
  forall i p w2,
    UseMediaLike.step (UseMediaLike.Settle i (Fulfilled p))
                      (UseMediaLike.unmount w) = Some w2 ->
    UseMediaLike.unhandled w2 = UseMediaLike.unhandled w /\
    UseMediaLike.console w2 = UseMediaLike.console w /\
    UseMediaLike.view w2 = UseMediaLike.view w /\
    UseMediaLike.mounted w2 = false /\
    UseMediaLike.subscribed w2 = false /\
    UseMediaLike.step UseMediaLike.Render w2 = None.

(** Nothing in a continuation looks at whether the component is still
    mounted: a call that settles after the unmount does what it would have
    done before it. *)
Definition card_settles_unguarded (w : ProfileCard.World) : Prop :=
  forall i o,
    ProfileCard.step (ProfileCard.Settle i o) (ProfileCard.unmount w)
    = option_map ProfileCard.unmount
        (ProfileCard.step (ProfileCard.Settle i o) w).

Definition like_settles_unguarded (w : UseMediaLike.World) : Prop :=
  forall i o,
    UseMediaLike.step (UseMediaLike.Settle i o) (UseMediaLike.unmount w)
    = option_map UseMediaLike.unmount
        (UseMediaLike.step (UseMediaLike.Settle i o) w).

(** The card's [toggleLike], suspended as the [i]-th call with the saved
    pair [(b, n)], when the card unmounts. *)
Definition card_unmount_then_settle (w : ProfileCard.World) (i : nat)
    (b : bool) (n : Z) : Prop :=
  exists w1,
    ProfileCard.step ProfileCard.Unmount w = Some w1 /\
    ProfileCard.subscribed w1 = false /\
    (forall t, ProfileCard.step (ProfileCard.Notify t) w1 = Some w1) /\
    (forall r, exists w2,
        ProfileCard.step
          (ProfileCard.Settle i (Fulfilled (ProfileCard.WriteRes r))) w1
        = Some w2 /\
        ProfileCard.st w2 = ProfileCard.st w1 /\
        ProfileCard.unhandled w2 = ProfileCard.unhandled w1) /\
    (forall reason, exists w2,
        ProfileCard.step (ProfileCard.Settle i (Rejected reason)) w1
        = Some w2 /\
        ProfileCard.unhandled w2 = ProfileCard.unhandled w1 /\
        ProfileCard.isLiked (ProfileCard.st w2) = b /\
        ProfileCard.likesCount (ProfileCard.st w2) = n).

(** The same for [toggleLike] of [useMediaLike]. *)
Definition like_unmount_then_settle (w : UseMediaLike.World) (i : nat)
    (b : bool) (n : Z) : Prop :=
  exists w1,
    UseMediaLike.step UseMediaLike.Unmount w = Some w1 /\
    UseMediaLike.subscribed w1 = false /\
    UseMediaLike.step UseMediaLike.Notify w1 = Some w1 /\
    (forall r, exists w2,
        UseMediaLike.step
          (UseMediaLike.Settle i (Fulfilled (UseMediaLike.WriteRes r))) w1
        = Some w2 /\
        UseMediaLike.isLiked (UseMediaLike.st w2)
          = UseMediaLike.isLiked (UseMediaLike.st w1) /\
        UseMediaLike.likesCount (UseMediaLike.st w2)
          = UseMediaLike.likesCount (UseMediaLike.st w1) /\
        UseMediaLike.loading (UseMediaLike.st w2) = false /\
        UseMediaLike.console w2 = UseMediaLike.console w1 /\
        UseMediaLike.unhandled w2 = UseMediaLike.unhandled w1) /\
    (forall reason, exists w2,
        UseMediaLike.step (UseMediaLike.Settle i (Rejected reason)) w1
        = Some w2 /\
        UseMediaLike.unhandled w2 = UseMediaLike.unhandled w1 /\
        UseMediaLike.console w2
          = "Error toggling like:" :: UseMediaLike.console w1 /\
        UseMediaLike.isLiked (UseMediaLike.st w2) = b /\
        UseMediaLike.likesCount (UseMediaLike.st w2) = n).

(** ** Further statements: the comment box *)

(** One white space character. *)
Definition space_char (s : string) : bool :=
  match s with
  | String a EmptyString => is_space a
  | String a (String b EmptyString) => is_space2 a b
  | String a (String b (String c EmptyString)) => is_space3 a b c
  | _ => false
  end.

(** Non-empty, with no white space character at either end. *)
Definition clean (s : string) : Prop :=
  s <> EmptyString /\
  (forall sp rest, space_char sp = true -> s <> sp ++ rest) /\
  (forall sp rest, space_char sp = true -> s <> rest ++ sp).

(** U+00A0 (no-break space) and U+3000 (ideographic space). *)
Definition nbsp : string := String "194"%char (String "160"%char "").

Definition ideographic_space : string :=
  String "227"%char (String "128"%char (String "128"%char "")).

(** ** Further statements: the card *)

(** The six orders in which the three fetches of the effect can be
    answered, as indices into the in-flight list at each moment; [c], [u]
    and [m] answer [fetchCounts], [fetchUserStatus] and [fetchComments]. *)
Definition initial_load_orders (c u m : Settled ProfileCard.Payload)
  : list (list ProfileCard.Event) :=
  map (fun tail => ProfileCard.Mount :: tail)
      [ [ProfileCard.Settle 2 c; ProfileCard.Settle 1 u; ProfileCard.Settle 0 m];
        [ProfileCard.Settle 2 c; ProfileCard.Settle 0 m; ProfileCard.Settle 0 u];
        [ProfileCard.Settle 1 u; ProfileCard.Settle 1 c; ProfileCard.Settle 0 m];
        [ProfileCard.Settle 1 u; ProfileCard.Settle 0 m; ProfileCard.Settle 0 c];
        [ProfileCard.Settle 0 m; ProfileCard.Settle 1 c; ProfileCard.Settle 0 u];
        [ProfileCard.Settle 0 m; ProfileCard.Settle 0 u; ProfileCard.Settle 0 c] ].

(** The cells after the initial load. *)
Definition loaded (likesRes followsRes commentsRes likeRes followRes
                   : Response unit)
    (rowsRes : Response (list ProfileCard.Comment)) : ProfileCard.State :=
  {| ProfileCard.likesCount := or0 (count likesRes);
     ProfileCard.followsCount := or0 (count followsRes);
     ProfileCard.commentsCount := or0 (count commentsRes);
     ProfileCard.isLiked := truthy (data likeRes);
     ProfileCard.isFollowing := truthy (data followRes);
     ProfileCard.showComments := false;
     ProfileCard.comments_ := default [] (data rowsRes);
     ProfileCard.newComment := "" |}.

(** ** Further statements: the media hooks *)

Definition follow0 : UseCreatorFollow.World :=
  {| UseCreatorFollow.creatorId := "c1"; UseCreatorFollow.user := Some "u1";
     UseCreatorFollow.st := UseCreatorFollow.initial;
     UseCreatorFollow.view := UseCreatorFollow.initial;
     UseCreatorFollow.inflight := []; UseCreatorFollow.calls := [];
     UseCreatorFollow.console := []; UseCreatorFollow.mounted := true;
     UseCreatorFollow.subscribed := true; UseCreatorFollow.unhandled := [] |}.

Definition written_follow : Settled UseCreatorFollow.Payload :=
  Fulfilled (UseCreatorFollow.WriteRes (ok None)).

(** A hook that has shown nothing and asked nothing. *)
Definition like_silent (w : UseMediaLike.World) : Prop :=
  UseMediaLike.user w = None /\
  UseMediaLike.st w = UseMediaLike.initial /\
  UseMediaLike.view w = UseMediaLike.initial /\
  UseMediaLike.calls w = [] /\
  UseMediaLike.inflight w = [] /\
  UseMediaLike.console w = [] /\
  UseMediaLike.unhandled w = [].

Definition follow_silent (w : UseCreatorFollow.World) : Prop :=
  UseCreatorFollow.user w = None /\
  UseCreatorFollow.st w = UseCreatorFollow.initial /\
  UseCreatorFollow.view w = UseCreatorFollow.initial /\
  UseCreatorFollow.calls w = [] /\
  UseCreatorFollow.inflight w = [] /\
  UseCreatorFollow.console w = [] /\
  UseCreatorFollow.unhandled w = [].

(** ** Further statements: useMedia *)

(** The message [fetchMedia] stores for an error object of a response. *)
Definition media_error_message (is_Error : PostgrestError -> bool)
    (e : PostgrestError) : string :=
  if is_Error e then Supabase.message e else "Failed to fetch media".

(** A category argument that adds no filter. *)
Definition no_category (c : option string) : Prop :=
  c = None \/ c = Some "" \/ c = Some "all".

Definition no_type (t : option string) : Prop :=
  t = None \/ t = Some "".

Definition answered (rows : list UseMedia.MediaItem)
  : Settled UseMedia.Payload :=
  Fulfilled (UseMedia.QueryRes (ok (Some rows))).

Definition enriched (answers : list UseMedia.ItemAnswers)
  : Settled UseMedia.Payload :=
  Fulfilled (UseMedia.EnrichRes answers).

(** The answers that complete one fetch, each to the newest call in
    flight: the rows and, when there are rows, the answers of the queries
    made for them. *)
Definition completes (rows : list UseMedia.MediaItem)
    (answers : list UseMedia.ItemAnswers) : list UseMedia.Event :=
  UseMedia.Settle 0 (answered rows)
  :: match rows with
     | [] => []
     | _ => [UseMedia.Settle 0 (enriched answers)]
     end.

Definition no_args : UseMedia.Args :=
  {| UseMedia.type := None; UseMedia.category_arg := None;
     UseMedia.limit := None |}.

Definition blog_args : UseMedia.Args :=
  {| UseMedia.type := Some "blog"; UseMedia.category_arg := Some "all";
     UseMedia.limit := Some 10 |}.

Definition media0 : UseMedia.World := UseMedia.fresh (Some "u1") no_args.

Definition item1 : UseMedia.MediaItem :=
  {| UseMedia.id := "m1"; UseMedia.creator_id := "c1";
     UseMedia.title := "Sunset Groove";
     UseMedia.description := "Electronic music to relax and unwind";
     UseMedia.type_ := UseMedia.audio_music;
     UseMedia.category := "electronic"; UseMedia.thumbnail_url := "";
     UseMedia.duration := Some "3:45"; UseMedia.read_time := None;
     UseMedia.is_premium := false; UseMedia.price := None;
     UseMedia.rating := None; UseMedia.view_count := 0;
     UseMedia.created_at := "2024-01-01"; UseMedia.updated_at := "2024-01-01" |}.

Definition answers1 : UseMedia.ItemAnswers :=
  {| UseMedia.creatorRes := ok None;
     UseMedia.likesRes := counted 3;
     UseMedia.followsRes := failed foreign_key_violation;
     UseMedia.likedRes := ok (Some tt);
     UseMedia.followedRes := ok None |}.

(** ** Further statements: the seeding function *)

(** The conditions under which the handler gets as far as the insert and
    the store accepts it. *)
Definition seed_goes_through (method : string) (env : SeedMedia.Env)
    (a : SeedMedia.Answers) : Prop :=
  method <> "OPTIONS" /\
  SeedMedia.missing (SeedMedia.SUPABASE_URL env) = false /\
  SeedMedia.missing (SeedMedia.SUPABASE_SERVICE_ROLE_KEY env) = false /\
  (exists u, SeedMedia.imported a = Fulfilled u) /\
  (exists res creatorId others,
     SeedMedia.profilesRes a = Fulfilled res /\
     data res = Some (creatorId :: others)) /\
  (exists ins, SeedMedia.insertRes a = Fulfilled ins /\ error ins = None).

Definition env0 : SeedMedia.Env :=
  {| SeedMedia.SUPABASE_URL := Some "https://example.supabase.co";
     SeedMedia.SUPABASE_SERVICE_ROLE_KEY := Some "service-key" |}.

Definition seed_answers (profiles : Response (list string))
    (ins : Response (list SeedMedia.Row)) : SeedMedia.Answers :=
  {| SeedMedia.imported := Fulfilled tt;
     SeedMedia.profilesRes := Fulfilled profiles;
     SeedMedia.insertRes := Fulfilled ins |}.

(** ** Further statements: App *)

(** The event that delivers the answer of [getSession]. *)
Definition session_answer (e : App.Event) : bool :=
  match e with
  | App.Settle _ (Fulfilled (App.SessionRes _)) => true
  | _ => false
  end.

(** * Properties *)

(** Evaluation by value: every handler mentions its world several times, so
    the runs are normalised innermost first; arithmetic and the string
    functions are left alone. *)
Ltac client_eval :=
  cbv [written_card written_like
       Supabase.ok Supabase.counted Supabase.failed
       Supabase.data Supabase.error Supabase.count Supabase.or0
       Supabase.truthy
       lookup list_lookup delete list_delete default from_option negb].

Ltac card_fields :=
  cbv [ProfileCard.props ProfileCard.st ProfileCard.view
       ProfileCard.inflight ProfileCard.calls ProfileCard.mounted
       ProfileCard.subscribed ProfileCard.unhandled
       ProfileCard.likesCount ProfileCard.followsCount
       ProfileCard.commentsCount ProfileCard.isLiked ProfileCard.isFollowing
       ProfileCard.showComments ProfileCard.comments_ ProfileCard.newComment
       ProfileCard.profile_id ProfileCard.currentUserId] in *.

Ltac card_eval :=
  cbv [ProfileCard.run ProfileCard.step ProfileCard.resume
       ProfileCard.mount ProfileCard.unmount ProfileCard.render
       ProfileCard.onChange ProfileCard.continue ProfileCard.fetch
       ProfileCard.fetchCounts ProfileCard.fetchUserStatus
       ProfileCard.fetchComments ProfileCard.fetchCounts_settled
       ProfileCard.fetchUserStatus_settled ProfileCard.fetchComments_settled
       ProfileCard.toggleLike ProfileCard.toggleLike_settled
       ProfileCard.toggleFollow ProfileCard.toggleFollow_settled
       ProfileCard.addComment ProfileCard.addComment_settled
       ProfileCard.setLikesCount ProfileCard.setFollowsCount
       ProfileCard.setCommentsCount ProfileCard.setIsLiked
       ProfileCard.setIsFollowing ProfileCard.setShowComments
       ProfileCard.setComments ProfileCard.setNewComment
       ProfileCard.with_st ProfileCard.call ProfileCard.await
       ProfileCard.throw ProfileCard.settled
       ProfileCard.props ProfileCard.st ProfileCard.view
       ProfileCard.inflight ProfileCard.calls ProfileCard.mounted
       ProfileCard.subscribed ProfileCard.unhandled
       ProfileCard.likesCount ProfileCard.followsCount
       ProfileCard.commentsCount ProfileCard.isLiked ProfileCard.isFollowing
       ProfileCard.showComments ProfileCard.comments_ ProfileCard.newComment
       ProfileCard.profile_id ProfileCard.currentUserId];
  client_eval.

Ltac open_card w :=
  let s := fresh "s" in
  let v := fresh "v" in
  let p := fresh "p" in
  destruct w as [p s v ? ? ? ? ?]; destruct p, s, v; card_fields; subst.

Ltac like_fields :=
  cbv [UseMediaLike.mediaId UseMediaLike.user UseMediaLike.st
       UseMediaLike.view UseMediaLike.inflight UseMediaLike.calls
       UseMediaLike.console UseMediaLike.mounted UseMediaLike.subscribed
       UseMediaLike.unhandled UseMediaLike.isLiked UseMediaLike.likesCount
       UseMediaLike.loading] in *.

Ltac like_eval :=
  cbv [UseMediaLike.run UseMediaLike.step UseMediaLike.resume
       UseMediaLike.mount UseMediaLike.unmount UseMediaLike.render
       UseMediaLike.checkLikeStatus UseMediaLike.checkLikeStatus_settled
       UseMediaLike.toggleLike UseMediaLike.toggleLike_settled
       UseMediaLike.setIsLiked UseMediaLike.setLikesCount
       UseMediaLike.setLoading UseMediaLike.with_st UseMediaLike.call
       UseMediaLike.await UseMediaLike.console_error UseMediaLike.throw
       UseMediaLike.settled
       UseMediaLike.mediaId UseMediaLike.user UseMediaLike.st
       UseMediaLike.view UseMediaLike.inflight UseMediaLike.calls
       UseMediaLike.console UseMediaLike.mounted UseMediaLike.subscribed
       UseMediaLike.unhandled UseMediaLike.isLiked UseMediaLike.likesCount
       UseMediaLike.loading];
  client_eval.

Ltac open_like w :=
  let s := fresh "s" in
  let v := fresh "v" in
  destruct w as [? ? s v ? ? ? ? ? ?]; destruct s, v; like_fields; subst.

(** ** Toggle on, toggle off *)

(** C2. From [isActive = false, totalCount = N], a toggle-on and then a
    toggle-off, each awaited and each carried out by the store, end in
    [isActive = false, totalCount = N]; in between the state is
    [(true, N + 1)]. Stated for [toggleLike] and for [toggleFollow]. *)
Theorem C2_toggle_on_then_off (w : ProfileCard.World) :
  ProfileCard.mounted w = true ->
  (ProfileCard.isLiked (ProfileCard.st w) = false -> like_on_then_off w) /\
  (ProfileCard.isFollowing (ProfileCard.st w) = false ->
   follow_on_then_off w).
Proof.
  intros Hm. unfold like_on_then_off, follow_on_then_off. open_card w.
  split; intros ->.
  - eexists; eexists. card_eval.
    split; [reflexivity|]. card_eval.
    repeat (split; [reflexivity|]). split; [lia|reflexivity].
  - eexists; eexists. card_eval.
    split; [reflexivity|]. card_eval.
    repeat (split; [reflexivity|]). split; [lia|reflexivity].
Qed.

Lemma C2_toggle_on_then_off_witness :
  like_on_then_off card0 /\ follow_on_then_off card0.
Proof.
  split.
  - apply (C2_toggle_on_then_off card0); reflexivity.
  - apply (C2_toggle_on_then_off card0); reflexivity.
Defined.

(** ** A failed insert *)

(** When the call throws, the [catch] block puts back the two constants the
    handler saved before its optimistic writes. *)
Lemma toggleLike_thrown_restores (w : ProfileCard.World) (reason : string) :
  ProfileCard.mounted w = true ->
  exists w',
    ProfileCard.run [ProfileCard.Render; ProfileCard.ClickLike;
                     ProfileCard.Render;
                     ProfileCard.Settle 0 (Rejected reason)] w = Some w' /\
    ProfileCard.isLiked (ProfileCard.st w')
      = ProfileCard.isLiked (ProfileCard.st w) /\
    ProfileCard.likesCount (ProfileCard.st w')
      = ProfileCard.likesCount (ProfileCard.st w).
Proof.
  intros Hm. open_card w. eexists. card_eval. repeat split.
Qed.

(** The pair written back is the saved one, not one computed from the
    cells: a re-fetch that lands while the call is in flight and writes
    another count is overwritten by it. *)
Lemma toggleLike_thrown_restores_over_refetch (w : ProfileCard.World)
    (likesRes followsRes commentsRes : Response unit) (reason : string) :
  ProfileCard.mounted w = true ->
  ProfileCard.subscribed w = true ->
  exists w',
    ProfileCard.run
      [ProfileCard.Render; ProfileCard.ClickLike;
       ProfileCard.Notify ProfileCard.likes;
       ProfileCard.Settle 0
         (Fulfilled (ProfileCard.CountsRes likesRes followsRes commentsRes));
       ProfileCard.Settle 1 (Rejected reason)] w = Some w' /\
    ProfileCard.isLiked (ProfileCard.st w')
      = ProfileCard.isLiked (ProfileCard.st w) /\
    ProfileCard.likesCount (ProfileCard.st w')
      = ProfileCard.likesCount (ProfileCard.st w).
Proof.
  intros Hm Hs. open_card w. eexists. card_eval. repeat split.
Qed.

Lemma media_toggleLike_thrown_restores (w : UseMediaLike.World)
    (uid reason : string) :
  UseMediaLike.mounted w = true ->
  UseMediaLike.user w = Some uid ->
  exists w',
    UseMediaLike.run [UseMediaLike.Render; UseMediaLike.Toggle;
                      UseMediaLike.Render;
                      UseMediaLike.Settle 0 (Rejected reason)] w = Some w' /\
    UseMediaLike.isLiked (UseMediaLike.st w')
      = UseMediaLike.isLiked (UseMediaLike.st w) /\
    UseMediaLike.likesCount (UseMediaLike.st w')
      = UseMediaLike.likesCount (UseMediaLike.st w).
Proof.
  intros Hm Hu. open_like w. eexists. like_eval. repeat split.
Qed.

(** The answer of the store to an insert for a pair that already has a row
    is no throw: it is a response whose [error] holds the violation. *)
Lemma insert_duplicate_is_a_response (user profile : string)
    (t : list LikesTable.Row) :
  existsb (LikesTable.of_pair user profile) t = true ->
  LikesTable.insert user profile t = (t, failed LikesTable.unique_violation).
Proof. intros H. unfold LikesTable.insert. rewrite H. reflexivity. Qed.

(** C1, on the code. A toggle-on from [(false, N)] whose insert is refused
    by the store (the pair already has a row, so the response carries the
    unique-constraint error): the [try] block ends normally, the [catch]
    block does not run, and the state stays [(true, N + 1)]. The same holds
    in [useMediaLike] for a response carrying any error. *)
Theorem C1_refused_insert_is_not_rolled_back
    (w : ProfileCard.World) (t : list LikesTable.Row)
    (m : UseMediaLike.World) (uid : string) (e : PostgrestError) :
  ProfileCard.mounted w = true ->
  ProfileCard.isLiked (ProfileCard.st w) = false ->
  existsb (LikesTable.of_pair
             (ProfileCard.currentUserId (ProfileCard.props w))
             (ProfileCard.profile_id (ProfileCard.props w))) t = true ->
  UseMediaLike.mounted m = true ->
  UseMediaLike.user m = Some uid ->
  UseMediaLike.isLiked (UseMediaLike.st m) = false ->
  (exists w',
     ProfileCard.run
       [ProfileCard.Render; ProfileCard.ClickLike; ProfileCard.Render;
        ProfileCard.Settle 0
          (Fulfilled (ProfileCard.WriteRes
             (snd (LikesTable.insert
                     (ProfileCard.currentUserId (ProfileCard.props w))
                     (ProfileCard.profile_id (ProfileCard.props w)) t))))] w
     = Some w' /\
     ProfileCard.isLiked (ProfileCard.st w') = true /\
     ProfileCard.likesCount (ProfileCard.st w')
       = ProfileCard.likesCount (ProfileCard.st w) + 1) /\
  (exists m',
     UseMediaLike.run
       [UseMediaLike.Render; UseMediaLike.Toggle; UseMediaLike.Render;
        UseMediaLike.Settle 0 (Fulfilled (UseMediaLike.WriteRes (failed e)))] m
     = Some m' /\
     UseMediaLike.isLiked (UseMediaLike.st m') = true /\
     UseMediaLike.likesCount (UseMediaLike.st m')
       = UseMediaLike.likesCount (UseMediaLike.st m) + 1).
Proof.
  intros Hm Hl Ht Hm' Hu Hl'. split.
  - rewrite (insert_duplicate_is_a_response _ _ _ Ht).
    open_card w. eexists. card_eval. repeat split.
  - open_like m. eexists. like_eval. repeat split.
Qed.

Lemma C1_refused_insert_is_not_rolled_back_witness :
  (exists w',
     ProfileCard.run
       [ProfileCard.Render; ProfileCard.ClickLike; ProfileCard.Render;
        ProfileCard.Settle 0
          (Fulfilled (ProfileCard.WriteRes
             (snd (LikesTable.insert "u1" "p1"
                     [{| LikesTable.user_id := "u1";
                         LikesTable.profile_id := "p1" |}]))))] card0
     = Some w' /\
     ProfileCard.isLiked (ProfileCard.st w') = true /\
     ProfileCard.likesCount (ProfileCard.st w') = 0 + 1) /\
  (exists m',
     UseMediaLike.run
       [UseMediaLike.Render; UseMediaLike.Toggle; UseMediaLike.Render;
        UseMediaLike.Settle 0
          (Fulfilled (UseMediaLike.WriteRes
                        (failed LikesTable.unique_violation)))] like0
     = Some m' /\
     UseMediaLike.isLiked (UseMediaLike.st m') = true /\
     UseMediaLike.likesCount (UseMediaLike.st m') = 0 + 1).
Proof.
  apply (C1_refused_insert_is_not_rolled_back card0
           [{| LikesTable.user_id := "u1"; LikesTable.profile_id := "p1" |}]
           like0 "u1" LikesTable.unique_violation); reflexivity.
Defined.

(** ** Two toggles before the first settles *)

(** C3 fails: on the card and in [useMediaLike], a second click while the
    first call is in flight sends a second call. *)
Lemma C3_second_toggle_is_not_ignored :
  ~ card_second_toggle_ignored card0 /\ ~ like_second_toggle_ignored like0.
Proof.
  split.
  - intros H.
    destruct (H (ProfileCard.toggleLike card0)
                (ProfileCard.toggleLike (ProfileCard.toggleLike card0))
                eq_refl eq_refl) as [Hc _].
    vm_compute in Hc. discriminate Hc.
  - intros H.
    destruct (H (UseMediaLike.toggleLike like0)
                (UseMediaLike.toggleLike (UseMediaLike.toggleLike like0))
                eq_refl eq_refl) as [Hc _].
    vm_compute in Hc. discriminate Hc.
Qed.

(** C3, amended. No toggle invocation is ignored: a second invocation
    fired before the first call settles sends its own call, so two calls
    are in flight. [useMediaLike] raises [loading] while a call is in
    flight, and [toggleLike] does not consult it. *)
Theorem C3_each_toggle_sends_a_call
    (w : ProfileCard.World) (m : UseMediaLike.World) (uid : string) :
  ProfileCard.mounted w = true ->
  UseMediaLike.mounted m = true ->
  UseMediaLike.user m = Some uid ->
  card_two_in_flight w /\ like_two_in_flight m uid.
Proof.
  intros Hm Hm' Hu. split.
  - unfold card_two_in_flight, card_like_call. open_card w.
    split; do 3 eexists; card_eval;
      (split; [reflexivity|]); split; try reflexivity;
      destruct isLiked0; reflexivity.
  - unfold like_two_in_flight, hook_like_call. open_like m.
    split; [eexists; like_eval; split; reflexivity|].
    split; do 3 eexists; like_eval;
      (split; [reflexivity|]); split; try reflexivity;
      destruct isLiked0; reflexivity.
Qed.

Lemma C3_each_toggle_sends_a_call_witness :
  card_two_in_flight card0 /\ like_two_in_flight like0 "u1".
Proof.
  apply (C3_each_toggle_sends_a_call card0 like0 "u1"); reflexivity.
Defined.

(** ** The signed-out visitor *)

Lemma signed_out_clicks (w : UseMediaLike.World) (n : nat) :
  UseMediaLike.mounted w = true ->
  UseMediaLike.user w = None ->
  UseMediaLike.run (replicate n UseMediaLike.Toggle) w = Some w.
Proof.
  intros Hm Hu. induction n as [|n IH]; [reflexivity|].
  cbn [replicate UseMediaLike.run UseMediaLike.step]. rewrite Hm.
  unfold UseMediaLike.toggleLike. rewrite Hu. exact IH.
Qed.

Lemma signed_out_follow_clicks (w : UseCreatorFollow.World) (n : nat) :
  UseCreatorFollow.mounted w = true ->
  UseCreatorFollow.user w = None ->
  UseCreatorFollow.run (replicate n UseCreatorFollow.Toggle) w = Some w.
Proof.
  intros Hm Hu. induction n as [|n IH]; [reflexivity|].
  cbn [replicate UseCreatorFollow.run UseCreatorFollow.step]. rewrite Hm.
  unfold UseCreatorFollow.toggleFollow. rewrite Hu. exact IH.
Qed.

(** C10. With no current user, [toggleLike] of [useMediaLike] and
    [toggleFollow] of [useCreatorFollow] return at once: the world after the
    invocation is the world before it (no call, no state write, [loading]
    untouched), however many times the mounted hook is invoked. *)
Theorem C10_signed_out_toggle_is_a_no_op
    (m : UseMediaLike.World) (f : UseCreatorFollow.World) (n : nat) :
  UseMediaLike.user m = None ->
  UseCreatorFollow.user f = None ->
  UseMediaLike.toggleLike m = m /\
  UseCreatorFollow.toggleFollow f = f /\
  (UseMediaLike.mounted m = true ->
   UseMediaLike.run (replicate n UseMediaLike.Toggle) m = Some m) /\
  (UseCreatorFollow.mounted f = true ->
   UseCreatorFollow.run (replicate n UseCreatorFollow.Toggle) f = Some f).
Proof.
  intros Hm Hf. repeat split.
  - unfold UseMediaLike.toggleLike. rewrite Hm. reflexivity.
  - unfold UseCreatorFollow.toggleFollow. rewrite Hf. reflexivity.
  - intros H. apply signed_out_clicks; assumption.
  - intros H. apply signed_out_follow_clicks; assumption.
Qed.

Lemma C10_signed_out_toggle_is_a_no_op_witness :
  UseMediaLike.toggleLike like_anon = like_anon /\
  UseCreatorFollow.toggleFollow follow_anon = follow_anon /\
  UseMediaLike.run (replicate 3 UseMediaLike.Toggle) like_anon
  = Some like_anon /\
  UseCreatorFollow.run (replicate 3 UseCreatorFollow.Toggle) follow_anon
  = Some follow_anon.
Proof.
  destruct (C10_signed_out_toggle_is_a_no_op like_anon follow_anon 3
              eq_refl eq_refl) as (H1 & H2 & H3 & H4).
  split; [exact H1|]. split; [exact H2|].
  split; [exact (H3 eq_refl) | exact (H4 eq_refl)].
Defined.

(** ** Reconciliation on a change notification *)

(** C4. A change notification on any of the three tables makes the card
    call [fetchCounts]: the three count queries for its profile are sent to
    the client, nothing is written yet, and when the answer arrives the
    three counters are overwritten with the counts it holds, whatever they
    were before. *)
Theorem C4_notification_refetch_overwrites_counts
    (w : ProfileCard.World) (t : ProfileCard.Table)
    (likesRes followsRes commentsRes : Response unit) (nl nf nc : nat) :
  ProfileCard.subscribed w = true ->
  count likesRes = Some nl ->
  count followsRes = Some nf ->
  count commentsRes = Some nc ->
  exists w1 w' rest,
    ProfileCard.step (ProfileCard.Notify t) w = Some w1 /\
    ProfileCard.calls w1 = (counts_queries w ++ ProfileCard.calls w)%list /\
    ProfileCard.inflight w1
    = ProfileCard.AwaitFetch ProfileCard.Counts rest
      :: ProfileCard.inflight w /\
    ProfileCard.st w1 = ProfileCard.st w /\
    ProfileCard.step
      (ProfileCard.Settle 0
         (Fulfilled (ProfileCard.CountsRes likesRes followsRes commentsRes)))
      w1 = Some w' /\
    ProfileCard.likesCount (ProfileCard.st w') = Z.of_nat nl /\
    ProfileCard.followsCount (ProfileCard.st w') = Z.of_nat nf /\
    ProfileCard.commentsCount (ProfileCard.st w') = Z.of_nat nc.
Proof.
  intros Hs Hl Hf Hc.
  destruct likesRes, followsRes, commentsRes.
  cbv [count] in Hl, Hf, Hc. subst.
  cbv [counts_queries app]. open_card w.
  destruct t; do 3 eexists; card_eval;
    (split; [reflexivity|]); (split; [reflexivity|]);
    (split; [reflexivity|]); (split; [reflexivity|]); card_eval;
    repeat split.
Qed.

Lemma C4_notification_refetch_overwrites_counts_witness :
  exists w1 w' rest,
    ProfileCard.step (ProfileCard.Notify ProfileCard.likes) card0
    = Some w1 /\
    ProfileCard.calls w1
    = [ProfileCard.SelectCount ProfileCard.comments "p1";
       ProfileCard.SelectCount ProfileCard.follows "p1";
       ProfileCard.SelectCount ProfileCard.likes "p1"] /\
    ProfileCard.inflight w1
    = [ProfileCard.AwaitFetch ProfileCard.Counts rest] /\
    ProfileCard.st w1 = ProfileCard.initial /\
    ProfileCard.step
      (ProfileCard.Settle 0
         (Fulfilled (ProfileCard.CountsRes
            (LikesTable.select_count "p1"
               [{| LikesTable.user_id := "u2"; LikesTable.profile_id := "p1" |};
                {| LikesTable.user_id := "u3"; LikesTable.profile_id := "p1" |}])
            (counted 4) (counted 0))))
      w1 = Some w' /\
    ProfileCard.likesCount (ProfileCard.st w') = Z.of_nat 2 /\
    ProfileCard.followsCount (ProfileCard.st w') = Z.of_nat 4 /\
    ProfileCard.commentsCount (ProfileCard.st w') = Z.of_nat 0.
Proof.
  apply (C4_notification_refetch_overwrites_counts card0 ProfileCard.likes
           _ _ _ 2 4 0); reflexivity.
Defined.

(** The hooks of the media domain do the same through [checkLikeStatus],
    for a signed-in user; for a signed-out visitor the function returns
    before any query. *)
Lemma media_notification_refetch (w : UseMediaLike.World) (uid : string)
    (likeRes countRes : Response unit) (n : nat) :
  UseMediaLike.subscribed w = true ->
  UseMediaLike.user w = Some uid ->
  count countRes = Some n ->
  exists w',
    UseMediaLike.run
      [UseMediaLike.Notify;
       UseMediaLike.Settle 0
         (Fulfilled (UseMediaLike.StatusRes likeRes countRes))] w = Some w' /\
    UseMediaLike.likesCount (UseMediaLike.st w') = Z.of_nat n.
Proof.
  intros Hs Hu Hc. destruct likeRes, countRes. cbv [count] in Hc. subst.
  open_like w. eexists. like_eval. repeat split.
Qed.

(** ** The card's own write comes back through the feed *)

Lemma count_after_insert (user profile : string) (t : list LikesTable.Row) :
  existsb (LikesTable.of_pair user profile) t = false ->
  LikesTable.insert user profile t
    = ((t ++ [{| LikesTable.user_id := user;
                 LikesTable.profile_id := profile |}])%list, ok None) /\
  LikesTable.count_of profile (fst (LikesTable.insert user profile t))
    = S (LikesTable.count_of profile t) /\
  existsb (LikesTable.of_pair user profile)
          (fst (LikesTable.insert user profile t)) = true.
Proof.
  intros H. unfold LikesTable.insert. rewrite H. cbn [fst].
  split; [reflexivity|]. split.
  - unfold LikesTable.count_of. rewrite List.filter_app, List.length_app.
    cbn [List.filter]. unfold LikesTable.of_profile at 2.
    cbn [LikesTable.profile_id].
    rewrite bool_decide_eq_true_2 by reflexivity. cbn [length]. lia.
  - rewrite List.existsb_app. apply orb_true_iff. right.
    cbn [existsb]. unfold LikesTable.of_pair.
    cbn [LikesTable.user_id LikesTable.profile_id].
    rewrite !bool_decide_eq_true_2 by reflexivity. reflexivity.
Qed.

(** C5 fails for a card that is not in step with the table. The card has
    loaded 5 likes; the table has since shrunk to the like of one other
    user, and no notification of that has been handled yet. The user
    clicks (the card shows 6), the insert is carried out and its
    notification fires before its response: in each order of the three
    continuations the card ends with the 2 likes of the table, not with
    5 + 1. *)
Lemma C5_stale_count_is_replaced_by_the_store_count :
  exists w,
    ProfileCard.reachable p1 w /\
    ProfileCard.isLiked (ProfileCard.st w) = false /\
    ProfileCard.likesCount (ProfileCard.st w) = 5 /\
    existsb (LikesTable.of_pair "u1" "p1") one_like = false /\
    Forall (fun es =>
              exists w',
                ProfileCard.run es w = Some w' /\
                ProfileCard.likesCount (ProfileCard.st w') = 2 /\
                ProfileCard.likesCount (ProfileCard.st w')
                  <> ProfileCard.likesCount (ProfileCard.st w) + 1)
      (own_write_orders
         (Fulfilled (ProfileCard.CountsRes
            (LikesTable.select_count "p1"
               (fst (LikesTable.insert "u1" "p1" one_like)))
            (counted 0) (counted 0)))
         (Fulfilled (ProfileCard.StatusRes
            (LikesTable.select_maybeSingle "u1" "p1"
               (fst (LikesTable.insert "u1" "p1" one_like)))
            (ok None)))
         (Fulfilled (ProfileCard.WriteRes
            (snd (LikesTable.insert "u1" "p1" one_like))))).
Proof.
  eexists. split.
  - exists [ProfileCard.Mount;
            ProfileCard.Settle 2
              (Fulfilled (ProfileCard.CountsRes (counted 5) (counted 0)
                                                (counted 0)));
            ProfileCard.Settle 1
              (Fulfilled (ProfileCard.StatusRes (ok None) (ok None)));
            ProfileCard.Settle 0
              (Fulfilled (ProfileCard.CommentsRes (ok (Some []))));
            ProfileCard.Render].
    vm_compute. reflexivity.
  - split; [reflexivity|]. split; [reflexivity|]. split; [reflexivity|].
    cbv [own_write_orders map app].
    constructor; [|constructor; [|constructor; [|constructor]]];
      (eexists; split; [vm_compute; reflexivity|];
       split; [reflexivity|discriminate]).
Qed.

(** C5, amended. The user has no like yet; the user clicks, the insert is
    carried out, and the change notification for it fires before the
    insert's response is delivered; the re-fetch reads the table as the
    insert left it. In each order of the three continuations the card ends
    with the count of the table after the insert, whatever it showed before
    the click: the re-fetched values overwrite every cell they cover, and
    the response of the insert writes nothing. So a card that was in step
    with the table at [N] ends at [N + 1]. The calls sent are the insert,
    the three count queries and the two membership queries. *)
Theorem C5_own_write_counted_once
    (w : ProfileCard.World) (t : list LikesTable.Row)
    (followsRes commentsRes followRes : Response unit) :
  let uid := ProfileCard.currentUserId (ProfileCard.props w) in
  let pid := ProfileCard.profile_id (ProfileCard.props w) in
  let t' := fst (LikesTable.insert uid pid t) in
  ProfileCard.mounted w = true ->
  ProfileCard.subscribed w = true ->
  ProfileCard.isLiked (ProfileCard.st w) = false ->
  existsb (LikesTable.of_pair uid pid) t = false ->
  Forall (fun es =>
            exists w',
              ProfileCard.run es w = Some w' /\
              ProfileCard.isLiked (ProfileCard.st w') = true /\
              ProfileCard.likesCount (ProfileCard.st w')
                = Z.of_nat (LikesTable.count_of pid t) + 1 /\
              (ProfileCard.likesCount (ProfileCard.st w)
                 = Z.of_nat (LikesTable.count_of pid t) ->
               ProfileCard.likesCount (ProfileCard.st w')
                 = ProfileCard.likesCount (ProfileCard.st w) + 1) /\
              ProfileCard.followsCount (ProfileCard.st w')
                = or0 (count followsRes) /\
              ProfileCard.commentsCount (ProfileCard.st w')
                = or0 (count commentsRes) /\
              ProfileCard.isFollowing (ProfileCard.st w')
                = truthy (data followRes) /\
              ProfileCard.calls w'
                = (status_queries w ++ counts_queries w
                   ++ ProfileCard.Insert ProfileCard.likes pid uid
                      :: ProfileCard.calls w)%list /\
              ProfileCard.inflight w' = ProfileCard.inflight w)
    (own_write_orders
       (Fulfilled (ProfileCard.CountsRes (LikesTable.select_count pid t')
                                         followsRes commentsRes))
       (Fulfilled (ProfileCard.StatusRes
                     (LikesTable.select_maybeSingle uid pid t') followRes))
       (Fulfilled (ProfileCard.WriteRes
                     (snd (LikesTable.insert uid pid t))))).
Proof.
  intros uid pid t' Hm Hs Hl Ht.
  destruct (count_after_insert uid pid t Ht) as (Hi & Hc & He).
  subst t'. unfold LikesTable.select_count, LikesTable.select_maybeSingle.
  rewrite Hc, He, Hi. cbn [snd]. subst uid pid.
  destruct followsRes, commentsRes, followRes.
  cbv [status_queries counts_queries]. open_card w.
  cbv [own_write_orders map app].
  constructor; [|constructor; [|constructor; [|constructor]]];
    (eexists; card_eval; split; [reflexivity|]; card_eval;
     split; [reflexivity|]; split; [lia|]; split; [lia|];
     repeat split).
Qed.

Lemma C5_own_write_counted_once_witness :
  Forall (fun es =>
            exists w',
              ProfileCard.run es card0 = Some w' /\
              ProfileCard.isLiked (ProfileCard.st w') = true /\
              ProfileCard.likesCount (ProfileCard.st w') = 0 + 1 /\
              length (ProfileCard.calls w') = 6%nat)
    (own_write_orders
       (Fulfilled (ProfileCard.CountsRes
          (LikesTable.select_count "p1"
             (fst (LikesTable.insert "u1" "p1" [])))
          (counted 0) (counted 0)))
       (Fulfilled (ProfileCard.StatusRes
          (LikesTable.select_maybeSingle "u1" "p1"
             (fst (LikesTable.insert "u1" "p1" [])))
          (ok None)))
       (Fulfilled (ProfileCard.WriteRes
          (snd (LikesTable.insert "u1" "p1" []))))).
Proof.
  eapply Forall_impl.
  - apply (C5_own_write_counted_once card0 [] (counted 0) (counted 0)
             (ok None)); reflexivity.
  - intros es (w' & Hrun & Hl & Hn & _ & _ & _ & _ & Hc & _).
    exists w'. split; [exact Hrun|]. split; [exact Hl|].
    split; [exact Hn|]. rewrite Hc. reflexivity.
Defined.

(** ** Comments *)

Lemma tempId_of_inj (a b : N) :
  ProfileCard.tempId_of a = ProfileCard.tempId_of b -> a = b.
Proof.
  unfold ProfileCard.tempId_of. cbn [String.append]. intros H.
  injection H as H. exact (pretty_N_inj _ _ H).
Qed.

(** Reconciliation rewrites entries where they stand: the list keeps its
    length, and the texts and authors stay at their positions. *)
Lemma reconcile_in_place (tempId : string) (d : ProfileCard.Comment)
    (l : list ProfileCard.Comment) :
  length (map (ProfileCard.reconcile tempId d) l) = length l /\
  map ProfileCard.content (map (ProfileCard.reconcile tempId d) l)
    = map ProfileCard.content l /\
  map ProfileCard.user_id (map (ProfileCard.reconcile tempId d) l)
    = map ProfileCard.user_id l.
Proof.
  induction l as [|c l (IH1 & IH2 & IH3)]; [repeat split|].
  cbn [map length]. rewrite IH1, IH2, IH3.
  assert (Hc : ProfileCard.content (ProfileCard.reconcile tempId d c)
               = ProfileCard.content c)
    by (unfold ProfileCard.reconcile; case_decide; reflexivity).
  assert (Hu : ProfileCard.user_id (ProfileCard.reconcile tempId d c)
               = ProfileCard.user_id c)
    by (unfold ProfileCard.reconcile; case_decide; reflexivity).
  rewrite Hc, Hu. repeat split.
Qed.

Lemma reconcile_hit (tempId : string) (d c : ProfileCard.Comment) :
  ProfileCard.id c = tempId ->
  ProfileCard.reconcile tempId d c
  = {| ProfileCard.id := ProfileCard.id d;
       ProfileCard.content := ProfileCard.content c;
       ProfileCard.user_id := ProfileCard.user_id c;
       ProfileCard.created_at := ProfileCard.created_at d |}.
Proof.
  intros H. unfold ProfileCard.reconcile. rewrite decide_True by exact H.
  reflexivity.
Qed.

Lemma reconcile_miss (tempId : string) (d c : ProfileCard.Comment) :
  ProfileCard.id c <> tempId -> ProfileCard.reconcile tempId d c = c.
Proof.
  intros H. unfold ProfileCard.reconcile. rewrite decide_False by exact H.
  reflexivity.
Qed.

(** Reconcile the entries written out as records, innermost first. *)
Ltac reconcile_records :=
  repeat match goal with
  | |- context [ProfileCard.reconcile ?t ?d
                  (ProfileCard.Build_Comment ?i ?c ?u ?ts)] =>
      first
        [ rewrite (reconcile_hit t d (ProfileCard.Build_Comment i c u ts))
            by reflexivity
        | rewrite (reconcile_miss t d (ProfileCard.Build_Comment i c u ts))
            by (cbn [ProfileCard.id]; assumption) ];
      cbn [ProfileCard.id ProfileCard.content ProfileCard.user_id
           ProfileCard.created_at]
  end.

Lemma reconcile_absent (tempId : string) (d : ProfileCard.Comment)
    (l : list ProfileCard.Comment) :
  Forall (fun c => ProfileCard.id c <> tempId) l ->
  map (ProfileCard.reconcile tempId d) l = l.
Proof.
  induction 1 as [|c l Hc _ IH]; [reflexivity|].
  cbn [map]. rewrite IH. unfold ProfileCard.reconcile.
  rewrite decide_False by exact Hc. reflexivity.
Qed.

Lemma filter_absent (tempId : string) (l : list ProfileCard.Comment) :
  Forall (fun c => ProfileCard.id c <> tempId) l ->
  filter (fun c => ProfileCard.id c <> tempId) l = l.
Proof.
  induction 1 as [|c l Hc _ IH]; [reflexivity|].
  rewrite filter_cons_True by exact Hc. rewrite IH. reflexivity.
Qed.

(** C6 fails once the feed is handled. Comments A and B are appended and
    both inserts succeed; the store stamps A's row later than B's. The
    card's own insert fires its [comments] handler, whose [fetchComments]
    replaces the list by the store's rows, newest first: the list ends as
    [A, B]. And when that re-fetch is answered between the two inserts,
    from a store that holds A's row only, B's placeholder is dropped and
    the answer of B's insert finds nothing to reconcile: the list ends
    without B. *)
Lemma C6_refetch_puts_the_store_order :
  newest_first [row9; row7] = true /\
  Forall (fun es =>
            exists w',
              ProfileCard.run
                (es ++ comments_refetched (counted 0) (counted 0) (counted 2)
                                          [row9; row7])%list card0
              = Some w' /\
              map ProfileCard.content
                  (ProfileCard.comments_ (ProfileCard.st w'))
              = ["first"; "second"])
         (two_appends " first" "second " 1000 1001 "t1000" "t1001"
                      row9 row7) /\
  exists w',
    ProfileCard.run
      (refetched_between " first" "second " 1000 1001 "t1000" "t1001"
                         row9 row7 (counted 0) (counted 0) (counted 1)
                         [row9]) card0
    = Some w' /\
    ProfileCard.comments_ (ProfileCard.st w') = [row9] /\
    ProfileCard.inflight w' = [].
Proof.
  split; [reflexivity|]. split.
  - cbv [two_appends map app].
    constructor; [|constructor; [|constructor]];
      (eexists; split; [vm_compute; reflexivity|reflexivity]).
  - eexists. split; [vm_compute; reflexivity|]. split; reflexivity.
Qed.

(** C6, amended. Two comments appended one after the other, A then B, both
    inserts successful, whichever answers first and whatever timestamps the
    rows carry. The answers of the inserts reconcile in place: the list
    holds the text of B, then the text of A, then the older comments, at
    the positions the placeholders were given; when the two sends happen at
    different milliseconds, no older entry carries one of the two temporary
    identifiers and no row identifier is a temporary identifier, the two
    entries carry the identifier and the timestamp of their own rows and
    the older entries are untouched. The order does not outlast the feed:
    once the card's [comments] handler has run, the list is the rows
    [fetchComments] returned, in the store's order; and if that happens
    between the two answers, with rows that do not hold B's temporary
    identifier, the answer of B's insert changes nothing and the list stays
    those rows. *)
Theorem C6_appends_reconciled_in_place
    (w : ProfileCard.World) (a b : string) (tA tB : N) (isoA isoB : string)
    (dA dB : ProfileCard.Comment)
    (likesRes followsRes commentsRes : Response unit)
    (rows : list ProfileCard.Comment) :
  ProfileCard.mounted w = true ->
  ProfileCard.subscribed w = true ->
  falsy (trim a) = false ->
  falsy (trim b) = false ->
  Forall (fun es =>
            (exists w',
               ProfileCard.run es w = Some w' /\
               map ProfileCard.content
                   (ProfileCard.comments_ (ProfileCard.st w'))
                 = trim b :: trim a
                   :: map ProfileCard.content
                        (ProfileCard.comments_ (ProfileCard.st w)) /\
               (tA <> tB ->
                Forall (fun c =>
                          ProfileCard.id c <> ProfileCard.tempId_of tA /\
                          ProfileCard.id c <> ProfileCard.tempId_of tB)
                       (ProfileCard.comments_ (ProfileCard.st w)) ->
                ProfileCard.id dA <> ProfileCard.tempId_of tB ->
                ProfileCard.id dB <> ProfileCard.tempId_of tA ->
                ProfileCard.comments_ (ProfileCard.st w')
                  = committed w b dB :: committed w a dA
                    :: ProfileCard.comments_ (ProfileCard.st w))) /\
            (exists w',
               ProfileCard.run
                 (es ++ comments_refetched likesRes followsRes commentsRes
                                           rows)%list w = Some w' /\
               ProfileCard.comments_ (ProfileCard.st w') = rows))
         (two_appends a b tA tB isoA isoB dA dB) /\
  (Forall (fun c => ProfileCard.id c <> ProfileCard.tempId_of tB) rows ->
   exists w',
     ProfileCard.run
       (refetched_between a b tA tB isoA isoB dA dB
                          likesRes followsRes commentsRes rows) w
     = Some w' /\
     ProfileCard.comments_ (ProfileCard.st w') = rows /\
     ProfileCard.inflight w' = ProfileCard.inflight w).
Proof.
  intros Hm Hs Ha Hb.
  unfold committed. open_card w.
  cbv [two_appends refetched_between comments_refetched inserted map app].
  split.
  - constructor; [|constructor; [|constructor]]; (split;
      [ eexists; card_eval; rewrite Ha; card_eval; rewrite Hb; card_eval;
        split; [reflexivity|]; card_eval; split;
        [ rewrite !(proj1 (proj2 (reconcile_in_place _ _ _))); reflexivity
        | intros Hne Hold HdA HdB;
          assert (HoA : Forall (fun c => ProfileCard.id c
                                         <> ProfileCard.tempId_of tA)
                               comments_)
            by (eapply Forall_impl; [exact Hold | intros c [H _]; exact H]);
          assert (HoB : Forall (fun c => ProfileCard.id c
                                         <> ProfileCard.tempId_of tB)
                               comments_)
            by (eapply Forall_impl; [exact Hold | intros c [_ H]; exact H]);
          assert (HAB : ProfileCard.tempId_of tA <> ProfileCard.tempId_of tB)
            by (intros H; apply Hne, tempId_of_inj, H);
          assert (HBA : ProfileCard.tempId_of tB <> ProfileCard.tempId_of tA)
            by (intros H; apply HAB; symmetry; exact H);
          cbn [map];
          rewrite ?(reconcile_absent _ _ _ HoA), ?(reconcile_absent _ _ _ HoB),
                  ?(reconcile_absent _ _ _ HoA);
          reconcile_records; reflexivity ]
      | eexists; card_eval; rewrite Ha; card_eval; rewrite Hb; card_eval;
        split; reflexivity ]).
  - intros Hrows. eexists. card_eval. rewrite Ha. card_eval.
    rewrite Hb. card_eval. split; [reflexivity|]. card_eval.
    rewrite (reconcile_absent _ _ _ Hrows). split; reflexivity.
Qed.

Lemma C6_appends_reconciled_in_place_witness :
  Forall (fun es =>
            (exists w',
               ProfileCard.run es card0 = Some w' /\
               map ProfileCard.content
                   (ProfileCard.comments_ (ProfileCard.st w'))
                 = ["second"; "first"] /\
               ProfileCard.comments_ (ProfileCard.st w') = [row7; row9]) /\
            (exists w',
               ProfileCard.run
                 (es ++ comments_refetched (counted 0) (counted 0)
                                           (counted 2) [row9; row7])%list
                 card0 = Some w' /\
               ProfileCard.comments_ (ProfileCard.st w') = [row9; row7]))
         (two_appends " first" "second " 1000 1001 "t1000" "t1001" row9 row7).
Proof.
  eapply Forall_impl.
  - apply (C6_appends_reconciled_in_place card0 " first" "second " 1000 1001
             "t1000" "t1001" row9 row7 (counted 0) (counted 0) (counted 2)
             [row9; row7]); reflexivity.
  - intros es [(w' & Hrun & Hmap & Hall) Hre]. split; [|exact Hre].
    exists w'. split; [exact Hrun|]. split; [exact Hmap|].
    apply Hall; try discriminate. constructor.
Defined.

(** A change notification on [comments] ends with [fetchComments], which
    replaces the whole list by the rows the store returns, in the store's
    order ([created_at] descending). *)
Lemma notification_replaces_comments (w : ProfileCard.World)
    (likesRes followsRes commentsRes : Response unit)
    (rows : list ProfileCard.Comment) :
  ProfileCard.subscribed w = true ->
  exists w',
    ProfileCard.run
      [ProfileCard.Notify ProfileCard.comments;
       ProfileCard.Settle 0
         (Fulfilled (ProfileCard.CountsRes likesRes followsRes commentsRes));
       ProfileCard.Settle 0
         (Fulfilled (ProfileCard.CommentsRes (ok (Some rows))))] w
    = Some w' /\
    ProfileCard.comments_ (ProfileCard.st w') = rows.
Proof.
  intros Hs. open_card w. eexists. card_eval. repeat split.
Qed.

(** When the insert of a comment throws, the [catch] block filters the
    placeholder out and writes back the count the handler started from. *)
Lemma addComment_thrown_rolls_back (w : ProfileCard.World) (text : string)
    (now : N) (iso reason : string) :
  ProfileCard.mounted w = true ->
  falsy (trim text) = false ->
  Forall (fun c => ProfileCard.id c <> ProfileCard.tempId_of now)
         (ProfileCard.comments_ (ProfileCard.st w)) ->
  exists w',
    ProfileCard.run [ProfileCard.Input text; ProfileCard.Render;
                     ProfileCard.Send now iso; ProfileCard.Render;
                     ProfileCard.Settle 0 (Rejected reason)] w = Some w' /\
    ProfileCard.comments_ (ProfileCard.st w')
      = ProfileCard.comments_ (ProfileCard.st w) /\
    ProfileCard.commentsCount (ProfileCard.st w')
      = ProfileCard.commentsCount (ProfileCard.st w) /\
    ProfileCard.unhandled w' = ProfileCard.unhandled w.
Proof.
  intros Hm Ht Hold. open_card w.
  eexists. card_eval. rewrite Ht. card_eval.
  split; [reflexivity|]. card_eval.
  rewrite filter_cons_False by (cbn [ProfileCard.id]; intros H; apply H;
                                reflexivity).
  rewrite (filter_absent _ _ Hold). repeat split.
Qed.

(** C7, on the code. A comment whose insert is refused by the store (the
    response carries an error and no row): the [try] block ends normally
    with [data] null, so nothing is undone: the placeholder stays at the
    head of the list under its temporary identifier and the count stays
    one above what it was. Nothing is thrown. *)
Theorem C7_refused_append_is_not_rolled_back
    (w : ProfileCard.World) (text : string) (now : N) (iso : string)
    (e : PostgrestError) :
  ProfileCard.mounted w = true ->
  falsy (trim text) = false ->
  exists w',
    ProfileCard.run
      [ProfileCard.Input text; ProfileCard.Render;
       ProfileCard.Send now iso; ProfileCard.Render;
       ProfileCard.Settle 0
         (Fulfilled (ProfileCard.InsertedRes (failed e)))] w = Some w' /\
    ProfileCard.comments_ (ProfileCard.st w')
      = placeholder w text now iso
        :: ProfileCard.comments_ (ProfileCard.st w) /\
    ProfileCard.commentsCount (ProfileCard.st w')
      = ProfileCard.commentsCount (ProfileCard.st w) + 1 /\
    ProfileCard.unhandled w' = ProfileCard.unhandled w.
Proof.
  intros Hm Ht. unfold placeholder. open_card w.
  eexists. card_eval. rewrite Ht. card_eval. repeat split.
Qed.

Lemma C7_refused_append_is_not_rolled_back_witness :
  exists w',
    ProfileCard.run
      [ProfileCard.Input "hello"; ProfileCard.Render;
       ProfileCard.Send 1000 "t1000"; ProfileCard.Render;
       ProfileCard.Settle 0
         (Fulfilled (ProfileCard.InsertedRes (failed foreign_key_violation)))]
      card0 = Some w' /\
    ProfileCard.comments_ (ProfileCard.st w')
      = [ {| ProfileCard.id := "temp-1000"; ProfileCard.content := "hello";
             ProfileCard.user_id := "u1";
             ProfileCard.created_at := Some "t1000" |} ] /\
    ProfileCard.commentsCount (ProfileCard.st w') = 0 + 1 /\
    ProfileCard.unhandled w' = [].
Proof.
  apply (C7_refused_append_is_not_rolled_back card0 "hello" 1000 "t1000"
           foreign_key_violation); reflexivity.
Defined.

(** ** The sign of the counters *)

(** C8 fails. The card mounts for a user who already likes the profile;
    of the three fetches of the effect, [fetchUserStatus] is answered first;
    the card renders [isLiked = true] beside the initial count 0, and a click
    writes [likesCount = -1]. *)
Lemma C8_count_can_go_negative :
  exists w,
    ProfileCard.reachable p1 w /\
    ProfileCard.likesCount (ProfileCard.st w) = -1.
Proof.
  eexists. split.
  - exists [ProfileCard.Mount;
            ProfileCard.Settle 1
              (Fulfilled (ProfileCard.StatusRes (ok (Some tt)) (ok None)));
            ProfileCard.Render; ProfileCard.ClickLike].
    vm_compute. reflexivity.
  - reflexivity.
Qed.

Lemma or0_nonneg (c : option nat) : 0 <= or0 c.
Proof. destruct c; cbn [or0]; lia. Qed.

Lemma fresh_nonneg (p : ProfileCard.Props) : nonneg (ProfileCard.fresh p).
Proof.
  unfold nonneg, counts_nonneg. cbn. repeat split; try lia. constructor.
Qed.

Ltac nonneg_goal :=
  card_eval;
  repeat match goal with |- _ /\ _ => split end;
  try lia; try apply or0_nonneg;
  repeat match goal with
         | |- Forall _ (_ :: _) =>
             constructor; [cbn [saved_nonneg]; try exact I; try lia|]
         end;
  try assumption.

(** C8, amended. The counters are integers with no lower clamp. Every
    event keeps them (in the cells, in the rendered snapshot and in the
    snapshots saved by suspended continuations) at 0 or above, a re-fetch
    writing what the store counted or 0, with one exception: a toggle-off
    invoked while the render shows [isActive = true] and a count of 0
    writes -1. *)
Theorem C8_counts_nonneg_but_for_toggle_off_at_zero
    (e : ProfileCard.Event) (w w' : ProfileCard.World) :
  nonneg w ->
  ProfileCard.step e w = Some w' ->
  (~ toggle_off_at_zero e w -> nonneg w') /\
  (e = ProfileCard.ClickLike ->
   ProfileCard.isLiked (ProfileCard.view w) = true ->
   ProfileCard.likesCount (ProfileCard.view w) = 0 ->
   ProfileCard.likesCount (ProfileCard.st w') = -1) /\
  (e = ProfileCard.ClickFollow ->
   ProfileCard.isFollowing (ProfileCard.view w) = true ->
   ProfileCard.followsCount (ProfileCard.view w) = 0 ->
   ProfileCard.followsCount (ProfileCard.st w') = -1).
Proof.
  unfold nonneg, counts_nonneg, toggle_off_at_zero.
  intros (Hs & Hv & Ht) Hstep.
  open_card w.
  destruct e;
    cbv [ProfileCard.step ProfileCard.mounted ProfileCard.subscribed
         ProfileCard.inflight] in Hstep;
    try match type of Hstep with
        | (if mounted then _ else _) = _ =>
            destruct mounted; try discriminate Hstep
        end;
    try (injection Hstep as <-).
  all: (split; [intros Hsafe | split; intros He; try discriminate He;
                                intros Hb Hn]).
  all: try (subst; card_eval; reflexivity).
  - (* Mount *) nonneg_goal.
  - (* Render *) nonneg_goal.
  - (* ClickLike *)
    destruct isLiked0.
    + assert (likesCount0 <> 0) by (intros ->; apply Hsafe; left; tauto).
      nonneg_goal.
    + nonneg_goal.
  - (* ClickFollow *)
    destruct isFollowing0.
    + assert (followsCount0 <> 0) by (intros ->; apply Hsafe; right; tauto).
      nonneg_goal.
    + nonneg_goal.
  - (* ClickComments *) nonneg_goal.
  - (* Input *) nonneg_goal.
  - (* Send *)
    card_eval. destruct (falsy (trim newComment0)); nonneg_goal.
  - (* Notify *)
    destruct subscribed; [destruct t|]; nonneg_goal.
  - (* Settle *)
    destruct (inflight !! i) as [k|] eqn:Hk; [|discriminate Hstep].
    pose proof (Forall_lookup_1 _ _ _ _ Ht Hk) as Hsaved.
    pose proof (Forall_delete _ _ i Ht) as Hrest.
    destruct k as [b n|b n|tid n|f rest];
      destruct o as [[l fo c|l fo|r|r|r]|reason];
      cbv [ProfileCard.resume] in Hstep; try discriminate Hstep;
      try (destruct f; try discriminate Hstep);
      injection Hstep as <-; cbn [saved_nonneg] in Hsaved.
    all: try (nonneg_goal; fail).
    + destruct r as [[d|] ? ?]; nonneg_goal.
    + destruct rest as [|[] rest']; nonneg_goal.
    + destruct rest as [|[] rest']; nonneg_goal.
    + destruct rest as [|[] rest']; nonneg_goal.
  - (* Unmount *) nonneg_goal.
Qed.

Lemma C8_counts_nonneg_but_for_toggle_off_at_zero_witness :
  nonneg (ProfileCard.toggleLike card0) /\
  ProfileCard.likesCount (ProfileCard.st (ProfileCard.toggleLike card0)) = 1.
Proof.
  split; [|reflexivity].
  refine (proj1 (C8_counts_nonneg_but_for_toggle_off_at_zero
                   ProfileCard.ClickLike card0 _ _ eq_refl) _).
  - unfold nonneg, counts_nonneg. cbn. repeat split; try lia. constructor.
  - unfold toggle_off_at_zero. cbn. intros [(_ & H & _) | (H & _)];
      discriminate H.
Defined.

(** ** Unmounting with a call in flight *)

(** C9 fails: the continuation is not a no-op. A change of [likes] is
    notified, the card is unmounted while the handler is suspended in
    [fetchCounts], and the counts are answered afterwards: the handler goes
    on to [fetchUserStatus], so two more queries are sent for the unmounted
    card and another call is in flight. *)
Lemma C9_continuation_is_not_a_no_op :
  (exists w1 w2,
     ProfileCard.run [ProfileCard.Notify ProfileCard.likes;
                      ProfileCard.Unmount] card0 = Some w1 /\
     ProfileCard.mounted w1 = false /\
     ProfileCard.subscribed w1 = false /\
     ProfileCard.step
       (ProfileCard.Settle 0
          (Fulfilled (ProfileCard.CountsRes (counted 5) (counted 0)
                                            (counted 0)))) w1 = Some w2 /\
     ProfileCard.calls w2
     = ([ProfileCard.SelectMaybeSingle ProfileCard.follows "p1" "u1";
         ProfileCard.SelectMaybeSingle ProfileCard.likes "p1" "u1"]
        ++ ProfileCard.calls w1)%list /\
     ProfileCard.inflight w2
     = [ProfileCard.AwaitFetch ProfileCard.UserStatus []]) /\
  ~ card_continuation_is_no_op
      (ProfileCard.onChange ProfileCard.likes card0).
Proof.
  split.
  - do 2 eexists. split; [reflexivity|]. repeat split.
  - intros H.
    destruct (H _ 0%nat
                (ProfileCard.CountsRes (counted 5) (counted 0) (counted 0))
                _ eq_refl eq_refl) as [Hcalls _].
    vm_compute in Hcalls. discriminate Hcalls.
Qed.

(** C9, amended. Unmounting while a call is in flight cancels the
    subscription (a later notification starts nothing). A call that is
    answered afterwards throws nothing and, in the hook, logs nothing; what
    was rendered stays as it was and no render follows. But no continuation
    is guarded: whatever call settles after the unmount, its continuation
    runs as it would on the mounted component, setter calls and further
    queries included. So a fulfilled toggle writes neither [isActive] nor
    [totalCount] (the hook writes [loading = false]), while a toggle whose
    call throws still writes the saved pair back, and in the hook logs the
    error with [console.error]. *)
Theorem C9_unmount_then_settle
    (w : ProfileCard.World) (i : nat) (b : bool) (n : Z)
    (m : UseMediaLike.World) (j : nat) (c : bool) (k : Z) :
  ProfileCard.mounted w = true ->
  ProfileCard.inflight w !! i = Some (ProfileCard.AwaitToggleLike b n) ->
  UseMediaLike.mounted m = true ->
  UseMediaLike.inflight m !! j = Some (UseMediaLike.AwaitToggleLike c k) ->
  (card_unmount_then_settle w i b n /\ card_settles_unguarded w /\
   card_answer_after_unmount w) /\
  (like_unmount_then_settle m j c k /\ like_settles_unguarded m /\
   like_answer_after_unmount m).
Proof.
  intros Hm Hi Hm' Hj. split; (split; [|split]).
  - unfold card_unmount_then_settle. open_card w.
    eexists. split; [reflexivity|].
    split; [reflexivity|]. split; [reflexivity|].
    split; intros x; eexists;
      cbv [ProfileCard.step ProfileCard.unmount ProfileCard.inflight];
      rewrite Hi; card_eval; repeat split.
  - clear Hi. intros i' o. open_card w.
    cbv [ProfileCard.step ProfileCard.unmount ProfileCard.inflight].
    destruct (inflight !! i') as [t|]; [|reflexivity].
    destruct t as [? ?|? ?|? ?|f rest]; destruct o as [[? ? ?|? ?|r|r|r]|?];
      try reflexivity;
      try (destruct r as [[d|] ? ?]; reflexivity);
      destruct f; try reflexivity; destruct rest as [|[] ?]; reflexivity.
  - clear Hi. intros i' p w2. open_card w.
    cbv [ProfileCard.step ProfileCard.unmount ProfileCard.inflight].
    destruct (inflight !! i') as [t|]; [|discriminate].
    destruct t as [? ?|? ?|? ?|f rest]; destruct p as [? ? ?|? ?|r|r|r];
      try discriminate;
      try (destruct r as [[d|] ? ?]);
      try (destruct f; try discriminate; destruct rest as [|[] ?]);
      intros H; injection H as <-; repeat split.
  - unfold like_unmount_then_settle. open_like m.
    eexists. split; [reflexivity|].
    split; [reflexivity|]. split; [reflexivity|].
    split; intros x; eexists;
      cbv [UseMediaLike.step UseMediaLike.unmount UseMediaLike.inflight];
      rewrite Hj; like_eval; repeat split.
  - clear Hj. intros j' o. open_like m.
    cbv [UseMediaLike.step UseMediaLike.unmount UseMediaLike.inflight].
    destruct (inflight !! j') as [t|]; [|reflexivity].
    destruct t; destruct o as [[? ?|r]|?]; reflexivity.
  - clear Hj. intros j' p w2. open_like m.
    cbv [UseMediaLike.step UseMediaLike.unmount UseMediaLike.inflight].
    destruct (inflight !! j') as [t|]; [|discriminate].
    destruct t; destruct p as [? ?|r]; try discriminate;
      intros H; injection H as <-; repeat split.
Qed.

Lemma C9_unmount_then_settle_witness :
  (card_unmount_then_settle (ProfileCard.toggleLike card0) 0 false 0 /\
   card_settles_unguarded (ProfileCard.toggleLike card0) /\
   card_answer_after_unmount (ProfileCard.toggleLike card0)) /\
  (like_unmount_then_settle (UseMediaLike.toggleLike like0) 0 false 0 /\
   like_settles_unguarded (UseMediaLike.toggleLike like0) /\
   like_answer_after_unmount (UseMediaLike.toggleLike like0)).
Proof.
  apply (C9_unmount_then_settle
           (ProfileCard.toggleLike card0) 0 false 0
           (UseMediaLike.toggleLike like0) 0 false 0); reflexivity.
Defined.

(** * Further properties of the code *)

Ltac follow_fields :=
  cbv [UseCreatorFollow.creatorId UseCreatorFollow.user UseCreatorFollow.st
       UseCreatorFollow.view UseCreatorFollow.inflight UseCreatorFollow.calls
       UseCreatorFollow.console UseCreatorFollow.mounted
       UseCreatorFollow.subscribed UseCreatorFollow.unhandled
       UseCreatorFollow.isFollowing UseCreatorFollow.followsCount
       UseCreatorFollow.loading] in *.

Ltac follow_eval :=
  cbv [UseCreatorFollow.run UseCreatorFollow.step UseCreatorFollow.resume
       UseCreatorFollow.mount UseCreatorFollow.unmount UseCreatorFollow.render
       UseCreatorFollow.checkFollowStatus
       UseCreatorFollow.checkFollowStatus_settled
       UseCreatorFollow.toggleFollow UseCreatorFollow.toggleFollow_settled
       UseCreatorFollow.setIsFollowing UseCreatorFollow.setFollowsCount
       UseCreatorFollow.setLoading UseCreatorFollow.with_st
       UseCreatorFollow.call UseCreatorFollow.await
       UseCreatorFollow.console_error UseCreatorFollow.throw
       UseCreatorFollow.settled
       UseCreatorFollow.creatorId UseCreatorFollow.user UseCreatorFollow.st
       UseCreatorFollow.view UseCreatorFollow.inflight UseCreatorFollow.calls
       UseCreatorFollow.console UseCreatorFollow.mounted
       UseCreatorFollow.subscribed UseCreatorFollow.unhandled
       UseCreatorFollow.isFollowing UseCreatorFollow.followsCount
       UseCreatorFollow.loading];
  client_eval.

Ltac open_follow w :=
  let s := fresh "s" in
  let v := fresh "v" in
  destruct w as [? ? s v ? ? ? ? ? ?]; destruct s, v; follow_fields; subst.

(** ** The comment box *)

Lemma append_nil_l (t : string) : "" ++ t = t.
Proof. reflexivity. Qed.

Lemma append_cons (a : ascii) (s t : string) :
  String a s ++ t = String a (s ++ t).
Proof. reflexivity. Qed.

Ltac push_append := rewrite ?append_cons, ?append_nil_l.

Lemma is_space2_not1 (a b : ascii) :
  is_space2 a b = true -> is_space a = false.
Proof.
  unfold is_space2, is_space. intros H.
  apply andb_true_iff in H as [H _]. apply Nat.eqb_eq in H. rewrite H.
  reflexivity.
Qed.

Lemma is_space3_not12 (a b c : ascii) :
  is_space3 a b c = true -> is_space a = false /\ is_space2 a b = false.
Proof.
  unfold is_space3, is_space2, is_space. cbv zeta.
  destruct (Nat.eqb_spec (nat_of_ascii a) 225) as [->|?];
    [intros _; split; reflexivity|].
  destruct (Nat.eqb_spec (nat_of_ascii a) 226) as [->|?];
    [intros _; split; reflexivity|].
  destruct (Nat.eqb_spec (nat_of_ascii a) 227) as [->|?];
    [intros _; split; reflexivity|].
  destruct (Nat.eqb_spec (nat_of_ascii a) 239) as [->|?];
    [intros _; split; reflexivity|].
  cbn [andb orb]. discriminate.
Qed.

Lemma skip_space_app (sp rest : string) :
  space_char sp = true -> skip_space (sp ++ rest) = Some rest.
Proof.
  destruct sp as [|a [|b [|c [|d sp]]]]; cbn [space_char]; intros H;
    try discriminate H; push_append; cbn [skip_space].
  - rewrite H. reflexivity.
  - rewrite (is_space2_not1 a b H), H. reflexivity.
  - destruct (is_space3_not12 a b c H) as [-> ->]. rewrite H. reflexivity.
Qed.

Lemma skip_space_inv (s r : string) :
  skip_space s = Some r ->
  exists sp, space_char sp = true /\ s = sp ++ r.
Proof.
  destruct s as [|a [|b [|c s]]]; cbn [skip_space];
    try discriminate; destruct (is_space a) eqn:Ha;
    try discriminate; intros H.
  - injection H as <-. exists (String a ""). split; [exact Ha|reflexivity].
  - injection H as <-. exists (String a ""). split; [exact Ha|reflexivity].
  - destruct (is_space2 a b) eqn:Hb; [|discriminate H].
    injection H as <-. exists (String a (String b "")).
    split; [exact Hb|reflexivity].
  - injection H as <-. exists (String a ""). split; [exact Ha|reflexivity].
  - destruct (is_space2 a b) eqn:Hb.
    + injection H as <-. exists (String a (String b "")).
      split; [exact Hb|reflexivity].
    + destruct (is_space3 a b c) eqn:Hc; [|discriminate H].
      injection H as <-. exists (String a (String b (String c ""))).
      split; [exact Hc|reflexivity].
Qed.

Lemma skip_space_shorter (s r : string) :
  skip_space s = Some r -> (String.length r < String.length s)%nat.
Proof.
  destruct s as [|a [|b [|c s]]]; cbn [skip_space]; try discriminate;
    destruct (is_space a); try discriminate;
    try destruct (is_space2 a b); try discriminate;
    try destruct (is_space3 a b c); try discriminate;
    intros H; injection H as <-; cbn [String.length]; lia.
Qed.

Lemma blank_skip (s : string) :
  blank s = match s with
            | EmptyString => true
            | _ => match skip_space s with
                   | Some r => blank r
                   | None => false
                   end
            end.
Proof.
  destruct s as [|a [|b [|c s]]]; cbn [blank skip_space]; try reflexivity;
    destruct (is_space a); try reflexivity;
    destruct (is_space2 a b); try reflexivity;
    destruct (is_space3 a b c); reflexivity.
Qed.

Lemma trim_start_skip (s : string) :
  trim_start s = match skip_space s with
                 | Some r => trim_start r
                 | None => s
                 end.
Proof.
  destruct s as [|a [|b [|c s]]]; cbn [trim_start skip_space];
    try reflexivity;
    destruct (is_space a); try reflexivity;
    destruct (is_space2 a b); try reflexivity;
    destruct (is_space3 a b c); reflexivity.
Qed.

Lemma string_length_ind (P : string -> Prop) :
  (forall s, (forall r, (String.length r < String.length s)%nat -> P r) -> P s) ->
  forall s, P s.
Proof.
  intros H s.
  assert (G : forall n r, (String.length r < n)%nat -> P r).
  { induction n as [|n IH]; intros r Hr; [lia|].
    apply H. intros r' Hr'. apply IH. lia. }
  apply (G (S (String.length s))). lia.
Qed.

Lemma trim_start_blank (s : string) : blank s = true -> trim_start s = "".
Proof.
  induction s as [s IH] using string_length_ind.
  rewrite blank_skip, trim_start_skip.
  destruct s as [|a s]; [reflexivity|].
  destruct (skip_space (String a s)) as [r|] eqn:Hr; [|discriminate].
  apply IH. exact (skip_space_shorter _ _ Hr).
Qed.

Lemma trim_blank (s : string) : blank s = true -> trim s = "".
Proof. intros H. unfold trim. rewrite (trim_start_blank s H). reflexivity. Qed.

Lemma trim_start_done (s : string) : skip_space (trim_start s) = None.
Proof.
  induction s as [s IH] using string_length_ind.
  rewrite trim_start_skip.
  destruct (skip_space s) as [r|] eqn:Hr; [|exact Hr].
  apply IH. exact (skip_space_shorter _ _ Hr).
Qed.

Lemma trim_end_blank (s : string) : blank s = true -> trim_end s = "".
Proof. destruct s; [reflexivity|]. cbn [trim_end]. intros ->. reflexivity. Qed.

Lemma trim_end_split (s : string) :
  exists t, s = trim_end s ++ t /\ blank t = true.
Proof.
  induction s as [|c r (t & Hr & Ht)]; [exists ""; split; reflexivity|].
  cbn [trim_end]. destruct (blank (String c r)) eqn:Hb.
  - exists (String c r). split; [reflexivity|exact Hb].
  - exists t. split; [|exact Ht]. push_append. rewrite <- Hr.
    reflexivity.
Qed.

Lemma blank_app_space (sp t : string) :
  space_char sp = true -> blank (sp ++ t) = blank t.
Proof.
  intros H. rewrite blank_skip, (skip_space_app sp t H).
  destruct sp; [discriminate H|]. reflexivity.
Qed.

Lemma trim_end_no_trailing (s p sp : string) :
  space_char sp = true -> trim_end s <> p ++ sp.
Proof.
  intros Hsp. revert s. induction p as [|a p IH]; intros s Heq.
  - rewrite append_nil_l in Heq.
    destruct (trim_end_split s) as (t & Hs & Ht).
    rewrite Heq in Hs.
    assert (Hb : blank s = true)
      by (rewrite Hs, (blank_app_space sp t Hsp); exact Ht).
    rewrite (trim_end_blank s Hb) in Heq. subst sp. discriminate Hsp.
  - destruct s as [|c r]; [discriminate Heq|].
    cbn [trim_end] in Heq. rewrite append_cons in Heq.
    destruct (blank (String c r)); [discriminate Heq|].
    injection Heq as _ Heq. exact (IH r Heq).
Qed.

Lemma append_assoc (a b c : string) : (a ++ b) ++ c = a ++ (b ++ c).
Proof.
  induction a as [|x a IH]; [reflexivity|]. push_append. rewrite IH.
  reflexivity.
Qed.

Lemma trim_clean (s : string) : falsy (trim s) = false -> clean (trim s).
Proof.
  intros H. repeat split.
  - intros E. rewrite E in H. discriminate H.
  - intros sp rest Hsp E. unfold trim in E.
    destruct (trim_end_split (trim_start s)) as (t & Hs & _).
    rewrite E, append_assoc in Hs.
    pose proof (trim_start_done s) as Hd.
    rewrite Hs, (skip_space_app _ _ Hsp) in Hd. discriminate Hd.
  - intros sp rest Hsp E. exact (trim_end_no_trailing _ _ _ Hsp E).
Qed.

(** The send guard passes exactly when the box is not blank. *)
Lemma trim_start_not_blank (s : string) :
  blank s = false -> blank (trim_start s) = false.
Proof.
  induction s as [s IH] using string_length_ind.
  rewrite trim_start_skip. intros Hb.
  destruct (skip_space s) as [r|] eqn:Hr; [|exact Hb].
  apply IH; [exact (skip_space_shorter _ _ Hr)|].
  rewrite blank_skip, Hr in Hb. destruct s; [discriminate Hr|]. exact Hb.
Qed.

Lemma trim_empty_iff (s : string) : falsy (trim s) = blank s.
Proof.
  destruct (blank s) eqn:Hb.
  - rewrite (trim_blank s Hb). reflexivity.
  - unfold trim. pose proof (trim_start_not_blank s Hb) as H.
    destruct (trim_start s) as [|c r]; [discriminate H|].
    cbn [trim_end]. rewrite H. reflexivity.
Qed.

(** X1. A comment box holding only white space (or nothing): sending is a
    no-op. No call is made, no placeholder is added, the count stays, and
    the box keeps its text. *)
Theorem X1_blank_comment_is_not_sent
    (w : ProfileCard.World) (text : string) (now : N) (iso : string) :
  ProfileCard.mounted w = true ->
  blank text = true ->
  exists w',
    ProfileCard.run [ProfileCard.Input text; ProfileCard.Render;
                     ProfileCard.Send now iso] w = Some w' /\
    ProfileCard.calls w' = ProfileCard.calls w /\
    ProfileCard.inflight w' = ProfileCard.inflight w /\
    ProfileCard.comments_ (ProfileCard.st w')
      = ProfileCard.comments_ (ProfileCard.st w) /\
    ProfileCard.commentsCount (ProfileCard.st w')
      = ProfileCard.commentsCount (ProfileCard.st w) /\
    ProfileCard.newComment (ProfileCard.st w') = text.
Proof.
  intros Hm Hb. pose proof (trim_blank text Hb) as Ht.
  open_card w. eexists. card_eval. rewrite Ht. cbn [falsy]. repeat split.
Qed.

Lemma X1_blank_comment_is_not_sent_witness :
  exists w',
    ProfileCard.run
      [ProfileCard.Input (" " ++ nbsp ++ ideographic_space);
       ProfileCard.Render; ProfileCard.Send 1000 "t1000"] card0 = Some w' /\
    ProfileCard.calls w' = [] /\
    ProfileCard.inflight w' = [] /\
    ProfileCard.comments_ (ProfileCard.st w') = [] /\
    ProfileCard.commentsCount (ProfileCard.st w') = 0 /\
    ProfileCard.newComment (ProfileCard.st w')
      = " " ++ nbsp ++ ideographic_space.
Proof.
  apply (X1_blank_comment_is_not_sent card0
           (" " ++ nbsp ++ ideographic_space) 1000 "t1000");
    reflexivity.
Defined.

(** X2. Whenever [addComment] does send, the text of the insert is the
    trimmed content of the box as rendered: it is not empty and has no white
    space at either end; the placeholder prepended to the list carries the
    same text, and the box is emptied. *)
Theorem X2_sent_comment_is_trimmed
    (w w' : ProfileCard.World) (now : N) (iso : string) :
  ProfileCard.step (ProfileCard.Send now iso) w = Some w' ->
  ProfileCard.calls w' <> ProfileCard.calls w ->
  exists text,
    text = trim (ProfileCard.newComment (ProfileCard.view w)) /\
    clean text /\
    ProfileCard.calls w'
    = ProfileCard.InsertComment
        (ProfileCard.profile_id (ProfileCard.props w))
        (ProfileCard.currentUserId (ProfileCard.props w)) text
      :: ProfileCard.calls w /\
    ProfileCard.comments_ (ProfileCard.st w')
    = placeholder w (ProfileCard.newComment (ProfileCard.view w)) now iso
      :: ProfileCard.comments_ (ProfileCard.st w) /\
    ProfileCard.newComment (ProfileCard.st w') = "".
Proof.
  intros Hstep Hcalls. unfold placeholder.
  open_card w.
  cbv [ProfileCard.step ProfileCard.mounted] in Hstep.
  destruct mounted; [|discriminate Hstep]. injection Hstep as <-.
  revert Hcalls. card_eval.
  destruct (falsy (trim newComment0)) eqn:Hf; card_eval; intros Hcalls.
  - exfalso. apply Hcalls. reflexivity.
  - eexists. split; [reflexivity|]. split; [exact (trim_clean _ Hf)|].
    repeat split.
Qed.

Lemma X2_sent_comment_is_trimmed_witness :
  exists text,
    text = "hi there" /\
    clean text /\
    ProfileCard.calls
      (ProfileCard.addComment 7 "t7"
         (ProfileCard.render
            (ProfileCard.setNewComment
               (nbsp ++ " hi there " ++ ideographic_space) card0)))
    = [ProfileCard.InsertComment "p1" "u1" text].
Proof.
  destruct (X2_sent_comment_is_trimmed
              (ProfileCard.render
                 (ProfileCard.setNewComment
                    (nbsp ++ " hi there " ++ ideographic_space) card0))
              _ 7 "t7" eq_refl) as (text & Ht & Hc & Hcalls & _).
  - vm_compute. discriminate.
  - exists text. split; [exact Ht|]. split; [exact Hc|]. exact Hcalls.
Defined.

(** ** The effect and the change handlers *)

(** X3. The three fetches of the effect write disjoint cells, so the card
    after the initial load is the same whichever of the six orders the
    answers arrive in: the counters hold the three counts (0 where the
    answer has none), the flags say whether a row came back, and the list
    holds the rows (empty where the answer has none). Six queries were sent
    and none is left in flight. *)
Theorem X3_initial_load_any_order
    (p : ProfileCard.Props)
    (likesRes followsRes commentsRes likeRes followRes : Response unit)
    (rowsRes : Response (list ProfileCard.Comment)) :
  Forall (fun es =>
            exists w,
              ProfileCard.run es (ProfileCard.fresh p) = Some w /\
              ProfileCard.st w
              = loaded likesRes followsRes commentsRes likeRes followRes
                       rowsRes /\
              length (ProfileCard.calls w) = 6%nat /\
              ProfileCard.inflight w = [] /\
              ProfileCard.subscribed w = true)
         (initial_load_orders
            (Fulfilled (ProfileCard.CountsRes likesRes followsRes commentsRes))
            (Fulfilled (ProfileCard.StatusRes likeRes followRes))
            (Fulfilled (ProfileCard.CommentsRes rowsRes))).
Proof.
  destruct p, likesRes, followsRes, commentsRes, likeRes, followRes, rowsRes.
  cbv [initial_load_orders map loaded ProfileCard.fresh ProfileCard.initial].
  repeat (constructor;
          [eexists; card_eval; split; [reflexivity|]; card_eval;
           repeat split|]).
  constructor.
Qed.

(** X4. A notification on [likes] or [follows] first sends the three count
    queries and nothing else. The two membership queries go out only once
    the counts are answered. If the counts call throws instead, the handler
    stops there: no membership query is ever sent, no cell is written, and
    the rejection escapes unhandled. *)
Theorem X4_handler_fetches_in_sequence
    (w : ProfileCard.World) (t : ProfileCard.Table)
    (likesRes followsRes commentsRes : Response unit) (reason : string) :
  ProfileCard.subscribed w = true ->
  t <> ProfileCard.comments ->
  exists w1 w2 w3,
    ProfileCard.step (ProfileCard.Notify t) w = Some w1 /\
    ProfileCard.calls w1 = (counts_queries w ++ ProfileCard.calls w)%list /\
    ProfileCard.st w1 = ProfileCard.st w /\
    ProfileCard.step
      (ProfileCard.Settle 0
         (Fulfilled (ProfileCard.CountsRes likesRes followsRes commentsRes)))
      w1 = Some w2 /\
    ProfileCard.calls w2
    = (status_queries w ++ counts_queries w ++ ProfileCard.calls w)%list /\
    ProfileCard.inflight w2
    = ProfileCard.AwaitFetch ProfileCard.UserStatus []
      :: ProfileCard.inflight w /\
    ProfileCard.step (ProfileCard.Settle 0 (Rejected reason)) w1 = Some w3 /\
    ProfileCard.calls w3 = ProfileCard.calls w1 /\
    ProfileCard.inflight w3 = ProfileCard.inflight w /\
    ProfileCard.st w3 = ProfileCard.st w /\
    ProfileCard.unhandled w3 = reason :: ProfileCard.unhandled w.
Proof.
  intros Hs Ht. cbv [counts_queries status_queries app].
  open_card w.
  destruct t; [| |exfalso; apply Ht; reflexivity];
    do 3 eexists; card_eval; repeat split.
Qed.

Lemma X4_handler_fetches_in_sequence_witness :
  exists w1 w2 w3,
    ProfileCard.step (ProfileCard.Notify ProfileCard.follows) card0
    = Some w1 /\
    ProfileCard.calls w1 = (counts_queries card0 ++ [])%list /\
    ProfileCard.st w1 = ProfileCard.st card0 /\
    ProfileCard.step
      (ProfileCard.Settle 0
         (Fulfilled (ProfileCard.CountsRes (counted 1) (counted 2)
                                           (counted 3))))
      w1 = Some w2 /\
    ProfileCard.calls w2
    = (status_queries card0 ++ counts_queries card0 ++ [])%list /\
    ProfileCard.inflight w2
    = [ProfileCard.AwaitFetch ProfileCard.UserStatus []] /\
    ProfileCard.step (ProfileCard.Settle 0 (Rejected "offline")) w1
    = Some w3 /\
    ProfileCard.calls w3 = ProfileCard.calls w1 /\
    ProfileCard.inflight w3 = [] /\
    ProfileCard.st w3 = ProfileCard.st card0 /\
    ProfileCard.unhandled w3 = ["offline"].
Proof.
  apply (X4_handler_fetches_in_sequence card0 ProfileCard.follows
           (counted 1) (counted 2) (counted 3) "offline");
    [reflexivity | discriminate].
Defined.

(** X5. The race between an optimistic like and a re-fetch. The card is in
    step with the table and the user has no row. The user clicks; a
    notification for an earlier change starts a re-fetch that reads the
    table as it was before the insert; the insert is then carried out and
    its response arrives last. The card ends showing [isLiked = false] and
    the old count, although the table now holds the user's row and one like
    more: the display stays wrong until another notification. *)
Theorem X5_stale_refetch_undoes_a_successful_like
    (w : ProfileCard.World) (t : list LikesTable.Row)
    (followsRes commentsRes followRes : Response unit) :
  let uid := ProfileCard.currentUserId (ProfileCard.props w) in
  let pid := ProfileCard.profile_id (ProfileCard.props w) in
  ProfileCard.mounted w = true ->
  ProfileCard.subscribed w = true ->
  ProfileCard.isLiked (ProfileCard.st w) = false ->
  ProfileCard.likesCount (ProfileCard.st w)
    = Z.of_nat (LikesTable.count_of pid t) ->
  existsb (LikesTable.of_pair uid pid) t = false ->
  exists w',
    ProfileCard.run
      [ProfileCard.Render; ProfileCard.ClickLike; ProfileCard.Render;
       ProfileCard.Notify ProfileCard.likes;
       ProfileCard.Settle 0
         (Fulfilled (ProfileCard.CountsRes (LikesTable.select_count pid t)
                                           followsRes commentsRes));
       ProfileCard.Settle 0
         (Fulfilled (ProfileCard.StatusRes
                       (LikesTable.select_maybeSingle uid pid t) followRes));
       ProfileCard.Settle 0
         (Fulfilled (ProfileCard.WriteRes
                       (snd (LikesTable.insert uid pid t))))] w = Some w' /\
    ProfileCard.inflight w' = ProfileCard.inflight w /\
    error (snd (LikesTable.insert uid pid t)) = None /\
    ProfileCard.isLiked (ProfileCard.st w') = false /\
    ProfileCard.likesCount (ProfileCard.st w')
      = Z.of_nat (LikesTable.count_of pid t) /\
    existsb (LikesTable.of_pair uid pid)
            (fst (LikesTable.insert uid pid t)) = true /\
    LikesTable.count_of pid (fst (LikesTable.insert uid pid t))
      = S (LikesTable.count_of pid t).
Proof.
  intros uid pid Hm Hs Hl Hn Ht.
  destruct (count_after_insert uid pid t Ht) as (Hi & Hc & He).
  rewrite Hc, He. rewrite Hi. cbn [snd].
  unfold LikesTable.select_count, LikesTable.select_maybeSingle.
  rewrite Ht. subst uid pid.
  open_card w. eexists. card_eval. repeat split.
Qed.

Lemma X5_stale_refetch_undoes_a_successful_like_witness :
  exists w',
    ProfileCard.run
      [ProfileCard.Render; ProfileCard.ClickLike; ProfileCard.Render;
       ProfileCard.Notify ProfileCard.likes;
       ProfileCard.Settle 0
         (Fulfilled (ProfileCard.CountsRes (LikesTable.select_count "p1" [])
                                           (counted 0) (counted 0)));
       ProfileCard.Settle 0
         (Fulfilled (ProfileCard.StatusRes
                       (LikesTable.select_maybeSingle "u1" "p1" [])
                       (ok None)));
       ProfileCard.Settle 0
         (Fulfilled (ProfileCard.WriteRes
                       (snd (LikesTable.insert "u1" "p1" []))))] card0
    = Some w' /\
    ProfileCard.isLiked (ProfileCard.st w') = false /\
    ProfileCard.likesCount (ProfileCard.st w') = 0 /\
    LikesTable.count_of "p1" (fst (LikesTable.insert "u1" "p1" [])) = 1%nat.
Proof.
  destruct (X5_stale_refetch_undoes_a_successful_like card0 []
              (counted 0) (counted 0) (ok None)
              eq_refl eq_refl eq_refl eq_refl eq_refl)
    as (w' & Hrun & _ & _ & Hb & Hn & _ & Hc).
  exists w'. split; [exact Hrun|]. split; [exact Hb|].
  split; [exact Hn | exact Hc].
Defined.

(** X6. A toggle whose call throws leaves the card's cells exactly as they
    were rendered before the click, for [toggleFollow] as for [toggleLike]:
    every cell, not only the pair the handler saved. One call was sent,
    none is left in flight, and nothing escapes the [catch] block. *)
Theorem X6_thrown_toggle_restores_every_cell
    (w : ProfileCard.World) (reason : string) :
  ProfileCard.mounted w = true ->
  Forall (fun click =>
            exists w',
              ProfileCard.run [ProfileCard.Render; click; ProfileCard.Render;
                               ProfileCard.Settle 0 (Rejected reason)] w
              = Some w' /\
              ProfileCard.st w' = ProfileCard.st w /\
              length (ProfileCard.calls w')
              = S (length (ProfileCard.calls w)) /\
              ProfileCard.inflight w' = ProfileCard.inflight w /\
              ProfileCard.unhandled w' = ProfileCard.unhandled w)
         [ProfileCard.ClickLike; ProfileCard.ClickFollow].
Proof.
  intros Hm. open_card w.
  repeat (constructor; [eexists; card_eval; repeat split|]).
  constructor.
Qed.

Lemma X6_thrown_toggle_restores_every_cell_witness :
  Forall (fun click =>
            exists w',
              ProfileCard.run [ProfileCard.Render; click; ProfileCard.Render;
                               ProfileCard.Settle 0 (Rejected "offline")]
                              card0
              = Some w' /\
              ProfileCard.st w' = ProfileCard.initial /\
              length (ProfileCard.calls w') = 1%nat /\
              ProfileCard.inflight w' = [] /\
              ProfileCard.unhandled w' = [])
         [ProfileCard.ClickLike; ProfileCard.ClickFollow].
Proof.
  apply (X6_thrown_toggle_restores_every_cell card0 "offline"). reflexivity.
Defined.

(** ** Sending twice *)

(** X7. Two sends from one render (the send button clicked twice before
    React re-renders): both run in the same closure, so the same text is
    sent twice and two placeholders are prepended, while the counter, set
    from the closure's count both times, goes up by one only. *)
Theorem X7_double_send_counts_once
    (w : ProfileCard.World) (text : string) (t1 t2 : N) (iso1 iso2 : string) :
  ProfileCard.mounted w = true ->
  falsy (trim text) = false ->
  exists w',
    ProfileCard.run [ProfileCard.Input text; ProfileCard.Render;
                     ProfileCard.Send t1 iso1; ProfileCard.Send t2 iso2] w
    = Some w' /\
    ProfileCard.comments_ (ProfileCard.st w')
    = placeholder w text t2 iso2 :: placeholder w text t1 iso1
      :: ProfileCard.comments_ (ProfileCard.st w) /\
    ProfileCard.commentsCount (ProfileCard.st w')
    = ProfileCard.commentsCount (ProfileCard.st w) + 1 /\
    ProfileCard.calls w'
    = ProfileCard.InsertComment
        (ProfileCard.profile_id (ProfileCard.props w))
        (ProfileCard.currentUserId (ProfileCard.props w)) (trim text)
      :: ProfileCard.InsertComment
           (ProfileCard.profile_id (ProfileCard.props w))
           (ProfileCard.currentUserId (ProfileCard.props w)) (trim text)
      :: ProfileCard.calls w.
Proof.
  intros Hm Ht. unfold placeholder. open_card w.
  eexists. card_eval. rewrite Ht. card_eval. rewrite Ht. card_eval.
  repeat split.
Qed.

Lemma X7_double_send_counts_once_witness :
  exists w',
    ProfileCard.run [ProfileCard.Input "hello"; ProfileCard.Render;
                     ProfileCard.Send 1000 "a"; ProfileCard.Send 1003 "b"]
                    card0
    = Some w' /\
    map ProfileCard.id (ProfileCard.comments_ (ProfileCard.st w'))
    = ["temp-1003"; "temp-1000"] /\
    ProfileCard.commentsCount (ProfileCard.st w') = 1.
Proof.
  destruct (X7_double_send_counts_once card0 "hello" 1000 1003 "a" "b"
              eq_refl eq_refl) as (w' & Hrun & Hl & Hn & _).
  exists w'. split; [exact Hrun|]. split; [|exact Hn].
  rewrite Hl. reflexivity.
Defined.

(** X8. Two sends within one millisecond get the same temporary
    identifier. When the first insert answers, both placeholders take the
    identifier and timestamp of its row; the answer of the second insert
    then finds no placeholder and changes nothing, so its row is never
    recorded in the list and two entries share one identifier. *)
Theorem X8_same_millisecond_sends_share_a_row
    (w : ProfileCard.World) (text : string) (t : N) (iso1 iso2 : string)
    (d1 d2 : ProfileCard.Comment) :
  ProfileCard.mounted w = true ->
  falsy (trim text) = false ->
  Forall (fun c => ProfileCard.id c <> ProfileCard.tempId_of t)
         (ProfileCard.comments_ (ProfileCard.st w)) ->
  ProfileCard.id d1 <> ProfileCard.tempId_of t ->
  exists w',
    ProfileCard.run [ProfileCard.Input text; ProfileCard.Render;
                     ProfileCard.Send t iso1; ProfileCard.Send t iso2;
                     ProfileCard.Settle 1 (inserted d1);
                     ProfileCard.Settle 0 (inserted d2)] w
    = Some w' /\
    ProfileCard.comments_ (ProfileCard.st w')
    = committed w text d1 :: committed w text d1
      :: ProfileCard.comments_ (ProfileCard.st w) /\
    ProfileCard.inflight w' = ProfileCard.inflight w.
Proof.
  intros Hm Ht Hold Hd. unfold committed, inserted. open_card w.
  eexists. card_eval. rewrite Ht. card_eval. rewrite Ht. card_eval.
  split; [reflexivity|]. card_eval. split; [|reflexivity].
  cbn [map]. rewrite !(reconcile_absent _ _ _ Hold).
  reconcile_records. reflexivity.
Qed.

Lemma X8_same_millisecond_sends_share_a_row_witness :
  exists w',
    ProfileCard.run [ProfileCard.Input "hello"; ProfileCard.Render;
                     ProfileCard.Send 1000 "a"; ProfileCard.Send 1000 "b";
                     ProfileCard.Settle 1 (inserted row9);
                     ProfileCard.Settle 0 (inserted row7)] card0
    = Some w' /\
    map ProfileCard.id (ProfileCard.comments_ (ProfileCard.st w'))
    = ["row-9"; "row-9"].
Proof.
  destruct (X8_same_millisecond_sends_share_a_row card0 "hello" 1000 "a" "b"
              row9 row7 eq_refl eq_refl) as (w' & Hrun & Hl & _).
  - constructor.
  - discriminate.
  - exists w'. split; [exact Hrun|]. rewrite Hl. reflexivity.
Defined.

(** ** Answers that carry no data *)

(** X9. A re-fetch whose answers carry an error and no data is written as
    if the store were empty: a notification on [comments] answered that way
    sets the three counters to 0 and empties the comment list, placeholders
    of comments still being sent included; on [likes] or [follows] it sets
    the counters to 0 and both flags to [false]. Nothing is thrown. *)
Theorem X9_failed_refetch_shows_an_empty_profile
    (w : ProfileCard.World) (e : PostgrestError) :
  ProfileCard.subscribed w = true ->
  (exists w',
     ProfileCard.run
       [ProfileCard.Notify ProfileCard.comments;
        ProfileCard.Settle 0
          (Fulfilled (ProfileCard.CountsRes (failed e) (failed e) (failed e)));
        ProfileCard.Settle 0 (Fulfilled (ProfileCard.CommentsRes (failed e)))]
       w = Some w' /\
     ProfileCard.likesCount (ProfileCard.st w') = 0 /\
     ProfileCard.followsCount (ProfileCard.st w') = 0 /\
     ProfileCard.commentsCount (ProfileCard.st w') = 0 /\
     ProfileCard.comments_ (ProfileCard.st w') = [] /\
     ProfileCard.unhandled w' = ProfileCard.unhandled w) /\
  (exists w',
     ProfileCard.run
       [ProfileCard.Notify ProfileCard.likes;
        ProfileCard.Settle 0
          (Fulfilled (ProfileCard.CountsRes (failed e) (failed e) (failed e)));
        ProfileCard.Settle 0
          (Fulfilled (ProfileCard.StatusRes (failed e) (failed e)))]
       w = Some w' /\
     ProfileCard.likesCount (ProfileCard.st w') = 0 /\
     ProfileCard.followsCount (ProfileCard.st w') = 0 /\
     ProfileCard.commentsCount (ProfileCard.st w') = 0 /\
     ProfileCard.isLiked (ProfileCard.st w') = false /\
     ProfileCard.isFollowing (ProfileCard.st w') = false /\
     ProfileCard.unhandled w' = ProfileCard.unhandled w).
Proof.
  intros Hs. open_card w. split; eexists; card_eval; repeat split.
Qed.

Lemma X9_failed_refetch_shows_an_empty_profile_witness :
  exists w',
    ProfileCard.run
      [ProfileCard.Notify ProfileCard.comments;
       ProfileCard.Settle 0
         (Fulfilled (ProfileCard.CountsRes (failed foreign_key_violation)
                       (failed foreign_key_violation)
                       (failed foreign_key_violation)));
       ProfileCard.Settle 0
         (Fulfilled (ProfileCard.CommentsRes (failed foreign_key_violation)))]
      card0 = Some w' /\
    ProfileCard.comments_ (ProfileCard.st w') = [].
Proof.
  destruct (X9_failed_refetch_shows_an_empty_profile card0
              foreign_key_violation eq_refl)
    as [(w' & Hrun & _ & _ & _ & Hl & _) _].
  exists w'. split; [exact Hrun | exact Hl].
Defined.

(** ** A handler that outlives the component *)

(** X10. A change handler suspended in [fetchCounts] when the card
    unmounts goes on when the counts are answered: it writes the counters
    and sends the two membership queries of [fetchUserStatus], after the
    unmount. *)
Theorem X10_handler_goes_on_after_unmount
    (w : ProfileCard.World)
    (likesRes followsRes commentsRes : Response unit) :
  ProfileCard.mounted w = true ->
  ProfileCard.subscribed w = true ->
  exists w1 w2,
    ProfileCard.run [ProfileCard.Notify ProfileCard.likes;
                     ProfileCard.Unmount] w = Some w1 /\
    ProfileCard.mounted w1 = false /\
    ProfileCard.step
      (ProfileCard.Settle 0
         (Fulfilled (ProfileCard.CountsRes likesRes followsRes commentsRes)))
      w1 = Some w2 /\
    ProfileCard.calls w2 = (status_queries w ++ ProfileCard.calls w1)%list /\
    ProfileCard.inflight w2
    = ProfileCard.AwaitFetch ProfileCard.UserStatus []
      :: ProfileCard.inflight w /\
    ProfileCard.likesCount (ProfileCard.st w2) = or0 (count likesRes) /\
    ProfileCard.followsCount (ProfileCard.st w2) = or0 (count followsRes) /\
    ProfileCard.commentsCount (ProfileCard.st w2)
    = or0 (count commentsRes).
Proof.
  intros Hm Hs. cbv [status_queries app]. open_card w.
  do 2 eexists. card_eval. split; [reflexivity|]. card_eval. repeat split.
Qed.

Lemma X10_handler_goes_on_after_unmount_witness :
  exists w1 w2,
    ProfileCard.run [ProfileCard.Notify ProfileCard.likes;
                     ProfileCard.Unmount] card0 = Some w1 /\
    ProfileCard.mounted w1 = false /\
    ProfileCard.step
      (ProfileCard.Settle 0
         (Fulfilled (ProfileCard.CountsRes (counted 4) (counted 0)
                                           (counted 0))))
      w1 = Some w2 /\
    length (ProfileCard.calls w2) = 5%nat /\
    ProfileCard.likesCount (ProfileCard.st w2) = 4.
Proof.
  destruct (X10_handler_goes_on_after_unmount card0 (counted 4) (counted 0)
              (counted 0) eq_refl eq_refl)
    as (w1 & w2 & Hrun & Hm & Hstep & Hc & _ & Hn & _).
  exists w1, w2. split; [exact Hrun|]. split; [exact Hm|].
  split; [exact Hstep|]. split; [|exact Hn].
  rewrite Hc. vm_compute in Hrun. injection Hrun as <-. reflexivity.
Defined.

(** ** The media hooks *)

Lemma like_silent_step (e : UseMediaLike.Event) (w w' : UseMediaLike.World) :
  like_silent w -> UseMediaLike.step e w = Some w' -> like_silent w'.
Proof.
  unfold like_silent. intros (Hu & Hs & Hv & Hc & Hi & Hl & Hh) Hstep.
  destruct w as [? ? s v ? ? ? m sub ?]. like_fields. subst.
  destruct e; cbv [UseMediaLike.step UseMediaLike.mounted
                   UseMediaLike.subscribed UseMediaLike.inflight] in Hstep.
  - destruct m; [discriminate|]. injection Hstep as <-.
    like_eval. repeat split.
  - destruct m; [|discriminate]. injection Hstep as <-.
    like_eval. repeat split.
  - destruct m; [|discriminate]. injection Hstep as <-.
    like_eval. repeat split.
  - injection Hstep as <-. destruct sub; like_eval; repeat split.
  - destruct i; discriminate Hstep.
  - destruct m; [|discriminate]. injection Hstep as <-.
    like_eval. repeat split.
Qed.

Lemma follow_silent_step (e : UseCreatorFollow.Event)
    (w w' : UseCreatorFollow.World) :
  follow_silent w -> UseCreatorFollow.step e w = Some w' -> follow_silent w'.
Proof.
  unfold follow_silent. intros (Hu & Hs & Hv & Hc & Hi & Hl & Hh) Hstep.
  destruct w as [? ? s v ? ? ? m sub ?]. follow_fields. subst.
  destruct e; cbv [UseCreatorFollow.step UseCreatorFollow.mounted
                   UseCreatorFollow.subscribed UseCreatorFollow.inflight]
                in Hstep.
  - destruct m; [discriminate|]. injection Hstep as <-.
    follow_eval. repeat split.
  - destruct m; [|discriminate]. injection Hstep as <-.
    follow_eval. repeat split.
  - destruct m; [|discriminate]. injection Hstep as <-.
    follow_eval. repeat split.
  - injection Hstep as <-. destruct sub; follow_eval; repeat split.
  - destruct i; discriminate Hstep.
  - destruct m; [|discriminate]. injection Hstep as <-.
    follow_eval. repeat split.
Qed.

(** X11. For a signed-out visitor the media hooks never ask the store
    anything and never leave their initial display: after any sequence of
    mounts, renders, toggles, change notifications and unmounts,
    [useMediaLike] still shows [(false, 0)] with [loading = false], has sent
    no query and logged nothing, and so does [useCreatorFollow]. The counts
    other users produced are never shown to a visitor. *)
Theorem X11_signed_out_hooks_never_query
    (media creator : string)
    (es : list UseMediaLike.Event) (fs : list UseCreatorFollow.Event)
    (w : UseMediaLike.World) (f : UseCreatorFollow.World) :
  (UseMediaLike.run es (UseMediaLike.fresh media None) = Some w ->
   UseMediaLike.st w = UseMediaLike.initial /\
   UseMediaLike.calls w = [] /\
   UseMediaLike.inflight w = [] /\
   UseMediaLike.console w = []) /\
  (UseCreatorFollow.run fs (UseCreatorFollow.fresh creator None) = Some f ->
   UseCreatorFollow.st f = UseCreatorFollow.initial /\
   UseCreatorFollow.calls f = [] /\
   UseCreatorFollow.inflight f = [] /\
   UseCreatorFollow.console f = []).
Proof.
  split.
  - assert (H : forall es w0,
               like_silent w0 -> UseMediaLike.run es w0 = Some w ->
               like_silent w).
    { clear es. induction es as [|e es IH]; intros w0 H0 Hrun.
      - injection Hrun as <-. exact H0.
      - cbn [UseMediaLike.run] in Hrun.
        destruct (UseMediaLike.step e w0) as [w1|] eqn:He; [|discriminate].
        exact (IH w1 (like_silent_step e w0 w1 H0 He) Hrun). }
    intros Hrun.
    assert (H0 : like_silent (UseMediaLike.fresh media None))
      by (repeat split).
    destruct (H es _ H0 Hrun) as (_ & Hs & _ & Hc & Hi & Hl & _).
    repeat split; assumption.
  - assert (H : forall fs f0,
               follow_silent f0 -> UseCreatorFollow.run fs f0 = Some f ->
               follow_silent f).
    { clear fs. induction fs as [|e fs IH]; intros f0 H0 Hrun.
      - injection Hrun as <-. exact H0.
      - cbn [UseCreatorFollow.run] in Hrun.
        destruct (UseCreatorFollow.step e f0) as [f1|] eqn:He;
          [|discriminate].
        exact (IH f1 (follow_silent_step e f0 f1 H0 He) Hrun). }
    intros Hrun.
    assert (H0 : follow_silent (UseCreatorFollow.fresh creator None))
      by (repeat split).
    destruct (H fs _ H0 Hrun) as (_ & Hs & _ & Hc & Hi & Hl & _).
    repeat split; assumption.
Qed.

Lemma X11_signed_out_hooks_never_query_witness :
  UseMediaLike.st
    (UseMediaLike.checkLikeStatus
       (UseMediaLike.toggleLike
          (UseMediaLike.render
             (UseMediaLike.mount (UseMediaLike.fresh "m1" None)))))
  = UseMediaLike.initial /\
  UseCreatorFollow.calls
    (UseCreatorFollow.toggleFollow
       (UseCreatorFollow.mount (UseCreatorFollow.fresh "c1" None))) = [].
Proof.
  destruct (X11_signed_out_hooks_never_query "m1" "c1"
              [UseMediaLike.Mount; UseMediaLike.Render; UseMediaLike.Toggle;
               UseMediaLike.Notify]
              [UseCreatorFollow.Mount; UseCreatorFollow.Toggle]
              (UseMediaLike.checkLikeStatus
                 (UseMediaLike.toggleLike
                    (UseMediaLike.render
                       (UseMediaLike.mount (UseMediaLike.fresh "m1" None)))))
              (UseCreatorFollow.toggleFollow
                 (UseCreatorFollow.mount (UseCreatorFollow.fresh "c1" None))))
    as [HL HF].
  split.
  - exact (proj1 (HL eq_refl)).
  - exact (proj1 (proj2 (HF eq_refl))).
Defined.

(** X12. In both media hooks, for a signed-in user starting from
    [isActive = false]: a toggle-on and a toggle-off, each rendered and
    awaited, pass through [(true, N + 1)] and come back to [(false, N)];
    [loading] is [true] while each call is in flight and [false] after each
    answer. *)
Theorem X12_hook_toggle_round_trip
    (m : UseMediaLike.World) (f : UseCreatorFollow.World) (uid : string) :
  UseMediaLike.mounted m = true ->
  UseMediaLike.user m = Some uid ->
  UseMediaLike.isLiked (UseMediaLike.st m) = false ->
  UseCreatorFollow.mounted f = true ->
  UseCreatorFollow.user f = Some uid ->
  UseCreatorFollow.isFollowing (UseCreatorFollow.st f) = false ->
  (exists m1 m2 m3 m4,
     UseMediaLike.run [UseMediaLike.Render; UseMediaLike.Toggle] m
     = Some m1 /\
     UseMediaLike.st m1
     = {| UseMediaLike.isLiked := true;
          UseMediaLike.likesCount
          := UseMediaLike.likesCount (UseMediaLike.st m) + 1;
          UseMediaLike.loading := true |} /\
     UseMediaLike.run [UseMediaLike.Render;
                       UseMediaLike.Settle 0 written_like] m1 = Some m2 /\
     UseMediaLike.loading (UseMediaLike.st m2) = false /\
     UseMediaLike.run [UseMediaLike.Toggle] m2 = Some m3 /\
     UseMediaLike.loading (UseMediaLike.st m3) = true /\
     UseMediaLike.run [UseMediaLike.Render;
                       UseMediaLike.Settle 0 written_like] m3 = Some m4 /\
     UseMediaLike.st m4
     = {| UseMediaLike.isLiked := false;
          UseMediaLike.likesCount
          := UseMediaLike.likesCount (UseMediaLike.st m);
          UseMediaLike.loading := false |} /\
     UseMediaLike.calls m4
     = UseMediaLike.Delete (UseMediaLike.mediaId m) uid
       :: UseMediaLike.Insert (UseMediaLike.mediaId m) uid
       :: UseMediaLike.calls m) /\
  (exists f1 f2 f3 f4,
     UseCreatorFollow.run [UseCreatorFollow.Render; UseCreatorFollow.Toggle] f
     = Some f1 /\
     UseCreatorFollow.st f1
     = {| UseCreatorFollow.isFollowing := true;
          UseCreatorFollow.followsCount
          := UseCreatorFollow.followsCount (UseCreatorFollow.st f) + 1;
          UseCreatorFollow.loading := true |} /\
     UseCreatorFollow.run [UseCreatorFollow.Render;
                           UseCreatorFollow.Settle 0 written_follow] f1
     = Some f2 /\
     UseCreatorFollow.loading (UseCreatorFollow.st f2) = false /\
     UseCreatorFollow.run [UseCreatorFollow.Toggle] f2 = Some f3 /\
     UseCreatorFollow.loading (UseCreatorFollow.st f3) = true /\
     UseCreatorFollow.run [UseCreatorFollow.Render;
                           UseCreatorFollow.Settle 0 written_follow] f3
     = Some f4 /\
     UseCreatorFollow.st f4
     = {| UseCreatorFollow.isFollowing := false;
          UseCreatorFollow.followsCount
          := UseCreatorFollow.followsCount (UseCreatorFollow.st f);
          UseCreatorFollow.loading := false |} /\
     UseCreatorFollow.calls f4
     = UseCreatorFollow.Delete (UseCreatorFollow.creatorId f) uid
       :: UseCreatorFollow.Insert (UseCreatorFollow.creatorId f) uid
       :: UseCreatorFollow.calls f).
Proof.
  intros Hm Hu Hl Hf Hv Hw. split.
  - open_like m. do 4 eexists.
    like_eval. split; [reflexivity|]. split; [reflexivity|].
    like_eval. split; [reflexivity|]. split; [reflexivity|].
    like_eval. split; [reflexivity|]. split; [reflexivity|].
    like_eval. split; [reflexivity|]. split; [|reflexivity].
    f_equal. lia.
  - cbv [written_follow]. open_follow f. do 4 eexists.
    follow_eval. split; [reflexivity|]. split; [reflexivity|].
    follow_eval. split; [reflexivity|]. split; [reflexivity|].
    follow_eval. split; [reflexivity|]. split; [reflexivity|].
    follow_eval. split; [reflexivity|]. split; [|reflexivity].
    f_equal. lia.
Qed.

(** X13. [loading] does not mean "a call is in flight". With two toggles
    in flight, the answer to the first one sets [loading] to [false] while
    the second call is still pending. *)
Theorem X13_loading_cleared_with_a_call_pending
    (m : UseMediaLike.World) (uid : string) (o : Settled (Response unit)) :
  UseMediaLike.mounted m = true ->
  UseMediaLike.user m = Some uid ->
  exists m' previousLiked previousCount,
    UseMediaLike.run
      [UseMediaLike.Render; UseMediaLike.Toggle; UseMediaLike.Render;
       UseMediaLike.Toggle; UseMediaLike.Render;
       UseMediaLike.Settle 1
         match o with
         | Fulfilled r => Fulfilled (UseMediaLike.WriteRes r)
         | Rejected e => Rejected e
         end] m = Some m' /\
    UseMediaLike.loading (UseMediaLike.st m') = false /\
    UseMediaLike.inflight m'
    = UseMediaLike.AwaitToggleLike previousLiked previousCount
      :: UseMediaLike.inflight m.
Proof.
  intros Hm Hu. open_like m.
  destruct o; do 3 eexists; like_eval; repeat split.
Qed.

(** X14. [toggleFollow] of [useCreatorFollow] when the call does not go
    through. If the call throws, the saved pair is written back, the line
    "Error toggling follow:" is logged and [loading] is cleared. If the
    store refuses the insert and says so in the response, nothing is
    undone and nothing is logged: the hook keeps showing
    [(true, N + 1)]. *)
Theorem X14_creator_follow_failures
    (f : UseCreatorFollow.World) (uid reason : string) (e : PostgrestError) :
  UseCreatorFollow.mounted f = true ->
  UseCreatorFollow.user f = Some uid ->
  UseCreatorFollow.isFollowing (UseCreatorFollow.st f) = false ->
  (exists f',
     UseCreatorFollow.run
       [UseCreatorFollow.Render; UseCreatorFollow.Toggle;
        UseCreatorFollow.Render;
        UseCreatorFollow.Settle 0 (Rejected reason)] f = Some f' /\
     UseCreatorFollow.st f'
     = {| UseCreatorFollow.isFollowing := false;
          UseCreatorFollow.followsCount
          := UseCreatorFollow.followsCount (UseCreatorFollow.st f);
          UseCreatorFollow.loading := false |} /\
     UseCreatorFollow.console f'
     = "Error toggling follow:" :: UseCreatorFollow.console f /\
     UseCreatorFollow.unhandled f' = UseCreatorFollow.unhandled f) /\
  (exists f',
     UseCreatorFollow.run
       [UseCreatorFollow.Render; UseCreatorFollow.Toggle;
        UseCreatorFollow.Render;
        UseCreatorFollow.Settle 0
          (Fulfilled (UseCreatorFollow.WriteRes (failed e)))] f = Some f' /\
     UseCreatorFollow.st f'
     = {| UseCreatorFollow.isFollowing := true;
          UseCreatorFollow.followsCount
          := UseCreatorFollow.followsCount (UseCreatorFollow.st f) + 1;
          UseCreatorFollow.loading := false |} /\
     UseCreatorFollow.console f' = UseCreatorFollow.console f).
Proof.
  intros Hm Hu Hf. open_follow f.
  split; eexists; follow_eval; repeat split.
Qed.

Lemma X12_hook_toggle_round_trip_witness :
  (exists m4,
     UseMediaLike.run
       [UseMediaLike.Render; UseMediaLike.Toggle; UseMediaLike.Render;
        UseMediaLike.Settle 0 written_like; UseMediaLike.Toggle;
        UseMediaLike.Render; UseMediaLike.Settle 0 written_like] like0
     = Some m4 /\
     UseMediaLike.st m4 = UseMediaLike.initial) /\
  (exists f4,
     UseCreatorFollow.run
       [UseCreatorFollow.Render; UseCreatorFollow.Toggle;
        UseCreatorFollow.Render; UseCreatorFollow.Settle 0 written_follow;
        UseCreatorFollow.Toggle; UseCreatorFollow.Render;
        UseCreatorFollow.Settle 0 written_follow] follow0
     = Some f4 /\
     UseCreatorFollow.st f4 = UseCreatorFollow.initial).
Proof.
  destruct (X12_hook_toggle_round_trip like0 follow0 "u1"
              eq_refl eq_refl eq_refl eq_refl eq_refl eq_refl)
    as [(m1 & m2 & m3 & m4 & H1 & _ & H2 & _ & H3 & _ & H4 & Hst & _)
        (f1 & f2 & f3 & f4 & G1 & _ & G2 & _ & G3 & _ & G4 & Gst & _)].
  split.
  - exists m4. split; [|exact Hst].
    vm_compute in H1. injection H1 as <-.
    vm_compute in H2. injection H2 as <-.
    vm_compute in H3. injection H3 as <-.
    vm_compute in H4. injection H4 as <-. reflexivity.
  - exists f4. split; [|exact Gst].
    vm_compute in G1. injection G1 as <-.
    vm_compute in G2. injection G2 as <-.
    vm_compute in G3. injection G3 as <-.
    vm_compute in G4. injection G4 as <-. reflexivity.
Defined.

Lemma X13_loading_cleared_with_a_call_pending_witness :
  exists m',
    UseMediaLike.run
      [UseMediaLike.Render; UseMediaLike.Toggle; UseMediaLike.Render;
       UseMediaLike.Toggle; UseMediaLike.Render;
       UseMediaLike.Settle 1 written_like] like0 = Some m' /\
    UseMediaLike.loading (UseMediaLike.st m') = false /\
    length (UseMediaLike.inflight m') = 1%nat.
Proof.
  destruct (X13_loading_cleared_with_a_call_pending like0 "u1"
              (Fulfilled (ok None)) eq_refl eq_refl)
    as (m' & b & n & Hrun & Hl & Hi).
  exists m'. split; [exact Hrun|]. split; [exact Hl|].
  rewrite Hi. reflexivity.
Defined.

Lemma X14_creator_follow_failures_witness :
  (exists f',
     UseCreatorFollow.run
       [UseCreatorFollow.Render; UseCreatorFollow.Toggle;
        UseCreatorFollow.Render;
        UseCreatorFollow.Settle 0 (Rejected "offline")] follow0 = Some f' /\
     UseCreatorFollow.st f' = UseCreatorFollow.initial /\
     UseCreatorFollow.console f' = ["Error toggling follow:"]) /\
  (exists f',
     UseCreatorFollow.run
       [UseCreatorFollow.Render; UseCreatorFollow.Toggle;
        UseCreatorFollow.Render;
        UseCreatorFollow.Settle 0
          (Fulfilled (UseCreatorFollow.WriteRes
                        (failed LikesTable.unique_violation)))] follow0
     = Some f' /\
     UseCreatorFollow.isFollowing (UseCreatorFollow.st f') = true /\
     UseCreatorFollow.console f' = []).
Proof.
  destruct (X14_creator_follow_failures follow0 "u1" "offline"
              LikesTable.unique_violation eq_refl eq_refl eq_refl)
    as [(f1 & H1 & Hs1 & Hc1 & _) (f2 & H2 & Hs2 & Hc2)].
  split.
  - exists f1. split; [exact H1|]. split; [exact Hs1 | exact Hc1].
  - exists f2. split; [exact H2|]. split; [|exact Hc2].
    rewrite Hs2. reflexivity.
Defined.

(** ** useMedia *)

Ltac media_fields :=
  cbv [UseMedia.user UseMedia.args UseMedia.st UseMedia.inflight
       UseMedia.calls UseMedia.console UseMedia.media UseMedia.loading
       UseMedia.error_] in *.

Ltac media_eval :=
  cbv [UseMedia.run UseMedia.step UseMedia.resume UseMedia.fetchMedia
       UseMedia.fetchMedia_queried UseMedia.fetchMedia_enriched
       UseMedia.caught UseMedia.finally UseMedia.setMedia
       UseMedia.setLoading UseMedia.setError UseMedia.with_st
       UseMedia.call UseMedia.await UseMedia.console_error
       UseMedia.settled UseMedia.with_args
       UseMedia.user UseMedia.args UseMedia.st UseMedia.inflight
       UseMedia.calls UseMedia.console UseMedia.media UseMedia.loading
       UseMedia.error_ answered enriched];
  client_eval.

Ltac open_media w :=
  let s := fresh "s" in
  destruct w as [? ? s ? ? ?]; destruct s; media_fields; subst.



(** X16. An error, once stored, is never cleared. A fetch that fails keeps
    the list that was shown and stores a message; a later fetch that
    succeeds replaces the list and leaves the message in place, so the hook
    returns fresh [media] together with the [error] of the earlier
    failure. *)
Theorem X16_fetchMedia_error_is_sticky
    (is_Error : PostgrestError -> bool) (w : UseMedia.World)
    (e : PostgrestError) (rows : list UseMedia.MediaItem)
    (answers : list UseMedia.ItemAnswers)
    (fresh_media : list UseMedia.MediaItemWithStats) :
  UseMedia.enrich_all (UseMedia.user w) rows answers = Some fresh_media ->
  exists w1 w2,
    UseMedia.run is_Error
      [UseMedia.Refetch;
       UseMedia.Settle 0 (Fulfilled (UseMedia.QueryRes (failed e)))] w
    = Some w1 /\
    UseMedia.st w1
    = {| UseMedia.media := UseMedia.media (UseMedia.st w);
         UseMedia.loading := false;
         UseMedia.error_ := Some (media_error_message is_Error e) |} /\
    UseMedia.console w1 = "Error fetching media:" :: UseMedia.console w /\
    UseMedia.run is_Error (UseMedia.Refetch :: completes rows answers) w1
    = Some w2 /\
    UseMedia.st w2
    = {| UseMedia.media := fresh_media;
         UseMedia.loading := false;
         UseMedia.error_ := Some (media_error_message is_Error e) |}.
Proof.
  intros He. unfold media_error_message, completes. open_media w.
  destruct rows as [|row rows].
  - destruct answers; [|discriminate He]. injection He as <-.
    do 2 eexists. media_eval. split; [reflexivity|]. media_eval.
    split; [destruct (is_Error e); reflexivity|]. split; [reflexivity|].
    split; [reflexivity|]. media_eval. destruct (is_Error e); reflexivity.
  - do 2 eexists. media_eval. split; [reflexivity|]. media_eval.
    split; [destruct (is_Error e); reflexivity|]. split; [reflexivity|].
    rewrite He. media_eval. split; [reflexivity|].
    media_eval. destruct (is_Error e); reflexivity.
Qed.

Lemma X16_fetchMedia_error_is_sticky_witness :
  exists w2,
    UseMedia.run (fun _ => false)
      [UseMedia.Refetch;
       UseMedia.Settle 0
         (Fulfilled (UseMedia.QueryRes (failed foreign_key_violation)));
       UseMedia.Refetch; UseMedia.Settle 0 (answered [item1]);
       UseMedia.Settle 0 (enriched [answers1])] media0
    = Some w2 /\
    UseMedia.error_ (UseMedia.st w2) = Some "Failed to fetch media" /\
    map UseMedia.likes_count (UseMedia.media (UseMedia.st w2)) = [3].
Proof.
  destruct (X16_fetchMedia_error_is_sticky (fun _ => false) media0
              foreign_key_violation [item1] [answers1]
              [UseMedia.enrich (Some "u1") item1 answers1] eq_refl)
    as (w1 & w2 & H1 & _ & _ & H2 & Hst).
  exists w2. split.
  - vm_compute in H1. injection H1 as <-. exact H2.
  - rewrite Hst. split; reflexivity.
Defined.

(** X17. The list shows the fetch that answered last, not the one that
    was asked last. The hook is re-rendered with another [type] while the
    fetch for the old arguments is still in flight; the new fetch is
    answered first, the old one afterwards: [media] ends holding the rows of
    the old arguments. *)
Theorem X17_last_answer_wins
    (is_Error : PostgrestError -> bool) (w : UseMedia.World)
    (b : UseMedia.Args)
    (rowsA rowsB : list UseMedia.MediaItem)
    (answersA answersB : list UseMedia.ItemAnswers)
    (mediaA mediaB : list UseMedia.MediaItemWithStats) :
  UseMedia.type b <> UseMedia.type (UseMedia.args w) ->
  UseMedia.enrich_all (UseMedia.user w) rowsA answersA = Some mediaA ->
  UseMedia.enrich_all (UseMedia.user w) rowsB answersB = Some mediaB ->
  exists w1 w2,
    UseMedia.run is_Error
      ([UseMedia.Refetch; UseMedia.Rerender b]
       ++ completes rowsB answersB)%list w = Some w1 /\
    UseMedia.media (UseMedia.st w1) = mediaB /\
    UseMedia.calls w1
    = UseMedia.query_of b :: UseMedia.query_of (UseMedia.args w)
      :: UseMedia.calls w /\
    UseMedia.run is_Error (completes rowsA answersA) w1 = Some w2 /\
    UseMedia.args w2 = b /\
    UseMedia.media (UseMedia.st w2) = mediaA /\
    UseMedia.loading (UseMedia.st w2) = false /\
    UseMedia.inflight w2 = UseMedia.inflight w.
Proof.
  intros Hne HA HB. unfold completes. open_media w.
  destruct rowsB as [|rowB rowsB];
    [destruct answersB; [|discriminate HB]; injection HB as <-|];
    (destruct rowsA as [|rowA rowsA];
     [destruct answersA; [|discriminate HA]; injection HA as <-|]);
    cbv [app]; do 2 eexists; media_eval;
    rewrite decide_False by (intros (H & _); exact (Hne H));
    media_eval; rewrite ?HB; media_eval;
    (split; [reflexivity|]); media_eval;
    (split; [reflexivity|]); (split; [reflexivity|]);
    rewrite ?HA; media_eval; repeat split.
Qed.

Lemma X17_last_answer_wins_witness :
  exists w2,
    UseMedia.run (fun _ => false)
      [UseMedia.Refetch; UseMedia.Rerender blog_args;
       UseMedia.Settle 0 (answered []);
       UseMedia.Settle 0 (answered [item1]);
       UseMedia.Settle 0 (enriched [answers1])] media0 = Some w2 /\
    UseMedia.args w2 = blog_args /\
    map UseMedia.item (UseMedia.media (UseMedia.st w2)) = [item1].
Proof.
  destruct (X17_last_answer_wins (fun _ => false) media0 blog_args
              [item1] [] [answers1] []
              [UseMedia.enrich (Some "u1") item1 answers1] [])
    as (w1 & w2 & H1 & _ & _ & H2 & Ha & Hm & _);
    [discriminate | reflexivity | reflexivity |].
  exists w2. split.
  - vm_compute in H1. injection H1 as <-. exact H2.
  - split; [exact Ha|]. rewrite Hm. reflexivity.
Defined.

(** X18. Which filters the query carries. The [type] filter is left out
    exactly when the argument is missing or empty; the [category] filter is
    left out exactly when the argument is missing, empty or ["all"]; a
    filter that is present carries the argument unchanged; the limit is the
    argument, or 50 when it is missing. This is the query [fetchMedia]
    sends, after raising [loading]. *)
Theorem X18_query_filters (w : UseMedia.World) :
  let q := UseMedia.query_of (UseMedia.args w) in
  UseMedia.calls (UseMedia.fetchMedia w) = q :: UseMedia.calls w /\
  UseMedia.loading (UseMedia.st (UseMedia.fetchMedia w)) = true /\
  (UseMedia.eq_type q = None <-> no_type (UseMedia.type (UseMedia.args w))) /\
  (forall t, UseMedia.eq_type q = Some t ->
             UseMedia.type (UseMedia.args w) = Some t) /\
  (UseMedia.eq_category q = None <->
   no_category (UseMedia.category_arg (UseMedia.args w))) /\
  (forall c, UseMedia.eq_category q = Some c ->
             UseMedia.category_arg (UseMedia.args w) = Some c) /\
  UseMedia.limit_to q = default 50 (UseMedia.limit (UseMedia.args w)).
Proof.
  destruct w as [u [t c l] s i cs lg].
  cbv [UseMedia.args UseMedia.query_of UseMedia.eq_type UseMedia.eq_category
       UseMedia.limit_to UseMedia.type UseMedia.category_arg UseMedia.limit
       UseMedia.given_category UseMedia.given no_type no_category].
  split; [reflexivity|]. split; [reflexivity|].
  split; [|split; [|split; [|split; [|reflexivity]]]].
  - destruct t as [[|a r]|]; cbn [falsy]; split; intros H;
      try tauto; try discriminate H.
    destruct H as [H|H]; discriminate H.
  - intros t'. destruct t as [[|a r]|]; cbn [falsy]; intros H;
      try discriminate H. exact H.
  - destruct c as [[|a r]|]; cbn [falsy]; try tauto.
    destruct (decide (String a r = "all")) as [E|E].
    + rewrite E. tauto.
    + split; [discriminate|]. intros [H|[H|H]]; try discriminate H.
      injection H as H1 H2. exfalso. apply E. rewrite H1, H2. reflexivity.
  - intros c'. destruct c as [[|a r]|]; cbn [falsy]; intros H;
      try discriminate H.
    destruct (decide (String a r = "all")); [discriminate H | exact H].
Qed.

(** X19. What a completed enrichment stores: one object per row, in the
    order of the rows and with the row's fields unchanged; for each item
    the two counts its count queries returned, and 0 where a query returned
    no count, so counts that are 0 or above; and, for a signed-out visitor,
    [is_liked_by_user] and [is_followed_by_user] false on every item
    whatever the store answered. *)
Theorem X19_enriched_media
    (u : option string) (rows : list UseMedia.MediaItem)
    (answers : list UseMedia.ItemAnswers)
    (l : list UseMedia.MediaItemWithStats) :
  UseMedia.enrich_all u rows answers = Some l ->
  map UseMedia.item l = rows /\
  Forall2 (fun a m =>
             (forall n, count (UseMedia.likesRes a) = Some n ->
                        UseMedia.likes_count m = Z.of_nat n) /\
             (count (UseMedia.likesRes a) = None ->
              UseMedia.likes_count m = 0) /\
             (forall n, count (UseMedia.followsRes a) = Some n ->
                        UseMedia.follows_count m = Z.of_nat n) /\
             (count (UseMedia.followsRes a) = None ->
              UseMedia.follows_count m = 0))
          answers l /\
  Forall (fun m => 0 <= UseMedia.likes_count m /\
                   0 <= UseMedia.follows_count m) l /\
  (u = None ->
   Forall (fun m => UseMedia.is_liked_by_user m = false /\
                    UseMedia.is_followed_by_user m = false) l).
Proof.
  revert answers l.
  induction rows as [|i rows IH]; intros [|a answers] l H;
    cbn [UseMedia.enrich_all] in H; try discriminate H.
  - injection H as <-. repeat split; constructor.
  - destruct (UseMedia.enrich_all u rows answers) as [l'|] eqn:E;
      [|discriminate H].
    injection H as <-. destruct (IH answers l' E) as (Hi & Hn & Hc & Hu).
    cbn [map]. rewrite Hi. split; [reflexivity|]. split; [|split].
    + constructor; [|exact Hn].
      cbv [UseMedia.enrich UseMedia.likes_count UseMedia.follows_count].
      repeat split; intros; match goal with
                            | H : count _ = _ |- _ => rewrite H
                            end; reflexivity.
    + constructor; [|exact Hc].
      cbv [UseMedia.enrich UseMedia.likes_count UseMedia.follows_count].
      split; apply or0_nonneg.
    + intros ->. constructor; [|exact (Hu eq_refl)].
      split; reflexivity.
Qed.

Lemma X19_enriched_media_witness :
  map UseMedia.item
      (default [] (UseMedia.enrich_all None [item1] [answers1])) = [item1] /\
  map UseMedia.is_liked_by_user
      (default [] (UseMedia.enrich_all None [item1] [answers1])) = [false] /\
  map UseMedia.likes_count
      (default [] (UseMedia.enrich_all None [item1] [answers1])) = [3] /\
  map UseMedia.follows_count
      (default [] (UseMedia.enrich_all None [item1] [answers1])) = [0].
Proof.
  destruct (X19_enriched_media None [item1] [answers1]
              [UseMedia.enrich None item1 answers1] eq_refl)
    as (Hi & _ & _).
  split; [exact Hi|]. repeat split.
Defined.

(** ** The seeding function *)

(** X20. Every response of the seeding function, on every path, carries
    the three CORS headers; its status is 200, 400 or 500; every response
    but the one to a preflight is declared as JSON; and the handler makes
    at most two calls on the store. *)
Theorem X20_seed_responses_carry_cors
    (is_Error : PostgrestError -> bool) (method : string)
    (env : SeedMedia.Env) (a : SeedMedia.Answers) :
  let r := fst (SeedMedia.serve is_Error method env a) in
  Forall (fun h => In h (SeedMedia.headers r)) SeedMedia.corsHeaders /\
  (SeedMedia.status r = 200 \/ SeedMedia.status r = 400 \/
   SeedMedia.status r = 500) /\
  (method <> "OPTIONS" ->
   In ("Content-Type", "application/json") (SeedMedia.headers r)) /\
  (length (snd (SeedMedia.serve is_Error method env a)) <= 2)%nat.
Proof.
  cbv zeta. unfold SeedMedia.serve.
  assert (Hc : forall l : list (string * string),
             Forall (fun h => In h (SeedMedia.corsHeaders ++ l)%list)
                    SeedMedia.corsHeaders).
  { intros l. apply List.Forall_forall. intros h Hh.
    apply List.in_or_app. left. exact Hh. }
  assert (Hc0 : Forall (fun h => In h SeedMedia.corsHeaders)
                       SeedMedia.corsHeaders).
  { apply List.Forall_forall. intros h Hh. exact Hh. }
  assert (Hj : In ("Content-Type", "application/json") SeedMedia.jsonHeaders).
  { unfold SeedMedia.jsonHeaders. apply List.in_or_app. right. left.
    reflexivity. }
  assert (Hj0 : In ("Content-Type", "application/json")
                   (SeedMedia.corsHeaders
                    ++ [("Content-Type", "application/json")])%list) by exact Hj.
  destruct (decide (method = "OPTIONS")) as [Hm|Hm];
    [|destruct (SeedMedia.missing (SeedMedia.SUPABASE_URL env)
                || SeedMedia.missing (SeedMedia.SUPABASE_SERVICE_ROLE_KEY env));
      [|destruct (SeedMedia.imported a);
        [destruct (SeedMedia.profilesRes a) as [res|];
         [destruct (data res) as [[|creatorId others]|];
          [| destruct (SeedMedia.insertRes a) as [ins|];
             [destruct (error ins)|] |]|]|]]];
    cbn [fst snd SeedMedia.internal_error SeedMedia.headers SeedMedia.status
         length SeedMedia.jsonHeaders];
    (split; [first [exact Hc0 | apply Hc]|]);
    (split; [tauto|]); (split; [intros H; first [contradiction | exact Hj0]|]);
    lia.
Qed.

(** X21. The function answers 200 exactly when the request is not a
    preflight, both credentials are set and non-empty, the client loads, the
    profile query returns at least one profile and the insert is accepted.
    In that case it inserted one row per entry of [mediaItems], in order,
    each under the identifier of the first profile returned, and its message
    counts the rows the store sent back (0 when it sent none). A preflight
    is the other way to get 200, with no body and no call. *)
Theorem X21_seed_success
    (is_Error : PostgrestError -> bool) (method : string)
    (env : SeedMedia.Env) (a : SeedMedia.Answers) :
  let r := fst (SeedMedia.serve is_Error method env a) in
  let calls := snd (SeedMedia.serve is_Error method env a) in
  (SeedMedia.status r = 200 <->
   method = "OPTIONS" \/ seed_goes_through method env a) /\
  (method = "OPTIONS" -> SeedMedia.body r = SeedMedia.NoBody /\ calls = []) /\
  (seed_goes_through method env a ->
   exists res creatorId others ins rows,
     SeedMedia.profilesRes a = Fulfilled res /\
     data res = Some (creatorId :: others) /\
     SeedMedia.insertRes a = Fulfilled ins /\
     calls = [SeedMedia.SelectProfile; SeedMedia.InsertMedia rows] /\
     map SeedMedia.item rows = SeedMedia.mediaItems /\
     Forall (fun row => SeedMedia.creator_id row = creatorId) rows /\
     SeedMedia.body r
     = SeedMedia.SuccessBody
         ("Created " +:+ pretty (length (default [] (data ins)))
          +:+ " media items")
         (data ins)).
Proof.
  cbv zeta. unfold seed_goes_through, SeedMedia.serve.
  destruct (decide (method = "OPTIONS")) as [Hm|Hm].
  { cbn [fst snd SeedMedia.status SeedMedia.body].
    split; [tauto|]. split; [tauto|]. intros (H & _). contradiction. }
  destruct (SeedMedia.missing (SeedMedia.SUPABASE_URL env)) eqn:Hu.
  { cbn [orb fst snd SeedMedia.status SeedMedia.internal_error].
    split; [split; [discriminate|intros [H|(_ & H & _)]; [contradiction|
                                                          discriminate H]]|].
    split; [intros H; contradiction|]. intros (_ & H & _). discriminate H. }
  destruct (SeedMedia.missing (SeedMedia.SUPABASE_SERVICE_ROLE_KEY env))
    eqn:Hk.
  { cbn [orb fst snd SeedMedia.status SeedMedia.internal_error].
    split; [split; [discriminate|intros [H|(_ & _ & H & _)];
                                 [contradiction|discriminate H]]|].
    split; [intros H; contradiction|]. intros (_ & _ & H & _).
    discriminate H. }
  cbn [orb].
  destruct (SeedMedia.imported a) as [u|reason] eqn:Hi.
  2:{ cbn [fst snd SeedMedia.status SeedMedia.internal_error].
      split; [split; [discriminate|
                      intros [H|(_ & _ & _ & (u & H) & _)];
                      [contradiction|discriminate H]]|].
      split; [intros H; contradiction|].
      intros (_ & _ & _ & (u & H) & _). discriminate H. }
  destruct (SeedMedia.profilesRes a) as [res|reason] eqn:Hp.
  2:{ cbn [fst snd SeedMedia.status SeedMedia.internal_error].
      split; [split; [discriminate|
                      intros [H|(_ & _ & _ & _ & (r & c & o & H & _) & _)];
                      [contradiction|discriminate H]]|].
      split; [intros H; contradiction|].
      intros (_ & _ & _ & _ & (r & c & o & H & _) & _). discriminate H. }
  destruct (data res) as [[|creatorId others]|] eqn:Hd.
  1,3: cbn [fst snd SeedMedia.status];
       (split; [split; [discriminate|
                intros [H|(_ & _ & _ & _ & (r & c & o & H & H') & _)];
                [contradiction|injection H as <-; rewrite Hd in H';
                               discriminate H']]|]);
       (split; [intros H; contradiction|]);
       intros (_ & _ & _ & _ & (r & c & o & H & H') & _);
       injection H as <-; rewrite Hd in H'; discriminate H'.
  destruct (SeedMedia.insertRes a) as [ins|reason] eqn:Hins.
  2:{ cbn [fst snd SeedMedia.status SeedMedia.internal_error].
      split; [split; [discriminate|
                      intros [H|(_ & _ & _ & _ & _ & (i & H & _))];
                      [contradiction|discriminate H]]|].
      split; [intros H; contradiction|].
      intros (_ & _ & _ & _ & _ & (i & H & _)). discriminate H. }
  destruct (error ins) as [e|] eqn:He.
  { cbn [fst snd SeedMedia.status SeedMedia.internal_error].
    split; [split; [discriminate|
                    intros [H|(_ & _ & _ & _ & _ & (i & H & H'))];
                    [contradiction|injection H as <-; rewrite He in H';
                                   discriminate H']]|].
    split; [intros H; contradiction|].
    intros (_ & _ & _ & _ & _ & (i & H & H')).
    injection H as <-. rewrite He in H'. discriminate H'. }
  cbn [fst snd SeedMedia.status SeedMedia.body].
  split.
  { split; [intros _; right|reflexivity].
    split; [exact Hm|]. split; [reflexivity|]. split; [reflexivity|].
    split; [exists u; reflexivity|].
    split; [exists res, creatorId, others; split; [reflexivity|exact Hd]|].
    exists ins. split; [reflexivity|exact He]. }
  split; [intros H; contradiction|]. intros _.
  exists res, creatorId, others, ins. eexists.
  split; [reflexivity|]. split; [exact Hd|]. split; [reflexivity|].
  split; [reflexivity|].
  split; [rewrite List.map_map; cbn [SeedMedia.item]; apply List.map_id|].
  split; [|reflexivity].
  apply List.Forall_forall. intros row Hrow.
  apply List.in_map_iff in Hrow as (i & <- & _). reflexivity.
Qed.

Lemma X21_seed_success_witness :
  exists rows,
    SeedMedia.serve (fun _ => false) "POST" env0
      (seed_answers (ok (Some ["c1"; "c2"])) (ok None))
    = ({| SeedMedia.status := 200;
          SeedMedia.headers := SeedMedia.jsonHeaders;
          SeedMedia.body
          := SeedMedia.SuccessBody "Created 0 media items" None |},
       [SeedMedia.SelectProfile; SeedMedia.InsertMedia rows]) /\
    length rows = 10%nat /\
    Forall (fun row => SeedMedia.creator_id row = "c1") rows.
Proof.
  destruct (X21_seed_success (fun _ => false) "POST" env0
              (seed_answers (ok (Some ["c1"; "c2"])) (ok None)))
    as (_ & _ & H).
  destruct H as (res & creatorId & others & ins & rows
                 & Hp & Hd & Hi & Hc & Hm & Hall & Hb).
  - split; [discriminate|]. split; [reflexivity|]. split; [reflexivity|].
    split; [exists tt; reflexivity|].
    split; [exists (ok (Some ["c1"; "c2"])), "c1", ["c2"];
            split; reflexivity|].
    exists (ok None). split; reflexivity.
  - injection Hp as <-. injection Hd as <- <-. injection Hi as <-.
    exists rows. split; [|split; [|exact Hall]].
    + vm_compute in Hc. injection Hc as <-. reflexivity.
    + rewrite <- (List.length_map SeedMedia.item), Hm. reflexivity.
Defined.

(** X22. The two early exits of the seeding function. With a credential
    unset or empty it answers 500 "Missing Supabase credentials" without
    calling the store. When the profile query comes back without rows it
    answers 400 "No profiles found. Please create a user first." and does
    not attempt the insert; the [error] of that response is not looked at,
    so a query the store refused is reported the same way as an empty
    table. *)
Theorem X22_seed_early_exits
    (is_Error : PostgrestError -> bool) (method : string)
    (env : SeedMedia.Env) (a : SeedMedia.Answers) :
  method <> "OPTIONS" ->
  (SeedMedia.missing (SeedMedia.SUPABASE_URL env) = true \/
   SeedMedia.missing (SeedMedia.SUPABASE_SERVICE_ROLE_KEY env) = true ->
   SeedMedia.serve is_Error method env a
   = ({| SeedMedia.status := 500;
         SeedMedia.headers := SeedMedia.jsonHeaders;
         SeedMedia.body := SeedMedia.ErrorBody "Missing Supabase credentials" |},
      [])) /\
  (forall u res,
     SeedMedia.missing (SeedMedia.SUPABASE_URL env) = false ->
     SeedMedia.missing (SeedMedia.SUPABASE_SERVICE_ROLE_KEY env) = false ->
     SeedMedia.imported a = Fulfilled u ->
     SeedMedia.profilesRes a = Fulfilled res ->
     data res = None \/ data res = Some [] ->
     SeedMedia.serve is_Error method env a
     = ({| SeedMedia.status := 400;
           SeedMedia.headers := SeedMedia.jsonHeaders;
           SeedMedia.body
           := SeedMedia.ErrorBody
                "No profiles found. Please create a user first." |},
        [SeedMedia.SelectProfile])).
Proof.
  intros Hm. unfold SeedMedia.serve.
  rewrite decide_False by exact Hm. split.
  - intros [H|H]; rewrite H; [|rewrite orb_true_r]; reflexivity.
  - intros u res Hu Hk Hi Hp Hd. rewrite Hu, Hk, Hi, Hp. cbn [orb].
    destruct Hd as [Hd|Hd]; rewrite Hd; reflexivity.
Qed.

Lemma X22_seed_early_exits_witness :
  SeedMedia.status
    (fst (SeedMedia.serve (fun _ => false) "POST"
            {| SeedMedia.SUPABASE_URL := Some "";
               SeedMedia.SUPABASE_SERVICE_ROLE_KEY := Some "service-key" |}
            (seed_answers (ok None) (ok None)))) = 500 /\
  SeedMedia.serve (fun _ => false) "POST" env0
    (seed_answers (failed foreign_key_violation) (ok None))
  = ({| SeedMedia.status := 400;
        SeedMedia.headers := SeedMedia.jsonHeaders;
        SeedMedia.body
        := SeedMedia.ErrorBody
             "No profiles found. Please create a user first." |},
     [SeedMedia.SelectProfile]).
Proof.
  split.
  - rewrite (proj1 (X22_seed_early_exits (fun _ => false) "POST"
                      {| SeedMedia.SUPABASE_URL := Some "";
                         SeedMedia.SUPABASE_SERVICE_ROLE_KEY
                         := Some "service-key" |}
                      (seed_answers (ok None) (ok None))
                      ltac:(discriminate)) (or_introl eq_refl)).
    reflexivity.
  - apply (proj2 (X22_seed_early_exits (fun _ => false) "POST" env0
                    (seed_answers (failed foreign_key_violation) (ok None))
                    ltac:(discriminate)) tt (failed foreign_key_violation));
      try reflexivity.
    left. reflexivity.
Defined.

(** ** App *)

Lemma app_loading_step (e : App.Event) (w w' : App.World) :
  App.loading (App.st w) = true ->
  App.loading (App.view w) = true ->
  ~ In App.SignOut (App.calls w) ->
  session_answer e = false ->
  App.step e w = Some w' ->
  App.loading (App.st w') = true /\
  App.loading (App.view w') = true /\
  ~ In App.SignOut (App.calls w').
Proof.
  intros Hl Hv Hc He Hstep.
  destruct w as [[se ps ld] [vse vps vld] infl cs sub unh].
  cbn [App.st App.view App.loading App.calls] in Hl, Hv, Hc. subst ld vld.
  destruct e as [| |s| |i o]; cbn in Hstep.
  - destruct sub; [discriminate|]. injection Hstep as <-.
    repeat split. cbn. intros [H|H]; [discriminate H|exact (Hc H)].
  - destruct sub; [|discriminate]. injection Hstep as <-.
    unfold App.render. cbn [App.st App.view App.session].
    destruct (decide (se = vse)); [repeat split; exact Hc|].
    destruct se; repeat split; try exact Hc.
    cbn. intros [H|H]; [discriminate H|exact (Hc H)].
  - destruct sub; [|discriminate]. injection Hstep as <-.
    repeat split. exact Hc.
  - discriminate Hstep.
  - destruct (infl !! i) as [t|]; [|discriminate Hstep].
    destruct t; destruct o as [[s|r|]|reason]; cbn in Hstep, He;
      try discriminate Hstep; try discriminate He;
      injection Hstep as <-; repeat split; exact Hc.
Qed.

(** X23. The app leaves its "Loading..." screen only on the answer of
    [getSession]. Until that answer is delivered, whatever auth events
    arrive (a sign-in included), however often the app renders and
    whatever else settles or throws, the screen stays the loading screen
    and the sign-out button cannot be used; if [getSession] throws, nothing
    ever ends the loading. *)
Theorem X23_app_loads_until_getSession_answers
    (es : list App.Event) (w : App.World) :
  forallb (fun e => negb (session_answer e)) es = true ->
  App.run es App.fresh = Some w ->
  App.screen (App.st w) = App.LoadingScreen /\
  App.screen (App.view w) = App.LoadingScreen /\
  ~ In App.SignOut (App.calls w).
Proof.
  intros Hes Hrun.
  assert (H : forall es w0,
             App.loading (App.st w0) = true ->
             App.loading (App.view w0) = true ->
             ~ In App.SignOut (App.calls w0) ->
             forallb (fun e => negb (session_answer e)) es = true ->
             App.run es w0 = Some w ->
             App.loading (App.st w) = true /\
             App.loading (App.view w) = true /\
             ~ In App.SignOut (App.calls w)).
  { clear. induction es as [|e es IH]; intros w0 Hl Hv Hc Hes Hrun.
    - injection Hrun as <-. repeat split; assumption.
    - cbn [forallb] in Hes. apply andb_true_iff in Hes as [He Hes].
      apply negb_true_iff in He.
      cbn [App.run] in Hrun.
      destruct (App.step e w0) as [w1|] eqn:Hs; [|discriminate Hrun].
      destruct (app_loading_step e w0 w1 Hl Hv Hc He Hs) as (Hl1 & Hv1 & Hc1).
      exact (IH w1 Hl1 Hv1 Hc1 Hes Hrun). }
  destruct (H es App.fresh eq_refl eq_refl (fun x => x) Hes Hrun)
    as (Hl & Hv & Hc).
  unfold App.screen. rewrite Hl, Hv. repeat split. exact Hc.
Qed.

Lemma X23_app_loads_until_getSession_answers_witness :
  exists w,
    App.run [App.Mount;
             App.AuthChange (Some {| App.ref := 1; App.user_id := "u1" |});
             App.Render;
             App.Settle 1 (Rejected "offline")] App.fresh = Some w /\
    App.screen (App.view w) = App.LoadingScreen /\
    App.calls w = [App.SelectProfiles; App.GetSession] /\
    App.session (App.st w)
    = Some {| App.ref := 1; App.user_id := "u1" |}.
Proof.
  eexists. split; [reflexivity|]. split; [|split; reflexivity].
  refine (proj1 (proj2 (X23_app_loads_until_getSession_answers
                   [App.Mount;
                    App.AuthChange
                      (Some {| App.ref := 1; App.user_id := "u1" |});
                    App.Render;
                    App.Settle 1 (Rejected "offline")] _ eq_refl eq_refl))).
Defined.
